(** * adocli: the request/resolution layer, embedded and verified

  A shallow embedding of the Go sources of [gyurisc/adocli]
  ([internal/api] and [cmd]) together with the properties its design
  document states about them.  Go strings are byte strings ([string]),
  Go [int]s are [Z] (the code never computes on them), and the effects
  of a command (network calls through the client's HTTP transport,
  writes to the standard streams) are threaded through an explicit
  [World]. *)

From Stdlib Require Import ZArith String Ascii List Lia Bool DecimalString.
From Stdlib Require DecimalPos DecimalZ.
From stdpp Require Import base option list gmap strings sorting.

Local Open Scope string_scope.

(** ** The part of Go's [strings] and [strconv] packages the code uses *)

Module gostrings.

(** [s[n:]] *)
Fixpoint sliceFrom (n : nat) (s : string) : string :=
  match n, s with
  | O, _ => s
  | S n', String _ s' => sliceFrom n' s'
  | S _, EmptyString => EmptyString
  end.

(** [s[:n]] *)
Fixpoint sliceTo (n : nat) (s : string) : string :=
  match n, s with
  | O, _ => EmptyString
  | S n', String a s' => String a (sliceTo n' s')
  | S _, EmptyString => EmptyString
  end.

(** [len(s) >= len(prefix) && s[:len(prefix)] == prefix] *)
Definition HasPrefix (s prefix : string) : bool :=
  (String.length prefix <=? String.length s)%nat
  && String.eqb (sliceTo (String.length prefix) s) prefix.

(** [len(s) >= len(suffix) && s[len(s)-len(suffix):] == suffix] *)
Definition HasSuffix (s suffix : string) : bool :=
  (String.length suffix <=? String.length s)%nat
  && String.eqb (sliceFrom (String.length s - String.length suffix) s) suffix.

Definition TrimPrefix (s prefix : string) : string :=
  if HasPrefix s prefix then sliceFrom (String.length prefix) s else s.

Definition TrimSuffix (s suffix : string) : string :=
  if HasSuffix s suffix
  then sliceTo (String.length s - String.length suffix) s
  else s.

(** [strings.ReplaceAll(s, old, new)] for a one-byte [old], the only
    way the sources call it. *)
Fixpoint ReplaceAll (s : string) (old : ascii) (new : string) : string :=
  match s with
  | EmptyString => EmptyString
  | String a s' =>
      (if Ascii.eqb a old then new else String a EmptyString)
        +:+ ReplaceAll s' old new
  end.

(** [strings.Join(elems, sep)] *)
Definition Join (elems : list string) (sep : string) : string :=
  String.concat sep elems.

(** [strconv.Itoa], also the [%d] verb of [fmt]. *)
Definition Itoa (i : Z) : string := NilZero.string_of_int (Z.to_int i).

(** The escapes [\t] and [\n] of Go's string literals. *)
Definition tab : string := String (ascii_of_nat 9) EmptyString.
Definition newline : string := String (ascii_of_nat 10) EmptyString.

(** The builtin [append(slice, x)]. *)
Definition append {A : Type} (slice : list A) (x : A) : list A :=
  (slice ++ [x])%list.

(** [strings.Cut(s, sep)] for a one-byte [sep]: the text before the
    first [sep], the text after it, and whether [sep] was found. *)
Fixpoint Cut (s : string) (sep : ascii) : string * string * bool :=
  match s with
  | EmptyString => (EmptyString, EmptyString, false)
  | String a s' =>
      if Ascii.eqb a sep then (EmptyString, s', true)
      else let '(before, after, found) := Cut s' sep in
           (String a before, after, found)
  end.

(** [strings.Split(s, sep)] for a one-byte [sep]. *)
Fixpoint Split (s : string) (sep : ascii) : list string :=
  match s with
  | EmptyString => [EmptyString]
  | String a s' =>
      if Ascii.eqb a sep then EmptyString :: Split s' sep
      else match Split s' sep with
           | seg :: segs => String a seg :: segs
           | [] => [String a EmptyString]
           end
  end.

(** [strings.ContainsRune(s, c)] for a one-byte [c]. *)
Fixpoint ContainsByte (s : string) (c : ascii) : bool :=
  match s with
  | EmptyString => false
  | String a s' => Ascii.eqb a c || ContainsByte s' c
  end.

Definition isDigit (c : ascii) : bool :=
  (48 <=? N_of_ascii c)%N && (N_of_ascii c <=? 57)%N.

(** The digit loop of [strconv.Atoi]. *)
Fixpoint parseDigits (s : string) (acc : Z) : option Z :=
  match s with
  | EmptyString => Some acc
  | String c s' =>
      if isDigit c
      then parseDigits s' (10 * acc + (Z.of_N (N_of_ascii c) - 48))%Z
      else None
  end.

(** [strconv.Atoi]: an optional sign, then one or more decimal digits,
    the value within the range of a 64-bit [int]; [None] stands for the
    returned error, which the callers replace by their own. *)
Definition Atoi (s : string) : option Z :=
  let '(neg, digits) :=
    match s with
    | String c rest =>
        if Ascii.eqb c "+" then (false, rest)
        else if Ascii.eqb c "-" then (true, rest)
        else (false, s)
    | EmptyString => (false, s)
    end in
  if digits =? "" then None
  else match parseDigits digits 0 with
       | None => None
       | Some n =>
           let v := if neg then (- n)%Z else n in
           if ((- 2 ^ 63 <=? v) && (v <=? 2 ^ 63 - 1))%Z then Some v else None
       end.

(** How many bytes of [s] are equal to [c]. *)
Fixpoint CountByte (s : string) (c : ascii) : nat :=
  match s with
  | EmptyString => 0
  | String a s' => (if Ascii.eqb a c then 1 else 0) + CountByte s' c
  end.

(** [s[len(s)-1]], when [s] is not empty. *)
Fixpoint lastByte (s : string) : option ascii :=
  match s with
  | EmptyString => None
  | String a EmptyString => Some a
  | String _ s' => lastByte s'
  end.

(** [strings.Contains(s, substr)] *)
Fixpoint Containsb (s substr : string) : bool :=
  String.prefix substr s
  || match s with
     | EmptyString => false
     | String _ s' => Containsb s' substr
     end.

(** [substr] occurs in [s]. *)
Definition Contains (s substr : string) : Prop :=
  exists pre post : string, s = pre +:+ substr +:+ post.

End gostrings.

(** ** The part of [net/url] the transport relies on *)

Module neturl.

(** [url.Values], a [map[string][]string]. *)
Abbreviation Values := (gmap string (list string)).

Record URL := mkURL {
  Base : string;      (** scheme, host and path, as written before the first [?] *)
  RawQuery : string;  (** the text between the first [?] and the fragment *)
  Fragment : string;
}.

(** [u.String()] for the three parts kept here. *)
Definition URLString (u : URL) : string :=
  Base u
  +:+ (if RawQuery u =? "" then "" else "?" +:+ RawQuery u)
  +:+ (if Fragment u =? "" then "" else "#" +:+ Fragment u).

Definition isAlnum (c : ascii) : bool :=
  let n := N_of_ascii c in
  ((97 <=? n) && (n <=? 122) || (65 <=? n) && (n <=? 90)
   || (48 <=? n) && (n <=? 57))%N.

(** [shouldEscape(c, encodeQueryComponent)]: everything but the
    unreserved characters is escaped. *)
Definition shouldEscape (c : ascii) : bool :=
  if isAlnum c then false
  else if (Ascii.eqb c "-" || Ascii.eqb c "_" || Ascii.eqb c "." || Ascii.eqb c "~")
  then false
  else true.

Definition upperhex (n : N) : ascii :=
  match String.get (N.to_nat n) "0123456789ABCDEF" with
  | Some c => c
  | None => "0"%char
  end.

Definition ishex (c : ascii) : bool :=
  let n := N_of_ascii c in
  ((48 <=? n) && (n <=? 57) || (97 <=? n) && (n <=? 102)
   || (65 <=? n) && (n <=? 70))%N.

Definition unhex (c : ascii) : N :=
  let n := N_of_ascii c in
  if ((48 <=? n) && (n <=? 57))%N then (n - 48)%N
  else if ((97 <=? n) && (n <=? 102))%N then (n - 97 + 10)%N
  else if ((65 <=? n) && (n <=? 70))%N then (n - 65 + 10)%N
  else 0%N.

(** [url.QueryEscape]. *)
Fixpoint QueryEscape (s : string) : string :=
  match s with
  | EmptyString => EmptyString
  | String c s' =>
      if Ascii.eqb c " " then String "+" (QueryEscape s')
      else if shouldEscape c
      then String "%"
             (String (upperhex (N.shiftr (N_of_ascii c) 4))
                (String (upperhex (N.land (N_of_ascii c) 15))
                   (QueryEscape s')))
      else String c (QueryEscape s')
  end.

(** [url.QueryUnescape]; [None] is the [EscapeError] for a [%] that
    two hexadecimal digits do not follow. *)
Fixpoint QueryUnescape (s : string) : option string :=
  match s with
  | EmptyString => Some EmptyString
  | String c rest =>
      if Ascii.eqb c "%"
      then match rest with
           | String h (String l rest') =>
               if ishex h && ishex l
               then option_map
                      (String (ascii_of_N (N.lor (N.shiftl (unhex h) 4) (unhex l))))
                      (QueryUnescape rest')
               else None
           | _ => None
           end
      else if Ascii.eqb c "+"
      then option_map (String " ") (QueryUnescape rest)
      else option_map (String c) (QueryUnescape rest)
  end.

(** One round of the loop of [parseQuery], on the text of one
    [&]-separated pair; a malformed pair is dropped. *)
Definition parsePair (m : Values) (key : string) : Values :=
  if gostrings.ContainsByte key ";" then m
  else if key =? "" then m
  else
    let '(key, value, _) := gostrings.Cut key "=" in
    match QueryUnescape key with
    | None => m
    | Some key =>
        match QueryUnescape value with
        | None => m
        | Some value => <[key := gostrings.append (default [] (m !! key)) value]> m
        end
    end.

(** [ParseQuery] with its error dropped, which is [u.Query()]: the loop
    cuts the query at each [&] in turn, that is, it walks the pairs of
    [strings.Split(query, "&")]. *)
Definition ParseQuery (query : string) : Values :=
  fold_left parsePair (gostrings.Split query "&") ∅.

Definition Query (u : URL) : Values := ParseQuery (RawQuery u).

(** [v.Set(key, value)] *)
Definition Set_ (v : Values) (key value : string) : Values :=
  <[key := [value]]> v.

(** [v.Encode()]: keys in sorted order, an [&] before every pair but
    the first one written. *)
Definition Encode (v : Values) : string :=
  if decide (size v = 0) then ""
  else
    let keys := merge_sort String.le (map fst (map_to_list v)) in
    fold_left
      (fun buf k =>
         let vs := default [] (v !! k) in
         let keyEscaped := QueryEscape k in
         fold_left
           (fun buf v =>
              let buf := if (0 <? String.length buf)%nat then buf +:+ "&" else buf in
              buf +:+ keyEscaped +:+ "=" +:+ QueryEscape v)
           vs buf)
      keys "".

End neturl.

(** ** Package [internal/api] *)

Module api.

(** *** Wire data *)

Record IdentityRef := mkIdentityRef {
  IdentityRef_ID : string;
  IdentityRef_DisplayName : string;
  IdentityRef_UniqueName : string;
}.

Record Reviewer := mkReviewer {
  Reviewer_ID : string;
  Reviewer_DisplayName : string;
  Reviewer_UniqueName : string;
  Reviewer_Vote : Z;
}.

Record PRRepository := mkPRRepository {
  PRRepository_ID : string;
  PRRepository_Name : string;
}.

Record PullRequest := mkPullRequest {
  PullRequest_ID : Z;
  PullRequest_Title : string;
  PullRequest_Description : string;
  PullRequest_Status : string;
  PullRequest_CreatedBy : IdentityRef;
  PullRequest_CreationDate : string;
  PullRequest_SourceBranch : string;
  PullRequest_TargetBranch : string;
  PullRequest_MergeStatus : string;
  PullRequest_IsDraft : bool;
  PullRequest_Repository : PRRepository;
  PullRequest_Reviewers : list Reviewer;
  PullRequest_URL : string;
}.

Record Repository := mkRepository {
  Repository_ID : string;
  Repository_Name : string;
  Repository_URL : string;
}.

Record repositoryList := mkRepositoryList {
  repositoryList_Count : Z;
  repositoryList_Value : list Repository;
}.

Record ConnectionData := mkConnectionData {
  ConnectionData_AuthenticatedUser : IdentityRef;
}.

Record WiqlWorkItemRef := mkWiqlWorkItemRef {
  WiqlWorkItemRef_ID : Z;
  WiqlWorkItemRef_URL : string;
}.

Record WiqlResult := mkWiqlResult {
  WiqlResult_WorkItems : list WiqlWorkItemRef;
}.

(** A value of the open-ended [Fields] map of a work item, an
    [interface{}] in the source: a string, a nested object (of which
    the code reads [displayName]), or anything else; the last two carry
    their [%v] rendering. *)
Inductive FieldValue :=
| FieldString (s : string)
| FieldObject (displayName : option string) (printed : string)
| FieldOther (printed : string).

Record WorkItem := mkWorkItem {
  WorkItem_ID : Z;
  WorkItem_Rev : Z;
  WorkItem_Fields : gmap string FieldValue;
  WorkItem_URL : string;
}.

Record WorkItemList := mkWorkItemList {
  WorkItemList_Count : Z;
  WorkItemList_Value : list WorkItem;
}.

(** One JSON Patch operation; [Value] is always a string here. *)
Record PatchField := mkPatchField {
  Op : string;
  Path : string;
  Value : string;
}.

(** The values handed to [encoding/json] for writing. *)
Inductive Payload :=
| VoteBody (vote : Z)                    (** [map[string]int{"vote": vote}] *)
| WiqlBody (query : string)              (** [map[string]string{"query": wiql}] *)
| PatchBody (fields : list PatchField)   (** [[]PatchField] *)
| VoteOutput (pullRequestId vote : Z) (status : string)
    (** the [map[string]interface{}] a vote prints in JSON format *)
| WorkItemOutput (wi : WorkItem).        (** [*WorkItem] *)

(** *** Errors *)

(** [api.Error] *)
Record Error := mkError {
  StatusCode : Z;
  Body : string;
}.

Definition Error_Error (e : Error) : string :=
  "Azure DevOps API error (HTTP " +:+ gostrings.Itoa (StatusCode e) +:+ "): " +:+ Body e.

(** The values of Go's [error] interface that occur. *)
Inductive error :=
| errorString (msg : string)                (** [fmt.Errorf] without [%w], and errors of the libraries *)
| wrapError (context : string) (err : error)   (** [fmt.Errorf(context + "%w", err)] *)
| apiError (e : Error).                     (** [*api.Error] *)

(** [err.Error()] *)
Fixpoint error_Error (err : error) : string :=
  match err with
  | errorString msg => msg
  | wrapError context err' => context +:+ error_Error err'
  | apiError e => Error_Error e
  end.

Inductive Result (A : Type) :=
| Ok (a : A)
| Err (err : error).
Arguments Ok {A} a.
Arguments Err {A} err.

(** *** Requests, responses and the world *)

Record Request := mkRequest {
  Method : string;
  URL : neturl.URL;
  Header : gmap string (list string);
  RequestBody : option string;
}.

Record Response := mkResponse {
  Response_StatusCode : Z;
  Response_Body : string;
}.

(** What a command can change: the requests handed to the HTTP
    transport so far, oldest first, and the two output streams. *)
Record World := mkWorld {
  calls : list Request;
  stdout : string;
  stderr : string;
}.

Definition emptyWorld : World := mkWorld [] "" "".

(** What the sources take from outside the repository: the HTTP
    transport behind [c.HTTP] (a stub in tests; it may answer by the
    calls made before), the checks of [url.Parse], [encoding/json]
    ([json_EncodeIndent] is what an encoder with the two-space indent
    writes), [encoding/base64], and two library functions on strings. *)
Class Runtime := {
  transport : list Request -> Request -> string + Response;
  url_parse_error : string -> option string;
  json_Marshal : Payload -> string + string;
  json_EncodeIndent : Payload -> string + string;
  base64_EncodeToString : string -> string;
  decode_PullRequest : string -> string + PullRequest;
  decode_ConnectionData : string -> string + ConnectionData;
  decode_repositoryList : string -> string + repositoryList;
  decode_WiqlResult : string -> string + WiqlResult;
  decode_WorkItem : string -> string + WorkItem;
  decode_WorkItemList : string -> string + WorkItemList;
  strings_EqualFold : string -> string -> bool;
  strconv_Quote : string -> string;
}.

(** Computations that may fail and that change the world. *)
Definition M (A : Type) : Type := World -> Result A * World.

Definition ret {A : Type} (a : A) : M A := fun w => (Ok a, w).

Definition fail {A : Type} (err : error) : M A := fun w => (Err err, w).

Definition bind {A B : Type} (m : M A) (k : A -> M B) : M B :=
  fun w =>
    match m w with
    | (Ok a, w') => k a w'
    | (Err err, w') => (Err err, w')
    end.

(** [if err != nil { return ..., wrap(err) }] *)
Definition orReturn {A : Type} (m : M A) (wrap : error -> error) : M A :=
  fun w =>
    match m w with
    | (Ok a, w') => (Ok a, w')
    | (Err err, w') => (Err (wrap err), w')
    end.

Definition lift {A : Type} (r : Result A) : M A := fun w => (r, w).

(** [fmt.Errorf(context + "%w", err)] and [fmt.Errorf(msg)] *)
Definition Errorf_w (context : string) (err : error) : error :=
  wrapError context err.
Definition Errorf (msg : string) : error := errorString msg.

Declare Scope go_scope.
Delimit Scope go_scope with go.
Notation "x <- m ;; k" := (bind m (fun x => k))
  (at level 62, m at next level, right associativity) : go_scope.
Notation "m 'or_return' f" := (orReturn m f)
  (at level 60, right associativity) : go_scope.
Local Open Scope go_scope.

(** *** The client *)

Section WithRuntime.
Context `{Runtime}.

Definition defaultAPIVersion : string := "7.1".

Record Client := mkClient {
  BaseURL : string;
  PAT : string;
  APIVersion : string;
}.

Definition NewClient (org pat : string) : Client :=
  {| BaseURL := "https://dev.azure.com/" +:+ org +:+ "/_apis";
     PAT := pat;
     APIVersion := defaultAPIVersion |}.

Definition authHeader (c : Client) : string :=
  let token := base64_EncodeToString (":" +:+ PAT c) in
  "Basic " +:+ token.

(** [url.Parse]: the fragment is cut off at the first [#], the query
    at the first [?]. *)
Definition url_Parse (rawURL : string) : Result neturl.URL :=
  match url_parse_error rawURL with
  | Some msg => Err (errorString msg)
  | None =>
      let '(u, frag, _) := gostrings.Cut rawURL "#" in
      let '(rest, query, _) := gostrings.Cut u "?" in
      Ok {| neturl.Base := rest; neturl.RawQuery := query; neturl.Fragment := frag |}
  end.

(** [http.NewRequest] *)
Definition http_NewRequest (method rawURL : string) (body : option string)
  : Result Request :=
  match url_Parse rawURL with
  | Err err => Err err
  | Ok u => Ok {| Method := method; URL := u; Header := ∅; RequestBody := body |}
  end.

(** [req.Header.Set(key, value)] *)
Definition Header_Set (req : Request) (key value : string) : Request :=
  {| Method := Method req; URL := URL req;
     Header := <[key := [value]]> (Header req);
     RequestBody := RequestBody req |}.

(** [req.URL.RawQuery = rawQuery] *)
Definition set_RawQuery (req : Request) (rawQuery : string) : Request :=
  {| Method := Method req;
     URL := {| neturl.Base := neturl.Base (URL req);
               neturl.RawQuery := rawQuery;
               neturl.Fragment := neturl.Fragment (URL req) |};
     Header := Header req;
     RequestBody := RequestBody req |}.

(** [c.HTTP.Do(req)]: the one place where a network call is made. *)
Definition HTTP_Do (req : Request) : M Response :=
  fun w =>
    let w' := {| calls := gostrings.append (calls w) req;
                 stdout := stdout w; stderr := stderr w |} in
    match transport (calls w) req with
    | inl msg => (Err (errorString msg), w')
    | inr resp => (Ok resp, w')
    end.

(** The marshalling of the optional body, shared by [do] and [doRaw]. *)
Definition marshalBody (body : option Payload) : Result (option string) :=
  match body with
  | None => Ok None
  | Some b =>
      match json_Marshal b with
      | inl msg => Err (Errorf_w "marshaling request body: " (errorString msg))
      | inr data => Ok (Some data)
      end
  end.

(** [do] executes an HTTP request and returns the response. *)
Definition do (c : Client) (method path : string) (body : option Payload)
  : M Response :=
  reqBody <- lift (marshalBody body) ;;
  let url := BaseURL c +:+ "/" +:+ path in
  req <- lift (http_NewRequest method url reqBody)
           or_return (Errorf_w "creating request: ") ;;
  let req := Header_Set req "Authorization" (authHeader c) in
  let req := Header_Set req "Content-Type" "application/json" in
  let q := neturl.Query (URL req) in
  let q := neturl.Set_ q "api-version" (APIVersion c) in
  let req := set_RawQuery req (neturl.Encode q) in
  resp <- HTTP_Do req or_return (Errorf_w "executing request: ") ;;
  ret resp.

(** [doRaw] executes an HTTP request with a caller-specified full URL
    and content type. *)
Definition doRaw (c : Client) (method rawURL contentType : string)
    (body : option Payload) : M Response :=
  reqBody <- lift (marshalBody body) ;;
  req <- lift (http_NewRequest method rawURL reqBody)
           or_return (Errorf_w "creating request: ") ;;
  let req := Header_Set req "Authorization" (authHeader c) in
  let req := Header_Set req "Content-Type" contentType in
  let q := neturl.Query (URL req) in
  let q := neturl.Set_ q "api-version" (APIVersion c) in
  let req := set_RawQuery req (neturl.Encode q) in
  resp <- HTTP_Do req or_return (Errorf_w "executing request: ") ;;
  ret resp.

(** The [result interface{}] argument of [decodeOrClose]: [nil], or a
    pointer to a variable of a type with a JSON decoder, which the call
    fills. *)
Inductive Target : Type -> Type :=
| nilTarget : Target unit
| into {T : Type} (decode : string -> string + T) : Target T.

(** [decodeOrClose] reads the response body into [result].  The
    deferred [resp.Body.Close()] has no effect on what is returned and is
    left out. *)
Definition decodeOrClose {T : Type} (resp : Response) (result : Target T)
  : Result T :=
  if (Response_StatusCode resp >=? 400)%Z
  then
    let body := Response_Body resp in
    Err (apiError {| StatusCode := Response_StatusCode resp; Body := body |})
  else
    match result in Target T return Result T with
    | into decode =>
        match decode (Response_Body resp) with
        | inl msg => Err (errorString msg)
        | inr v => Ok v
        end
    | nilTarget => Ok tt
    end.

(** [Get] performs a GET request and decodes the JSON response. *)
Definition Get {T : Type} (c : Client) (path : string) (result : Target T) : M T :=
  resp <- do c "GET" path None ;;
  lift (decodeOrClose resp result).

Definition ProjectURL (c : Client) (project path : string) : string :=
  let orgBase := gostrings.TrimSuffix (BaseURL c) "/_apis" in
  orgBase +:+ "/" +:+ project +:+ "/_apis/" +:+ path.

(** [internal/api/pullrequests.go] *)

Definition ListRepositories (c : Client) (project : string) : M (list Repository) :=
  let rawURL := ProjectURL c project "git/repositories" in
  resp <- doRaw c "GET" rawURL "application/json" None ;;
  result <- lift (decodeOrClose resp (into decode_repositoryList)) ;;
  ret (repositoryList_Value result).

Definition GetPullRequest (c : Client) (project : string) (id : Z) : M PullRequest :=
  let rawURL := ProjectURL c project ("git/pullrequests/" +:+ gostrings.Itoa id) in
  resp <- doRaw c "GET" rawURL "application/json" None ;;
  pr <- lift (decodeOrClose resp (into decode_PullRequest)) ;;
  ret pr.

Definition VotePullRequest (c : Client) (project repoID : string) (prID : Z)
    (reviewerID : string) (vote : Z) : M unit :=
  let path := "git/repositories/" +:+ repoID +:+ "/pullrequests/"
              +:+ gostrings.Itoa prID +:+ "/reviewers/" +:+ reviewerID in
  let rawURL := ProjectURL c project path in
  let body := VoteBody vote in
  resp <- doRaw c "PUT" rawURL "application/json" (Some body) ;;
  lift (decodeOrClose resp nilTarget).

Definition GetConnectionData (c : Client) : M ConnectionData :=
  data <- Get c "connectionData" (into decode_ConnectionData) ;;
  ret data.

(** [internal/api/workitems.go] *)

Definition QueryByWiql (c : Client) (project wiql : string) (top : Z) : M WiqlResult :=
  let body := WiqlBody wiql in
  let url := ProjectURL c project ("wit/wiql?$top=" +:+ gostrings.Itoa top) in
  resp <- doRaw c "POST" url "application/json" (Some body) ;;
  result <- lift (decodeOrClose resp (into decode_WiqlResult)) ;;
  ret result.

Definition GetWorkItem (c : Client) (project : string) (id : Z) : M WorkItem :=
  let path := "wit/workitems/" +:+ gostrings.Itoa id in
  wi <- Get c path (into decode_WorkItem) ;;
  ret wi.

(** A nil slice and an empty one are both the empty list. *)
Definition GetWorkItems (c : Client) (project : string) (ids : list Z)
  : M (list WorkItem) :=
  if (length ids =? 0)%nat then ret []
  else
    let strs := map gostrings.Itoa ids in
    let path := "wit/workitems?ids=" +:+ gostrings.Join strs "," in
    result <- Get c path (into decode_WorkItemList) ;;
    ret (WorkItemList_Value result).

Definition CreateWorkItem (c : Client) (project workItemType : string)
    (fields : list PatchField) : M WorkItem :=
  let url := ProjectURL c project ("wit/workitems/$" +:+ workItemType) in
  resp <- doRaw c "POST" url "application/json-patch+json" (Some (PatchBody fields)) ;;
  wi <- lift (decodeOrClose resp (into decode_WorkItem)) ;;
  ret wi.

Definition UpdateWorkItem (c : Client) (project : string) (id : Z)
    (fields : list PatchField) : M WorkItem :=
  let rawURL := BaseURL c +:+ "/wit/workitems/" +:+ gostrings.Itoa id in
  resp <- doRaw c "PATCH" rawURL "application/json-patch+json" (Some (PatchBody fields)) ;;
  wi <- lift (decodeOrClose resp (into decode_WorkItem)) ;;
  ret wi.

End WithRuntime.
End api.

(** ** Package [cmd] *)

Module cmd.
Import api.
Local Open Scope go_scope.

(** What a command reads of the process: the configuration behind
    [viper], the OS keyring entry of the PAT, and the persistent
    output flags. *)
Record Env := mkEnv {
  viper_organization : string;
  viper_project : string;
  viper_output_format : string;
  keyring_Get : string + string;
  jsonOutput : bool;
  plainOutput : bool;
}.

(** A [cobra.Command], of which the handlers read the string flags; a
    flag that was not given has its default, the empty string. *)
Record Command := mkCommand {
  Flags : gmap string string;
}.

Definition GetString (cmd : Command) (name : string) : string :=
  default "" (Flags cmd !! name).

(** [fmt.Printf] and friends, with the text already formatted. *)
Definition Printf (text : string) : M unit :=
  fun w => (Ok tt, {| calls := calls w; stdout := stdout w +:+ text; stderr := stderr w |}).

(** [cmd/workitem.go], lines 245-259: the patch sequence of a create. *)
Definition createFields (title desc assignedTo areaPath iterationPath : string)
  : list PatchField :=
  let fields := [ {| Op := "add"; Path := "/fields/System.Title"; Value := title |} ] in
  let fields :=
    if negb (desc =? "")
    then gostrings.append fields {| Op := "add"; Path := "/fields/System.Description"; Value := desc |}
    else fields in
  let fields :=
    if negb (assignedTo =? "")
    then gostrings.append fields {| Op := "add"; Path := "/fields/System.AssignedTo"; Value := assignedTo |}
    else fields in
  let fields :=
    if negb (areaPath =? "")
    then gostrings.append fields {| Op := "add"; Path := "/fields/System.AreaPath"; Value := areaPath |}
    else fields in
  let fields :=
    if negb (iterationPath =? "")
    then gostrings.append fields {| Op := "add"; Path := "/fields/System.IterationPath"; Value := iterationPath |}
    else fields in
  fields.

(** [cmd/workitem.go], lines 309-318: the patch sequence of an update. *)
Definition updateFields (title state assignedTo : string) : list PatchField :=
  let fields : list PatchField := [] in
  let fields :=
    if negb (title =? "")
    then gostrings.append fields {| Op := "replace"; Path := "/fields/System.Title"; Value := title |}
    else fields in
  let fields :=
    if negb (state =? "")
    then gostrings.append fields {| Op := "replace"; Path := "/fields/System.State"; Value := state |}
    else fields in
  let fields :=
    if negb (assignedTo =? "")
    then gostrings.append fields {| Op := "replace"; Path := "/fields/System.AssignedTo"; Value := assignedTo |}
    else fields in
  fields.

(** [cmd/pr.go] *)
Definition shortBranch (ref : string) : string :=
  gostrings.TrimPrefix ref "refs/heads/".

Definition ensureRef (branch : string) : string :=
  if gostrings.HasPrefix branch "refs/" then branch
  else "refs/heads/" +:+ branch.

(** [cmd/workitem.go] *)
Definition escapeWIQL (s : string) : string :=
  gostrings.ReplaceAll s "'"%char "''".

Definition buildWIQL (project wiType state assignedTo : string) : string :=
  let q := "SELECT [System.Id], [System.Title], [System.State], [System.WorkItemType], [System.AssignedTo] FROM WorkItems" in
  let conditions : list string := [] in
  let conditions :=
    gostrings.append conditions ("[System.TeamProject] = '" +:+ escapeWIQL project +:+ "'") in
  let conditions :=
    if negb (wiType =? "")
    then gostrings.append conditions ("[System.WorkItemType] = '" +:+ escapeWIQL wiType +:+ "'")
    else conditions in
  let conditions :=
    if negb (state =? "")
    then gostrings.append conditions ("[System.State] = '" +:+ escapeWIQL state +:+ "'")
    else conditions in
  let conditions :=
    if negb (assignedTo =? "")
    then
      if assignedTo =? "@me"
      then gostrings.append conditions "[System.AssignedTo] = @me"
      else gostrings.append conditions ("[System.AssignedTo] = '" +:+ escapeWIQL assignedTo +:+ "'")
    else conditions in
  let q := q +:+ " WHERE " +:+ gostrings.Join conditions " AND " in
  let q := q +:+ " ORDER BY [System.ChangedDate] DESC" in
  q.

Definition fieldStr (fields : gmap string FieldValue) (key : string) : string :=
  match fields !! key with
  | None => ""
  | Some v =>
      match v with
      | FieldObject (Some name) _ => name
      | FieldObject None printed => printed
      | FieldString s => s
      | FieldOther printed => printed
      end
  end.

Section WithRuntime.
Context `{Runtime}.
Variable env : Env.

(** [cmd/root.go] *)
Definition OutputFormat : string :=
  if jsonOutput env then "json"
  else if plainOutput env then "plain"
  else if negb (viper_output_format env =? "") then viper_output_format env
  else "table".

(** [cmd/auth.go] *)
Definition GetPAT : Result string :=
  match keyring_Get env with
  | inl msg =>
      Err (Errorf_w "no PAT found in keyring (run 'ado auth login'): " (errorString msg))
  | inr pat => Ok pat
  end.

(** [newAPIClient] creates a new API client using config and keyring. *)
Definition newAPIClient : M Client :=
  let org := viper_organization env in
  if org =? ""
  then fail (Errorf "organization not configured (run 'ado config set organization <org>')")
  else
    pat <- lift GetPAT ;;
    ret (NewClient org pat).

(** [resolveProject] returns the project from the flag or config default. *)
Definition resolveProject (cmd : Command) : M string :=
  let p := GetString cmd "project" in
  if negb (p =? "") then ret p
  else
    let p := viper_project env in
    if p =? ""
    then fail (Errorf "project not specified (use --project or 'ado config set project <name>')")
    else ret p.

(** [enc.SetIndent("", "  "); return enc.Encode(v)] on [os.Stdout] *)
Definition encodeToStdout (v : Payload) : M unit :=
  match json_EncodeIndent v with
  | inl msg => fail (errorString msg)
  | inr text => Printf text
  end.

(** The loop of [resolveRepoID]. *)
Fixpoint findRepo (repos : list Repository) (repoName : string) : option string :=
  match repos with
  | [] => None
  | r :: repos' =>
      if strings_EqualFold (Repository_Name r) repoName
      then Some (Repository_ID r)
      else findRepo repos' repoName
  end.

Definition resolveRepoID (client : Client) (project repoName : string) : M string :=
  repos <- ListRepositories client project
             or_return (Errorf_w "listing repositories: ") ;;
  match findRepo repos repoName with
  | Some id => ret id
  | None =>
      fail (Errorf ("repository " +:+ strconv_Quote repoName
                    +:+ " not found in project " +:+ strconv_Quote project))
  end.

(** [args0] is [args[0]], which [cobra.ExactArgs(1)] guarantees. *)
Definition votePR (cmd : Command) (args0 : string) (vote : Z) (label : string)
  : M unit :=
  match gostrings.Atoi args0 with
  | None => fail (Errorf ("invalid pull request ID: " +:+ args0))
  | Some id =>
      client <- newAPIClient ;;
      project <- resolveProject cmd ;;
      pr <- GetPullRequest client project id
              or_return (Errorf_w ("fetching pull request " +:+ gostrings.Itoa id +:+ ": ")) ;;
      conn <- GetConnectionData client
                or_return (Errorf_w "getting authenticated user: ") ;;
      _ <- VotePullRequest client project
             (PRRepository_ID (PullRequest_Repository pr)) id
             (IdentityRef_ID (ConnectionData_AuthenticatedUser conn)) vote
             or_return (Errorf_w ("voting on pull request " +:+ gostrings.Itoa id +:+ ": ")) ;;
      let format := OutputFormat in
      if format =? "json" then encodeToStdout (VoteOutput id vote label)
      else if format =? "plain"
      then Printf (gostrings.Itoa id +:+ gostrings.tab +:+ label +:+ gostrings.newline)
      else Printf (label +:+ " pull request " +:+ gostrings.Itoa id +:+ gostrings.newline)
  end.

Definition runPRApprove (cmd : Command) (args0 : string) : M unit :=
  votePR cmd args0 10 "Approved".

Definition runPRReject (cmd : Command) (args0 : string) : M unit :=
  votePR cmd args0 (-10) "Rejected".

Definition runWorkitemCreate (cmd : Command) : M unit :=
  client <- newAPIClient ;;
  project <- resolveProject cmd ;;
  let wiType := GetString cmd "type" in
  let title := GetString cmd "title" in
  let desc := GetString cmd "description" in
  let assignedTo := GetString cmd "assigned-to" in
  let areaPath := GetString cmd "area-path" in
  let iterationPath := GetString cmd "iteration-path" in
  if wiType =? "" then fail (Errorf "--type is required")
  else if title =? "" then fail (Errorf "--title is required")
  else
    let fields := createFields title desc assignedTo areaPath iterationPath in
    wi <- CreateWorkItem client project wiType fields
            or_return (Errorf_w "creating work item: ") ;;
    let format := OutputFormat in
    if format =? "json" then encodeToStdout (WorkItemOutput wi)
    else if format =? "plain"
    then Printf (gostrings.Itoa (WorkItem_ID wi) +:+ gostrings.tab
                 +:+ fieldStr (WorkItem_Fields wi) "System.Title" +:+ gostrings.newline)
    else Printf ("Created work item " +:+ gostrings.Itoa (WorkItem_ID wi) +:+ ": "
                 +:+ fieldStr (WorkItem_Fields wi) "System.Title" +:+ gostrings.newline).

Definition runWorkitemUpdate (cmd : Command) (args0 : string) : M unit :=
  match gostrings.Atoi args0 with
  | None => fail (Errorf ("invalid work item ID: " +:+ args0))
  | Some id =>
      client <- newAPIClient ;;
      project <- resolveProject cmd ;;
      let title := GetString cmd "title" in
      let state := GetString cmd "state" in
      let assignedTo := GetString cmd "assigned-to" in
      let fields := updateFields title state assignedTo in
      if (length fields =? 0)%nat
      then fail (Errorf "no fields to update (use --title, --state, or --assigned-to)")
      else
        wi <- UpdateWorkItem client project id fields
                or_return (Errorf_w ("updating work item " +:+ gostrings.Itoa id +:+ ": ")) ;;
        let format := OutputFormat in
        if format =? "json" then encodeToStdout (WorkItemOutput wi)
        else if format =? "plain"
        then Printf (gostrings.Itoa (WorkItem_ID wi) +:+ gostrings.tab
                     +:+ fieldStr (WorkItem_Fields wi) "System.Title" +:+ gostrings.newline)
        else Printf ("Updated work item " +:+ gostrings.Itoa (WorkItem_ID wi) +:+ ": "
                     +:+ fieldStr (WorkItem_Fields wi) "System.Title" +:+ gostrings.newline)
  end.

End WithRuntime.
End cmd.

(** ** Vocabulary of the design document *)

Module spec.
Import api cmd.

(** The world after one more request was handed to the transport. *)
Definition addCall (w : World) (req : Request) : World :=
  {| calls := (calls w ++ [req])%list; stdout := stdout w; stderr := stderr w |}.

(** The request the transport receives for a target that parsed as [u]:
    the target's own query with [api-version] set, the two headers, the
    marshalled body. *)
Definition outgoing `{Runtime} (c : Client) (method contentType : string)
    (u : neturl.URL) (data : option string) : Request :=
  {| Method := method;
     URL := {| neturl.Base := neturl.Base u;
               neturl.RawQuery :=
                 neturl.Encode (neturl.Set_ (neturl.Query u) "api-version" (APIVersion c));
               neturl.Fragment := neturl.Fragment u |};
     Header := <["Content-Type" := [contentType]]>
                 (<["Authorization" := [authHeader c]]> ∅);
     RequestBody := data |}.

(** One round trip of the transport: the body is marshalled and the
    target parsed, then one request goes out and [finish] handles the
    response.  Nothing is sent when marshalling or parsing fails. *)
Definition roundTrip `{Runtime} {T : Type} (c : Client)
    (method rawURL contentType : string) (body : option Payload)
    (finish : Response -> Result T) (w : World) : Result T * World :=
  match marshalBody body with
  | Err err => (Err err, w)
  | Ok data =>
      match url_Parse rawURL with
      | Err err => (Err (Errorf_w "creating request: " err), w)
      | Ok u =>
          let req := outgoing c method contentType u data in
          match transport (calls w) req with
          | inl msg =>
              (Err (Errorf_w "executing request: " (errorString msg)), addCall w req)
          | inr resp => (finish resp, addCall w req)
          end
      end
  end.

(** What [QueryEscape] writes for one byte. *)
Definition escapeByte (c : ascii) : string :=
  if Ascii.eqb c " " then "+"
  else if neturl.shouldEscape c
  then String "%" (String (neturl.upperhex (N.shiftr (N_of_ascii c) 4))
                     (String (neturl.upperhex (N.land (N_of_ascii c) 15)) ""))
  else String c "".

(** One [key=value] pair as [Encode] writes it. *)
Definition encodePair (kv : string * string) : string :=
  neturl.QueryEscape kv.1 +:+ "=" +:+ neturl.QueryEscape kv.2.

(** [m[key] = append(m[key], value)] *)
Definition addValue (m : neturl.Values) (kv : string * string) : neturl.Values :=
  <[kv.1 := gostrings.append (default [] (m !! kv.1)) kv.2]> m.

(** The pairs of a query, key by key. *)
Definition pairs (v : neturl.Values) (keys : list string) : list (string * string) :=
  flat_map (fun k => map (pair k) (default [] (v !! k))) keys.

(** What [Encode] does with its buffer for one pair. *)
Definition write (buf p : string) : string :=
  (if (0 <? String.length buf)%nat then buf +:+ "&" else buf) +:+ p.

(** No key of the query has an empty list of values; a query that was
    parsed, or set a value, is so. *)
Definition populated (v : neturl.Values) : Prop :=
  map_Forall (fun _ vs => vs <> []) v.

(** The three targets of a vote. *)
Definition pullRequestURL (c : Client) (project : string) (id : Z) : string :=
  ProjectURL c project ("git/pullrequests/" +:+ gostrings.Itoa id).

Definition connectionDataURL (c : Client) : string :=
  BaseURL c +:+ "/" +:+ "connectionData".

Definition voteURL (c : Client) (project repoID : string) (id : Z)
    (reviewerID : string) : string :=
  ProjectURL c project
    ("git/repositories/" +:+ repoID +:+ "/pullrequests/"
     +:+ gostrings.Itoa id +:+ "/reviewers/" +:+ reviewerID).

(** How many of the inputs are not empty. *)
Fixpoint nonEmptyCount (inputs : list string) : nat :=
  match inputs with
  | [] => 0
  | s :: inputs' => (if s =? "" then 0 else 1) + nonEmptyCount inputs'
  end.

(** The operation an optional input contributes to a patch sequence:
    none when the input is empty. *)
Definition optionalOp (op path input : string) : list PatchField :=
  if input =? "" then [] else [ {| Op := op; Path := path; Value := input |} ].

End spec.

Module wiql.
Import cmd.

Definition selectClause : string :=
  "SELECT [System.Id], [System.Title], [System.State], [System.WorkItemType], [System.AssignedTo] FROM WorkItems".

Definition orderClause : string := " ORDER BY [System.ChangedDate] DESC".

(** A condition of the WHERE clause as the document describes it: an
    equality with a quoted literal, or the current-user macro. *)
Inductive Cond :=
| Equals (field value : string)
| AssignedToMe.

(** The document's conditions, in its order: the scope, then one per
    non-empty filter: type, state, assignee. *)
Definition conditions (project wiType state assignedTo : string) : list Cond :=
  (Equals "[System.TeamProject]" project
   :: (if wiType =? "" then [] else [Equals "[System.WorkItemType]" wiType])
   ++ (if state =? "" then [] else [Equals "[System.State]" state])
   ++ (if assignedTo =? "" then []
       else if assignedTo =? "@me" then [AssignedToMe]
       else [Equals "[System.AssignedTo]" assignedTo]))%list.

Definition render (c : Cond) : string :=
  match c with
  | Equals field value => field +:+ " = '" +:+ escapeWIQL value +:+ "'"
  | AssignedToMe => "[System.AssignedTo] = @me"
  end.

(** The quote characters a condition brings into the query: the two
    that delimit its literal and two for each quote of its value; the
    macro brings none. *)
Definition quotes (c : Cond) : nat :=
  match c with
  | Equals _ value => 2 + 2 * gostrings.CountByte value "'"
  | AssignedToMe => 0
  end.

(** How the service reads a quoted literal, from just after its opening
    quote: two quotes stand for one quote character, a single quote ends
    the literal.  The result is the value read and the text that follows
    the closing quote. *)
Fixpoint readLiteral (s : string) : option (string * string) :=
  match s with
  | EmptyString => None
  | String c s' =>
      if Ascii.eqb c "'"
      then match s' with
           | String c' s'' =>
               if Ascii.eqb c' "'"
               then option_map (fun '(v, rest) => (String "'" v, rest)) (readLiteral s'')
               else Some (EmptyString, s')
           | EmptyString => Some (EmptyString, EmptyString)
           end
      else option_map (fun '(v, rest) => (String c v, rest)) (readLiteral s')
  end.

End wiql.

(** ** What Go's [strings.EqualFold] and [strconv.Quote] do on ASCII text *)

Module golib.
Import api.

Definition dquote : string := String (ascii_of_nat 34) EmptyString.
Definition backslash : string := String (ascii_of_nat 92) EmptyString.

(** Every byte of [s] is below [utf8.RuneSelf]. *)
Fixpoint isASCII (s : string) : bool :=
  match s with
  | EmptyString => true
  | String c s' => (N_of_ascii c <? 128)%N && isASCII s'
  end.

Definition lower (c : ascii) : ascii :=
  let n := N_of_ascii c in
  if ((65 <=? n) && (n <=? 90))%N then ascii_of_N (n + 32) else c.

(** [strings.ToLower] on ASCII text. *)
Fixpoint ToLower (s : string) : string :=
  match s with
  | EmptyString => EmptyString
  | String c s' => String (lower c) (ToLower s')
  end.

(** The ASCII path of [strings.EqualFold]: the two texts have the same
    length and are, byte by byte, equal or a letter and its other
    case. *)
Fixpoint EqualFold (s t : string) : bool :=
  match s, t with
  | EmptyString, EmptyString => true
  | String a s', String b t' => Ascii.eqb (lower a) (lower b) && EqualFold s' t'
  | _, _ => false
  end.

Definition lowerhex (n : N) : ascii :=
  match String.get (N.to_nat n) "0123456789abcdef" with
  | Some c => c
  | None => "0"%char
  end.

(** What [strconv.Quote] writes for one byte of ASCII text: the double
    quote and the backslash behind a backslash, the other printable
    characters as they are, the control characters by name or in
    hexadecimal. *)
Definition quoteByte (c : ascii) : string :=
  let n := N_of_ascii c in
  if (n =? 34)%N then backslash +:+ dquote
  else if (n =? 92)%N then backslash +:+ backslash
  else if ((32 <=? n) && (n <=? 126))%N then String c EmptyString
  else if (n =? 7)%N then backslash +:+ "a"
  else if (n =? 8)%N then backslash +:+ "b"
  else if (n =? 12)%N then backslash +:+ "f"
  else if (n =? 10)%N then backslash +:+ "n"
  else if (n =? 13)%N then backslash +:+ "r"
  else if (n =? 9)%N then backslash +:+ "t"
  else if (n =? 11)%N then backslash +:+ "v"
  else backslash +:+ "x"
       +:+ String (lowerhex (N.shiftr n 4)) (String (lowerhex (N.land n 15)) EmptyString).

Fixpoint quoteBytes (s : string) : string :=
  match s with
  | EmptyString => EmptyString
  | String c s' => quoteByte c +:+ quoteBytes s'
  end.

(** [strconv.Quote], the [%q] verb of [fmt], on ASCII text. *)
Definition Quote (s : string) : string := dquote +:+ quoteBytes s +:+ dquote.

(** Text that [%q] shows as it is: printable ASCII characters other
    than the double quote and the backslash. *)
Fixpoint verbatim (s : string) : bool :=
  match s with
  | EmptyString => true
  | String c s' =>
      let n := N_of_ascii c in
      ((32 <=? n) && (n <=? 126) && negb (n =? 34) && negb (n =? 92))%N && verbatim s'
  end.

(** The two string functions of a runtime are Go's, as far as ASCII
    text goes; they are not constrained on other text. *)
Definition lawful `{Runtime} : Prop :=
  (forall s t, isASCII s = true -> isASCII t = true ->
               strings_EqualFold s t = EqualFold s t)
  /\ (forall s, isASCII s = true -> strconv_Quote s = Quote s).

End golib.

(** ** A stub runtime, as a test would set one up *)

Module stub.
Import api cmd.

Definition dquote : string := String (ascii_of_nat 34) EmptyString.

Definition identity (id : string) : IdentityRef :=
  {| IdentityRef_ID := id; IdentityRef_DisplayName := ""; IdentityRef_UniqueName := "" |}.

(** The pull request of the stubbed record fetch: repository id [R1]. *)
Definition pullRequest : PullRequest :=
  {| PullRequest_ID := 42; PullRequest_Title := "Fix crash";
     PullRequest_Description := ""; PullRequest_Status := "active";
     PullRequest_CreatedBy := identity "U1"; PullRequest_CreationDate := "";
     PullRequest_SourceBranch := "refs/heads/fix"; PullRequest_TargetBranch := "refs/heads/main";
     PullRequest_MergeStatus := ""; PullRequest_IsDraft := false;
     PullRequest_Repository := {| PRRepository_ID := "R1"; PRRepository_Name := "Alpha" |};
     PullRequest_Reviewers := []; PullRequest_URL := "" |}.

(** The connection data of the stubbed identity fetch: user id [U9]. *)
Definition connectionData : ConnectionData :=
  {| ConnectionData_AuthenticatedUser := identity "U9" |}.

Definition repositories : list Repository :=
  [ {| Repository_ID := "1"; Repository_Name := "Alpha"; Repository_URL := "" |};
    {| Repository_ID := "2"; Repository_Name := "beta"; Repository_URL := "" |} ].

Definition workItem : WorkItem :=
  {| WorkItem_ID := 7; WorkItem_Rev := 1;
     WorkItem_Fields := {[ "System.Title" := FieldString "Fix crash" ]};
     WorkItem_URL := "" |}.

Definition decodeAs {T : Type} (name : string) (v : T) (body : string) : string + T :=
  if body =? name then inr v else inl "invalid character".

(** Every request succeeds with status 200; the body names the record
    asked for, by the last segment of the path. *)
Definition transport (_ : list Request) (req : Request) : string + Response :=
  let path := neturl.Base (URL req) in
  let body :=
    if gostrings.HasSuffix path "/git/pullrequests/42" then "pullRequest"
    else if gostrings.HasSuffix path "/connectionData" then "connectionData"
    else if gostrings.HasSuffix path "/git/repositories" then "repositories"
    else if gostrings.HasPrefix (Method req) "P" then "workItem"
    else "" in
  inr {| Response_StatusCode := 200; Response_Body := body |}.

Definition marshal (v : Payload) : string :=
  match v with
  | VoteBody vote => "{" +:+ dquote +:+ "vote" +:+ dquote +:+ ":" +:+ gostrings.Itoa vote +:+ "}"
  | VoteOutput id vote status =>
      "vote " +:+ gostrings.Itoa vote +:+ " on " +:+ gostrings.Itoa id +:+ ": " +:+ status
  | WiqlBody query => query
  | PatchBody fields => String.concat "," (map (fun f => Op f +:+ " " +:+ Path f +:+ " " +:+ Value f) fields)
  | WorkItemOutput wi => gostrings.Itoa (WorkItem_ID wi)
  end.

#[export] Instance runtime : Runtime :=
  {| api.transport := transport;
     url_parse_error := fun _ => None;
     json_Marshal := fun v => inr (marshal v);
     json_EncodeIndent := fun v => inr (marshal v +:+ gostrings.newline);
     base64_EncodeToString := fun s => s;
     decode_PullRequest := decodeAs "pullRequest" pullRequest;
     decode_ConnectionData := decodeAs "connectionData" connectionData;
     decode_repositoryList := decodeAs "repositories" (mkRepositoryList 2 repositories);
     decode_WiqlResult := decodeAs "wiql" (mkWiqlResult []);
     decode_WorkItem := decodeAs "workItem" workItem;
     decode_WorkItemList := decodeAs "workItems" (mkWorkItemList 0 []);
     strings_EqualFold := golib.EqualFold;
     strconv_Quote := golib.Quote |}.

(** The same runtime, except that the identity lookup is answered with
    status 404 and the body [not found]. *)
Definition transportDenied (history : list Request) (req : Request) : string + Response :=
  if gostrings.HasSuffix (neturl.Base (URL req)) "/connectionData"
  then inr {| Response_StatusCode := 404; Response_Body := "not found" |}
  else transport history req.

Definition runtimeDenied : Runtime :=
  {| api.transport := transportDenied;
     url_parse_error := fun _ => None;
     json_Marshal := fun v => inr (marshal v);
     json_EncodeIndent := fun v => inr (marshal v +:+ gostrings.newline);
     base64_EncodeToString := fun s => s;
     decode_PullRequest := decodeAs "pullRequest" pullRequest;
     decode_ConnectionData := decodeAs "connectionData" connectionData;
     decode_repositoryList := decodeAs "repositories" (mkRepositoryList 2 repositories);
     decode_WiqlResult := decodeAs "wiql" (mkWiqlResult []);
     decode_WorkItem := decodeAs "workItem" workItem;
     decode_WorkItemList := decodeAs "workItems" (mkWorkItemList 0 []);
     strings_EqualFold := golib.EqualFold;
     strconv_Quote := golib.Quote |}.

(** A configured environment, and one without an organization. *)
Definition env : Env :=
  {| viper_organization := "org"; viper_project := "proj";
     viper_output_format := ""; keyring_Get := inr "secret";
     jsonOutput := false; plainOutput := false |}.

Definition unconfigured : Env :=
  {| viper_organization := ""; viper_project := "proj";
     viper_output_format := ""; keyring_Get := inr "secret";
     jsonOutput := false; plainOutput := false |}.

Definition command (flags : list (string * string)) : Command :=
  {| Flags := list_to_map flags |}.

End stub.

(** ** More of package [internal/api] *)

Module apiplus.
Import api.
Local Open Scope go_scope.

Record pullRequestList := mkPullRequestList {
  pullRequestList_Count : Z;
  pullRequestList_Value : list PullRequest;
}.

(** [PullRequestQuery] holds search criteria for listing pull requests. *)
Record PullRequestQuery := mkPullRequestQuery {
  Status : string;
  Creator : string;
  Reviewer : string;
  Top : Z;
}.

(** [CreatePRInput] holds the fields for creating a new pull request. *)
Record CreatePRInput := mkCreatePRInput {
  SourceRefName : string;
  TargetRefName : string;
  Title : string;
  Description : string;
  IsDraft : bool;
  Reviewers : list IdentityRef;
}.

(** [authStatusOutput] of [cmd/auth.go], here for its encoder. *)
Record authStatusOutput := mkAuthStatusOutput {
  Authenticated : bool;
  TokenStored : bool;
  TokenPrefix : string;
}.

(** More of what the sources take from libraries: [encoding/json] at
    further types, [strings.TrimSpace], and the count of runes by which
    [fmt] pads. *)
Class Library := {
  decode_pullRequestList : string -> string + pullRequestList;
  json_Marshal_CreatePRInput : CreatePRInput -> string + string;
  json_EncodeIndent_PullRequest : PullRequest -> string + string;
  json_EncodeIndent_PullRequests : list PullRequest -> string + string;
  json_EncodeIndent_authStatus : authStatusOutput -> string + string;
  strings_TrimSpace : string -> string;
  utf8_RuneCountInString : string -> nat;
}.

Section WithRuntime.
Context `{Runtime} `{Library}.

(** [doRaw] for a body of a type outside [Payload]; [marshalled] is what
    [json.Marshal] made of the body. *)
Definition doRawMarshalled (c : Client) (method rawURL contentType : string)
    (marshalled : string + string) : M Response :=
  reqBody <- lift (match marshalled with
                   | inl msg => Err (Errorf_w "marshaling request body: " (errorString msg))
                   | inr data => Ok (Some data)
                   end) ;;
  req <- lift (http_NewRequest method rawURL reqBody)
           or_return (Errorf_w "creating request: ") ;;
  let req := Header_Set req "Authorization" (authHeader c) in
  let req := Header_Set req "Content-Type" contentType in
  let q := neturl.Query (URL req) in
  let q := neturl.Set_ q "api-version" (APIVersion c) in
  let req := set_RawQuery req (neturl.Encode q) in
  resp <- HTTP_Do req or_return (Errorf_w "executing request: ") ;;
  ret resp.

(** [Post] performs a POST request with a JSON body and decodes the
    response. *)
Definition Post {T : Type} (c : Client) (path : string) (body : option Payload)
    (result : Target T) : M T :=
  resp <- do c "POST" path body ;;
  lift (decodeOrClose resp result).

(** [Patch] performs a PATCH request with a JSON body and decodes the
    response. *)
Definition Patch {T : Type} (c : Client) (path : string) (body : option Payload)
    (result : Target T) : M T :=
  resp <- do c "PATCH" path body ;;
  lift (decodeOrClose resp result).

(** [u.RawQuery = rawQuery] *)
Definition withRawQuery (u : neturl.URL) (rawQuery : string) : neturl.URL :=
  {| neturl.Base := neturl.Base u;
     neturl.RawQuery := rawQuery;
     neturl.Fragment := neturl.Fragment u |}.

(** [ListPullRequests] lists pull requests, optionally scoped to a
    repository.  [u.String()] writes the path as it was read. *)
Definition ListPullRequests (c : Client) (project repoID : string)
    (query : PullRequestQuery) : M (list PullRequest) :=
  let path :=
    if negb (repoID =? "")
    then "git/repositories/" +:+ repoID +:+ "/pullrequests"
    else "git/pullrequests" in
  let rawURL := ProjectURL c project path in
  u <- lift (url_Parse rawURL) or_return (Errorf_w "parsing URL: ") ;;
  let q := neturl.Query u in
  let q :=
    if negb (Status query =? "")
    then neturl.Set_ q "searchCriteria.status" (Status query) else q in
  let q :=
    if negb (Creator query =? "")
    then neturl.Set_ q "searchCriteria.creatorId" (Creator query) else q in
  let q :=
    if negb (Reviewer query =? "")
    then neturl.Set_ q "searchCriteria.reviewerId" (Reviewer query) else q in
  let q :=
    if (0 <? Top query)%Z
    then neturl.Set_ q "$top" (gostrings.Itoa (Top query)) else q in
  let u := withRawQuery u (neturl.Encode q) in
  resp <- doRaw c "GET" (neturl.URLString u) "application/json" None ;;
  result <- lift (decodeOrClose resp (into decode_pullRequestList)) ;;
  ret (pullRequestList_Value result).

(** [CreatePullRequest] creates a new pull request in the given
    repository. *)
Definition CreatePullRequest (c : Client) (project repoID : string)
    (input : CreatePRInput) : M PullRequest :=
  let rawURL := ProjectURL c project ("git/repositories/" +:+ repoID +:+ "/pullrequests") in
  resp <- doRawMarshalled c "POST" rawURL "application/json"
            (json_Marshal_CreatePRInput input) ;;
  pr <- lift (decodeOrClose resp (into decode_PullRequest)) ;;
  ret pr.

End WithRuntime.
End apiplus.

(** ** More of package [cmd] *)

Module cmdplus.
Import api cmd apiplus.
Local Open Scope go_scope.

(** [fmt.Fprintf(os.Stderr, ...)], with the text already formatted. *)
Definition Eprintf (text : string) : M unit :=
  fun w => (Ok tt, {| calls := calls w; stdout := stdout w; stderr := stderr w +:+ text |}).

(** [for _, x := range l { body }] *)
Fixpoint forEach {A : Type} (l : list A) (body : A -> M unit) : M unit :=
  match l with
  | [] => ret tt
  | x :: l' => bind (body x) (fun _ => forEach l' body)
  end.

(** [strconv.ParseBool] *)
Definition ParseBool (s : string) : option bool :=
  if (s =? "1") || (s =? "t") || (s =? "T") || (s =? "TRUE") || (s =? "true") || (s =? "True")
  then Some true
  else if (s =? "0") || (s =? "f") || (s =? "F") || (s =? "FALSE") || (s =? "false")
          || (s =? "False")
  then Some false
  else None.

(** [cmd.Flags().GetBool(name)], its error dropped: the flag's text, as
    the flag set keeps it, read back. *)
Definition GetBool (cmd : Command) (name : string) : bool :=
  default false (ParseBool (GetString cmd name)).

(** [cmd.Flags().GetInt(name)], its error dropped, for a flag declared
    with the default [def]. *)
Definition GetInt (cmd : Command) (name : string) (def : Z) : Z :=
  match Flags cmd !! name with
  | None => def
  | Some text => default 0%Z (gostrings.Atoi text)
  end.

(** [strings.Repeat(s, count)] *)
Fixpoint Repeat (s : string) (count : nat) : string :=
  match count with
  | O => EmptyString
  | S count' => s +:+ Repeat s count'
  end.

(** [truncate] of [cmd/workitem.go]; [None] is the run-time panic of the
    slice [s[:max-3]] when [max-3] is negative. *)
Definition truncate (s : string) (max : Z) : option string :=
  if (Z.of_nat (String.length s) <=? max)%Z then Some s
  else if (max - 3 <? 0)%Z then None
  else Some (gostrings.sliceTo (Z.to_nat (max - 3)) s +:+ "...").

(** A call of [truncate] with a width for which it cannot panic. *)
Definition truncated (s : string) (max : Z) : string :=
  default s (truncate s max).

(** [voteString] of [cmd/pr.go] *)
Definition voteString (vote : Z) : string :=
  if (vote =? 10)%Z then "Approved"
  else if (vote =? 5)%Z then "Approved with suggestions"
  else if (vote =? 0)%Z then "No vote"
  else if (vote =? -5)%Z then "Waiting for author"
  else if (vote =? -10)%Z then "Rejected"
  else gostrings.Itoa vote.

(** [runWorkitemList] of [cmd/workitem.go], lines 118-125: the ids to
    fetch, respecting [--top]. *)
Definition collectIDs (refs : list WiqlWorkItemRef) (top : Z) : list Z :=
  let ids :=
    fold_left (fun ids ref => gostrings.append ids (WiqlWorkItemRef_ID ref)) refs [] in
  if (0 <? top)%Z && (top <? Z.of_nat (length ids))%Z
  then take (Z.to_nat top) ids
  else ids.

(** The loop of [runPRCreate] over the pieces of [--reviewers]. *)
Fixpoint addReviewers `{Library} (reviewers : list IdentityRef) (pieces : list string)
  : list IdentityRef :=
  match pieces with
  | [] => reviewers
  | r :: pieces' =>
      let r := strings_TrimSpace r in
      let reviewers :=
        if negb (r =? "")
        then gostrings.append reviewers
               {| IdentityRef_ID := r; IdentityRef_DisplayName := "";
                  IdentityRef_UniqueName := "" |}
        else reviewers in
      addReviewers reviewers pieces'
  end.

Section WithRuntime.
Context `{Runtime} `{Library}.
Variable env : Env.

(** The [%-Ns] and [%-Nd] verbs of [fmt]: spaces up to [width] runes. *)
Definition padRight (width : nat) (s : string) : string :=
  s +:+ Repeat " " (width - utf8_RuneCountInString s).

Definition boolString (b : bool) : string := if b then "true" else "false".

(** [runPRList] of [cmd/pr.go] *)
Definition runPRList (cmd : Command) : M unit :=
  client <- newAPIClient env ;;
  project <- resolveProject env cmd ;;
  let status := GetString cmd "status" in
  let creator := GetString cmd "creator" in
  let reviewer := GetString cmd "reviewer" in
  let repo := GetString cmd "repo" in
  let top := GetInt cmd "top" 20 in
  repoID <- (if negb (repo =? "") then resolveRepoID client project repo else ret "") ;;
  prs <- ListPullRequests client project repoID
           {| Status := status; Creator := creator; Reviewer := reviewer; Top := top |}
           or_return (Errorf_w "listing pull requests: ") ;;
  if (length prs =? 0)%nat
  then
    if OutputFormat env =? "json"
    then Printf ("[]" +:+ gostrings.newline)
    else Eprintf ("No pull requests found." +:+ gostrings.newline)
  else
    let format := OutputFormat env in
    if format =? "json"
    then match json_EncodeIndent_PullRequests prs with
         | inl msg => fail (errorString msg)
         | inr text => Printf text
         end
    else if format =? "plain"
    then forEach prs (fun pr =>
           Printf (gostrings.Itoa (PullRequest_ID pr) +:+ gostrings.tab
                   +:+ PullRequest_Title pr +:+ gostrings.newline))
    else
      _ <- Printf (padRight 8 "ID" +:+ " " +:+ padRight 50 "Title" +:+ " "
                   +:+ padRight 20 "Source" +:+ " " +:+ padRight 20 "Target" +:+ " "
                   +:+ padRight 12 "Status" +:+ " " +:+ padRight 20 "Creator"
                   +:+ gostrings.newline) ;;
      _ <- Printf (Repeat "-" 134 +:+ gostrings.newline) ;;
      forEach prs (fun pr =>
        Printf (padRight 8 (gostrings.Itoa (PullRequest_ID pr)) +:+ " "
                +:+ padRight 50 (truncated (PullRequest_Title pr) 50) +:+ " "
                +:+ padRight 20 (truncated (shortBranch (PullRequest_SourceBranch pr)) 20) +:+ " "
                +:+ padRight 20 (truncated (shortBranch (PullRequest_TargetBranch pr)) 20) +:+ " "
                +:+ padRight 12 (PullRequest_Status pr) +:+ " "
                +:+ padRight 20 (truncated (IdentityRef_DisplayName (PullRequest_CreatedBy pr)) 20)
                +:+ gostrings.newline)).

(** [runPRShow] of [cmd/pr.go] *)
Definition runPRShow (cmd : Command) (args0 : string) : M unit :=
  match gostrings.Atoi args0 with
  | None => fail (Errorf ("invalid pull request ID: " +:+ args0))
  | Some id =>
      client <- newAPIClient env ;;
      project <- resolveProject env cmd ;;
      pr <- GetPullRequest client project id
              or_return (Errorf_w ("fetching pull request " +:+ gostrings.Itoa id +:+ ": ")) ;;
      let format := OutputFormat env in
      if format =? "json"
      then match json_EncodeIndent_PullRequest pr with
           | inl msg => fail (errorString msg)
           | inr text => Printf text
           end
      else if format =? "plain"
      then Printf (gostrings.Itoa (PullRequest_ID pr) +:+ gostrings.tab
                   +:+ PullRequest_Title pr +:+ gostrings.newline)
      else
        _ <- Printf ("ID:           " +:+ gostrings.Itoa (PullRequest_ID pr) +:+ gostrings.newline) ;;
        _ <- Printf ("Title:        " +:+ PullRequest_Title pr +:+ gostrings.newline) ;;
        _ <- Printf ("Status:       " +:+ PullRequest_Status pr +:+ gostrings.newline) ;;
        _ <- Printf ("Draft:        " +:+ boolString (PullRequest_IsDraft pr) +:+ gostrings.newline) ;;
        _ <- Printf ("Source:       " +:+ shortBranch (PullRequest_SourceBranch pr)
                     +:+ gostrings.newline) ;;
        _ <- Printf ("Target:       " +:+ shortBranch (PullRequest_TargetBranch pr)
                     +:+ gostrings.newline) ;;
        _ <- Printf ("Creator:      " +:+ IdentityRef_DisplayName (PullRequest_CreatedBy pr)
                     +:+ gostrings.newline) ;;
        _ <- Printf ("Merge Status: " +:+ PullRequest_MergeStatus pr +:+ gostrings.newline) ;;
        _ <- Printf ("Repository:   " +:+ PRRepository_Name (PullRequest_Repository pr)
                     +:+ gostrings.newline) ;;
        _ <- (if (0 <? length (PullRequest_Reviewers pr))%nat
              then
                _ <- Printf (gostrings.newline +:+ "Reviewers:" +:+ gostrings.newline) ;;
                forEach (PullRequest_Reviewers pr) (fun r =>
                  Printf ("  - " +:+ Reviewer_DisplayName r +:+ " ("
                          +:+ voteString (Reviewer_Vote r) +:+ ")" +:+ gostrings.newline))
              else ret tt) ;;
        if negb (PullRequest_Description pr =? "")
        then Printf (gostrings.newline +:+ "Description:" +:+ gostrings.newline
                     +:+ PullRequest_Description pr +:+ gostrings.newline)
        else ret tt
  end.

(** [runPRCreate] of [cmd/pr.go] *)
Definition runPRCreate (cmd : Command) : M unit :=
  client <- newAPIClient env ;;
  project <- resolveProject env cmd ;;
  let repo := GetString cmd "repo" in
  let title := GetString cmd "title" in
  let source := GetString cmd "source" in
  let target := GetString cmd "target" in
  let desc := GetString cmd "description" in
  let reviewersStr := GetString cmd "reviewers" in
  let draft := GetBool cmd "draft" in
  if repo =? "" then fail (Errorf "--repo is required")
  else if title =? "" then fail (Errorf "--title is required")
  else if source =? "" then fail (Errorf "--source is required")
  else if target =? "" then fail (Errorf "--target is required")
  else
    repoID <- resolveRepoID client project repo ;;
    let input :=
      {| SourceRefName := ensureRef source;
         TargetRefName := ensureRef target;
         Title := title;
         Description := desc;
         IsDraft := draft;
         Reviewers := [] |} in
    let input :=
      if negb (reviewersStr =? "")
      then {| SourceRefName := SourceRefName input;
              TargetRefName := TargetRefName input;
              Title := Title input;
              Description := Description input;
              IsDraft := IsDraft input;
              Reviewers := addReviewers (Reviewers input)
                             (gostrings.Split reviewersStr ",") |}
      else input in
    pr <- CreatePullRequest client project repoID input
            or_return (Errorf_w "creating pull request: ") ;;
    let format := OutputFormat env in
    if format =? "json"
    then match json_EncodeIndent_PullRequest pr with
         | inl msg => fail (errorString msg)
         | inr text => Printf text
         end
    else if format =? "plain"
    then Printf (gostrings.Itoa (PullRequest_ID pr) +:+ gostrings.tab
                 +:+ PullRequest_Title pr +:+ gostrings.newline)
    else Printf ("Created pull request " +:+ gostrings.Itoa (PullRequest_ID pr) +:+ ": "
                 +:+ PullRequest_Title pr +:+ gostrings.newline).

(** [runWorkitemShow] of [cmd/workitem.go] *)
Definition runWorkitemShow (cmd : Command) (args0 : string) : M unit :=
  match gostrings.Atoi args0 with
  | None => fail (Errorf ("invalid work item ID: " +:+ args0))
  | Some id =>
      client <- newAPIClient env ;;
      project <- resolveProject env cmd ;;
      wi <- GetWorkItem client project id
              or_return (Errorf_w ("fetching work item " +:+ gostrings.Itoa id +:+ ": ")) ;;
      let format := OutputFormat env in
      if format =? "json" then encodeToStdout (WorkItemOutput wi)
      else if format =? "plain"
      then
        let title := fieldStr (WorkItem_Fields wi) "System.Title" in
        Printf (gostrings.Itoa (WorkItem_ID wi) +:+ gostrings.tab +:+ title
                +:+ gostrings.newline)
      else
        _ <- Printf ("ID:           " +:+ gostrings.Itoa (WorkItem_ID wi) +:+ gostrings.newline) ;;
        _ <- Printf ("Type:         " +:+ fieldStr (WorkItem_Fields wi) "System.WorkItemType"
                     +:+ gostrings.newline) ;;
        _ <- Printf ("Title:        " +:+ fieldStr (WorkItem_Fields wi) "System.Title"
                     +:+ gostrings.newline) ;;
        _ <- Printf ("State:        " +:+ fieldStr (WorkItem_Fields wi) "System.State"
                     +:+ gostrings.newline) ;;
        _ <- Printf ("Assigned To:  " +:+ fieldStr (WorkItem_Fields wi) "System.AssignedTo"
                     +:+ gostrings.newline) ;;
        _ <- Printf ("Area Path:    " +:+ fieldStr (WorkItem_Fields wi) "System.AreaPath"
                     +:+ gostrings.newline) ;;
        _ <- Printf ("Iteration:    " +:+ fieldStr (WorkItem_Fields wi) "System.IterationPath"
                     +:+ gostrings.newline) ;;
        let desc := fieldStr (WorkItem_Fields wi) "System.Description" in
        if negb (desc =? "")
        then Printf (gostrings.newline +:+ "Description:" +:+ gostrings.newline
                     +:+ desc +:+ gostrings.newline)
        else ret tt
  end.

(** [runAuthStatus] of [cmd/auth.go] *)
Definition authStatus : authStatusOutput :=
  let authenticated :=
    match keyring_Get env with
    | inr pat => negb (pat =? "")
    | inl _ => false
    end in
  let pat := match keyring_Get env with inr pat => pat | inl _ => "" end in
  let status :=
    {| Authenticated := authenticated; TokenStored := authenticated; TokenPrefix := "" |} in
  if authenticated && (4 <=? String.length pat)%nat
  then {| Authenticated := Authenticated status; TokenStored := TokenStored status;
          TokenPrefix := gostrings.sliceTo 4 pat +:+ "..." |}
  else status.

Definition runAuthStatus : M unit :=
  let status := authStatus in
  if OutputFormat env =? "json"
  then match json_EncodeIndent_authStatus status with
       | inl msg => fail (errorString msg)
       | inr text => Printf text
       end
  else
    if Authenticated status
    then Printf ("Authenticated: yes (token: " +:+ TokenPrefix status +:+ ")"
                 +:+ gostrings.newline)
    else
      _ <- Printf ("Authenticated: no" +:+ gostrings.newline) ;;
      Printf ("Run 'ado auth login' to authenticate." +:+ gostrings.newline).

End WithRuntime.
End cmdplus.

(** ** Vocabulary for what a computation does to the world *)

Module effects.
Import api cmd.

(** Some run of [m] returns [a]. *)
Definition returned {A : Type} (m : M A) (a : A) : Prop :=
  exists w w', m w = (Ok a, w').

(** [m] hands at most [n] requests to the transport, each of them with
    [P] and after the ones made before, and writes to neither stream. *)
Definition quiet {A : Type} (P : Request -> Prop) (n : nat) (m : M A) : Prop :=
  forall w, exists sent,
    calls (m w).2 = (calls w ++ sent)%list
    /\ (length sent <= n)%nat /\ Forall P sent
    /\ stdout (m w).2 = stdout w /\ stderr (m w).2 = stderr w.

(** [m] only writes: it makes no call and it does not fail. *)
Definition prints {A : Type} (m : M A) : Prop :=
  forall w, (exists a, (m w).1 = Ok a) /\ calls (m w).2 = calls w.

(** [m] hands at most [n] requests to the transport, each of them with
    [P] and after the ones made before; when it fails it has written to
    neither stream. *)
Definition command {A : Type} (P : Request -> Prop) (n : nat) (m : M A) : Prop :=
  forall w, exists sent,
    calls (m w).2 = (calls w ++ sent)%list
    /\ (length sent <= n)%nat /\ Forall P sent
    /\ (forall err, (m w).1 = Err err ->
          stdout (m w).2 = stdout w /\ stderr (m w).2 = stderr w).

(** The client [newAPIClient] builds in [env]. *)
Definition clientOf `{Runtime} (env : Env) : Client :=
  NewClient (viper_organization env)
    (match keyring_Get env with inr pat => pat | inl _ => "" end).

(** What a request of client [c] to the service looks like. *)
Definition authorized `{Runtime} (c : Client) (req : Request) : Prop :=
  Header req !! "Authorization" = Some [authHeader c]
  /\ (Header req !! "Content-Type" = Some ["application/json"]
      \/ Header req !! "Content-Type" = Some ["application/json-patch+json"])
  /\ neturl.Query (URL req) !! "api-version" = Some [APIVersion c]
  /\ gostrings.HasPrefix (neturl.Base (URL req)) "https://dev.azure.com/" = true.


(** The commands embedded here, each with the number of requests it
    may make; [args0] is the id argument of those that take one. *)
Definition commands `{Runtime} `{apiplus.Library} (env : Env) (cmd : Command)
    (args0 : string) : list (nat * M unit) :=
  [ (3, runPRApprove env cmd args0)%nat;
    (3, runPRReject env cmd args0)%nat;
    (1, cmdplus.runPRShow env cmd args0)%nat;
    (2, cmdplus.runPRCreate env cmd)%nat;
    (2, cmdplus.runPRList env cmd)%nat;
    (1, cmdplus.runWorkitemShow env cmd args0)%nat;
    (1, runWorkitemCreate env cmd)%nat;
    (1, runWorkitemUpdate env cmd args0)%nat;
    (0, cmdplus.runAuthStatus env)%nat ].

(** Neither [?] nor [#] occurs in [s]. *)
Definition plain (s : string) : Prop :=
  gostrings.ContainsByte s "?" = false /\ gostrings.ContainsByte s "#" = false.

End effects.

(** ** A stub of the further library functions *)

Module stubplus.
Import api cmd apiplus.

(** [strings.TrimSpace] for ASCII spaces. *)
Fixpoint trimLeft (s : string) : string :=
  match s with
  | String c s' => if Ascii.eqb c " " then trimLeft s' else s
  | EmptyString => EmptyString
  end.

Fixpoint rev (s : string) (acc : string) : string :=
  match s with
  | String c s' => rev s' (String c acc)
  | EmptyString => acc
  end.

Definition TrimSpace (s : string) : string :=
  rev (trimLeft (rev (trimLeft s) "")) "".

Definition pullRequests : list PullRequest := [stub.pullRequest].

(** The system of [stub.transport], with a list of pull requests at
    [/pullrequests]. *)
Definition transport (history : list Request) (req : Request) : string + Response :=
  if gostrings.HasSuffix (neturl.Base (URL req)) "/git/pullrequests"
  then inr {| Response_StatusCode := 200; Response_Body := "pullRequests" |}
  else if gostrings.HasSuffix (neturl.Base (URL req)) "/pullrequests"
  then inr {| Response_StatusCode := 200; Response_Body := "pullRequest" |}
  else if gostrings.HasPrefix (Method req) "G"
          && gostrings.Containsb (neturl.Base (URL req)) "/wit/workitems"
  then inr {| Response_StatusCode := 200;
              Response_Body :=
                if neturl.RawQuery (URL req) =? "api-version=7.1"
                then "workItem" else "workItems" |}
  else stub.transport history req.

#[export] Instance runtime : Runtime :=
  {| api.transport := transport;
     url_parse_error := fun _ => None;
     json_Marshal := fun v => inr (stub.marshal v);
     json_EncodeIndent := fun v => inr (stub.marshal v +:+ gostrings.newline);
     base64_EncodeToString := fun s => s;
     decode_PullRequest := stub.decodeAs "pullRequest" stub.pullRequest;
     decode_ConnectionData := stub.decodeAs "connectionData" stub.connectionData;
     decode_repositoryList :=
       stub.decodeAs "repositories" (mkRepositoryList 2 stub.repositories);
     decode_WiqlResult := stub.decodeAs "wiql" (mkWiqlResult []);
     decode_WorkItem := stub.decodeAs "workItem" stub.workItem;
     decode_WorkItemList := stub.decodeAs "workItems" (mkWorkItemList 1 [stub.workItem]);
     strings_EqualFold := golib.EqualFold;
     strconv_Quote := golib.Quote |}.

Definition marshalInput (input : CreatePRInput) : string :=
  SourceRefName input +:+ " -> " +:+ TargetRefName input +:+ ": " +:+ Title input
  +:+ " [" +:+ String.concat "," (map IdentityRef_ID (Reviewers input)) +:+ "]".

#[export] Instance library : Library :=
  {| decode_pullRequestList :=
       stub.decodeAs "pullRequests" (mkPullRequestList 1 pullRequests);
     json_Marshal_CreatePRInput := fun input => inr (marshalInput input);
     json_EncodeIndent_PullRequest :=
       fun pr => inr (gostrings.Itoa (PullRequest_ID pr) +:+ gostrings.newline);
     json_EncodeIndent_PullRequests :=
       fun prs => inr (String.concat "," (map (fun pr => gostrings.Itoa (PullRequest_ID pr)) prs)
                       +:+ gostrings.newline);
     json_EncodeIndent_authStatus :=
       fun status => inr (TokenPrefix status +:+ gostrings.newline);
     strings_TrimSpace := TrimSpace;
     utf8_RuneCountInString := String.length |}.

(** The same library, reading every list of pull requests as empty. *)
Definition libraryNone : Library :=
  {| decode_pullRequestList := fun _ => inr (mkPullRequestList 0 []);
     json_Marshal_CreatePRInput := fun input => inr (marshalInput input);
     json_EncodeIndent_PullRequest :=
       fun pr => inr (gostrings.Itoa (PullRequest_ID pr) +:+ gostrings.newline);
     json_EncodeIndent_PullRequests :=
       fun prs => inr (String.concat "," (map (fun pr => gostrings.Itoa (PullRequest_ID pr)) prs)
                       +:+ gostrings.newline);
     json_EncodeIndent_authStatus :=
       fun status => inr (TokenPrefix status +:+ gostrings.newline);
     strings_TrimSpace := TrimSpace;
     utf8_RuneCountInString := String.length |}.

End stubplus.

(** ** Package [internal/config] and the [config] and [auth login] commands *)

Module config.
Import api.

Definition configDir : string := ".config/ado".
Definition configFile : string := "config.json".

(** [Config] holds ado CLI user configuration. *)
Record Config := mkConfig {
  Organization : string;
  Project : string;
  OutputFormat : string;
}.

(** What the package and the two commands change: the content of the
    configuration file ([None] when there is no such file), the
    keyring's entry for the PAT, and the two output streams. *)
Record Machine := mkMachine {
  file : option string;
  keyring : option string;
  out : string;
  err : string;
}.

(** What is taken from the operating system and the libraries.  A
    failure to read is one other than the file not being there; a
    failed write gives the error and what the file then holds. *)
Class System := {
  os_UserHomeDir : string + string;
  filepath_Join : list string -> string;
  filepath_Dir : string -> string;
  os_ReadFile_error : string -> option string;
  os_MkdirAll : string -> option string;
  os_WriteFile_error : string -> string -> option (string * option string);
  json_Unmarshal : string -> string + Config;
  json_MarshalIndent : Config -> string + string;
  json_EncodeIndent_Config : Config -> string + string;
  keyring_Set_error : string -> option string;
  stdin_ReadString : string + string;
  strings_TrimSpace : string -> string;
  strconv_Quote : string -> string;
}.

Definition C (A : Type) : Type := Machine -> Result A * Machine.

Definition Println (text : string) : C unit :=
  fun m => (Ok tt, {| file := file m; keyring := keyring m;
                      out := out m +:+ text +:+ gostrings.newline; err := err m |}).

Definition Eprint (text : string) : C unit :=
  fun m => (Ok tt, {| file := file m; keyring := keyring m;
                      out := out m; err := err m +:+ text |}).

Section WithSystem.
Context `{System}.

(** [Path] returns the full path to the config file. *)
Definition Path : Result string :=
  match os_UserHomeDir with
  | inl msg => Err (Errorf_w "getting home directory: " (errorString msg))
  | inr home => Ok (filepath_Join [home; configDir; configFile])
  end.

(** [Load] reads the config from disk.  Returns defaults if the file
    doesn't exist. *)
Definition Load : C Config :=
  fun m =>
    match Path with
    | Err e => (Err e, m)
    | Ok p =>
        match os_ReadFile_error p with
        | Some msg => (Err (Errorf_w "reading config file: " (errorString msg)), m)
        | None =>
            match file m with
            | None =>
                (Ok {| Organization := ""; Project := ""; OutputFormat := "table" |}, m)
            | Some data =>
                match json_Unmarshal data with
                | inl msg => (Err (Errorf_w "parsing config file: " (errorString msg)), m)
                | inr cfg => (Ok cfg, m)
                end
            end
        end
    end.

(** [Save] writes the config to disk, creating the directory if
    needed. *)
Definition Save (c : Config) : C unit :=
  fun m =>
    match Path with
    | Err e => (Err e, m)
    | Ok p =>
        match os_MkdirAll (filepath_Dir p) with
        | Some msg => (Err (Errorf_w "creating config directory: " (errorString msg)), m)
        | None =>
            match json_MarshalIndent c with
            | inl msg => (Err (Errorf_w "marshaling config: " (errorString msg)), m)
            | inr data =>
                let data := data +:+ gostrings.newline in
                match os_WriteFile_error p data with
                | Some (msg, remains) =>
                    (Err (errorString msg),
                     {| file := remains; keyring := keyring m; out := out m; err := err m |})
                | None =>
                    (Ok tt,
                     {| file := Some data; keyring := keyring m; out := out m; err := err m |})
                end
            end
        end
    end.

(** [runConfigSet] of [cmd/config.go]; [key] and [value] are [args[0]]
    and [args[1]]. *)
Definition runConfigSet (key value : string) : C unit :=
  fun m =>
    match Load m with
    | (Err e, m) => (Err e, m)
    | (Ok cfg, m) =>
        let updated : Result Config :=
          if key =? "organization"
          then Ok {| Organization := value; Project := Project cfg;
                     OutputFormat := OutputFormat cfg |}
          else if key =? "project"
          then Ok {| Organization := Organization cfg; Project := value;
                     OutputFormat := OutputFormat cfg |}
          else if key =? "output_format"
          then
            if negb (value =? "table") && negb (value =? "json") && negb (value =? "plain")
            then Err (Errorf ("invalid output_format " +:+ strconv_Quote value
                              +:+ " (must be table, json, or plain)"))
            else Ok {| Organization := Organization cfg; Project := Project cfg;
                       OutputFormat := value |}
          else Err (Errorf ("unknown config key " +:+ strconv_Quote key
                            +:+ " (valid: organization, project, output_format)")) in
        match updated with
        | Err e => (Err e, m)
        | Ok cfg =>
            match Save cfg m with
            | (Err e, m) => (Err (Errorf_w "saving config: " e), m)
            | (Ok _, m) =>
                Eprint ("Set " +:+ key +:+ " = " +:+ value +:+ gostrings.newline) m
            end
        end
    end.

(** [runConfigGet] of [cmd/config.go]; [key] is [args[0]]. *)
Definition runConfigGet (key : string) : C unit :=
  fun m =>
    match Load m with
    | (Err e, m) => (Err e, m)
    | (Ok cfg, m) =>
        if key =? "organization" then Println (Organization cfg) m
        else if key =? "project" then Println (Project cfg) m
        else if key =? "output_format" then Println (OutputFormat cfg) m
        else (Err (Errorf ("unknown config key " +:+ strconv_Quote key
                           +:+ " (valid: organization, project, output_format)")), m)
    end.

(** [runAuthLogin] of [cmd/auth.go]; [patFlag] is the value of [--pat]. *)
Definition runAuthLogin (patFlag : string) : C unit :=
  fun m =>
    let entered : Result string * Machine :=
      if patFlag =? ""
      then
        let m := snd (Eprint "Enter PAT: " m) in
        match stdin_ReadString with
        | inl msg => (Err (Errorf_w "reading PAT: " (errorString msg)), m)
        | inr line => (Ok (strings_TrimSpace line), m)
        end
      else (Ok patFlag, m) in
    match entered with
    | (Err e, m) => (Err e, m)
    | (Ok pat, m) =>
        if pat =? "" then (Err (Errorf "PAT cannot be empty"), m)
        else
          match keyring_Set_error pat with
          | Some msg => (Err (Errorf_w "storing PAT in keyring: " (errorString msg)), m)
          | None =>
              Eprint ("PAT stored successfully." +:+ gostrings.newline)
                {| file := file m; keyring := Some pat; out := out m; err := err m |}
          end
    end.

End WithSystem.

(** The three keys, the three output formats, and what reading and
    setting a key mean for a configuration. *)
Definition keys : list string := ["organization"; "project"; "output_format"].

Definition formats : list string := ["table"; "json"; "plain"].

Definition get (c : Config) (key : string) : string :=
  if key =? "organization" then Organization c
  else if key =? "project" then Project c
  else OutputFormat c.

Definition set (c : Config) (key value : string) : Config :=
  if key =? "organization"
  then {| Organization := value; Project := Project c; OutputFormat := OutputFormat c |}
  else if key =? "project"
  then {| Organization := Organization c; Project := value; OutputFormat := OutputFormat c |}
  else {| Organization := Organization c; Project := Project c; OutputFormat := value |}.

(** A system in which nothing fails; the file holds the three values,
    one per line. *)
Module stub.

Definition marshal (c : Config) : string :=
  Organization c +:+ gostrings.newline +:+ Project c +:+ gostrings.newline
  +:+ OutputFormat c.

Definition unmarshal (data : string) : string + Config :=
  match gostrings.Split data (ascii_of_nat 10) with
  | [org; project; format; _] =>
      inr {| Organization := org; Project := project; OutputFormat := format |}
  | _ => inl "unexpected end of JSON input"
  end.

#[export] Instance system : System :=
  {| os_UserHomeDir := inr "/home/dev";
     filepath_Join := fun elems => String.concat "/" elems;
     filepath_Dir := fun _ => "/home/dev/.config/ado";
     os_ReadFile_error := fun _ => None;
     os_MkdirAll := fun _ => None;
     os_WriteFile_error := fun _ _ => None;
     json_Unmarshal := unmarshal;
     json_MarshalIndent := fun c => inr (marshal c);
     json_EncodeIndent_Config := fun c => inr (marshal c +:+ gostrings.newline);
     keyring_Set_error := fun _ => None;
     stdin_ReadString := inr ("secret" +:+ gostrings.newline);
     strings_TrimSpace := fun s => gostrings.TrimSuffix s gostrings.newline;
     strconv_Quote := fun s => "'" +:+ s +:+ "'" |}.

Definition fresh : Machine := mkMachine None None "" "".

End stub.
End config.

(** * Properties *)

Import api cmd.
Local Open Scope go_scope.

(** ** Byte strings *)

Section StringFacts.

Lemma append_cons (a : ascii) (s t : string) :
  String a s +:+ t = String a (s +:+ t).
Proof. reflexivity. Qed.

Lemma append_nil_l (s : string) : "" +:+ s = s.
Proof. reflexivity. Qed.

Lemma append_nil_r (s : string) : s +:+ "" = s.
Proof. induction s as [|a s IH]; [reflexivity|]. now rewrite append_cons, IH. Qed.

Lemma append_assoc (s t u : string) : (s +:+ t) +:+ u = s +:+ (t +:+ u).
Proof.
  induction s as [|a s IH]; [reflexivity|].
  now rewrite !append_cons, IH.
Qed.

Lemma length_append (s t : string) :
  String.length (s +:+ t) = String.length s + String.length t.
Proof.
  induction s as [|a s IH]; [reflexivity|].
  rewrite append_cons. simpl. now rewrite IH.
Qed.

Lemma sliceTo_append (p s : string) :
  gostrings.sliceTo (String.length p) (p +:+ s) = p.
Proof.
  induction p as [|a p IH]; [reflexivity|].
  rewrite append_cons. simpl. now rewrite IH.
Qed.

Lemma sliceFrom_append (p s : string) :
  gostrings.sliceFrom (String.length p) (p +:+ s) = s.
Proof.
  induction p as [|a p IH]; [reflexivity|].
  rewrite append_cons. simpl. exact IH.
Qed.

Lemma slice_split (n : nat) (s : string) :
  gostrings.sliceTo n s +:+ gostrings.sliceFrom n s = s.
Proof.
  revert s. induction n as [|n IH]; intros [|a s]; try reflexivity.
  simpl. now rewrite append_cons, IH.
Qed.

Lemma HasPrefix_iff (s p : string) :
  gostrings.HasPrefix s p = true <-> exists t, s = p +:+ t.
Proof.
  unfold gostrings.HasPrefix. split.
  - intros [_ Heq%String.eqb_eq]%andb_true_iff.
    exists (gostrings.sliceFrom (String.length p) s).
    rewrite <- Heq at 1. symmetry. apply slice_split.
  - intros [t ->]. apply andb_true_iff. split.
    + apply Nat.leb_le. rewrite length_append. lia.
    + apply String.eqb_eq, sliceTo_append.
Qed.

Lemma HasSuffix_iff (s suf : string) :
  gostrings.HasSuffix s suf = true <-> exists t, s = t +:+ suf.
Proof.
  unfold gostrings.HasSuffix. split.
  - intros [_ Heq%String.eqb_eq]%andb_true_iff.
    exists (gostrings.sliceTo (String.length s - String.length suf) s).
    rewrite <- Heq at 2. symmetry. apply slice_split.
  - intros [t ->]. apply andb_true_iff. split.
    + apply Nat.leb_le. rewrite length_append. lia.
    + apply String.eqb_eq. rewrite length_append.
      replace (String.length t + String.length suf - String.length suf)
        with (String.length t) by lia.
      apply sliceFrom_append.
Qed.

Lemma TrimPrefix_append (p s : string) : gostrings.TrimPrefix (p +:+ s) p = s.
Proof.
  unfold gostrings.TrimPrefix.
  replace (gostrings.HasPrefix (p +:+ s) p) with true
    by (symmetry; apply HasPrefix_iff; eauto).
  apply sliceFrom_append.
Qed.

Lemma lastByte_append (s t : string) :
  t <> "" -> gostrings.lastByte (s +:+ t) = gostrings.lastByte t.
Proof.
  intros Ht. induction s as [|a s IH]; [reflexivity|].
  rewrite append_cons. simpl. rewrite IH.
  destruct (s +:+ t) eqn:E; [|reflexivity].
  destruct s; [rewrite append_nil_l in E; contradiction | discriminate].
Qed.

End StringFacts.

(** ** Branch names *)

Lemma ensureRef_fixed (b : string) :
  gostrings.HasPrefix b "refs/" = true -> ensureRef b = b.
Proof. unfold ensureRef. now intros ->. Qed.

Lemma ensureRef_qualifies (b : string) :
  gostrings.HasPrefix b "refs/" = false -> ensureRef b = "refs/heads/" +:+ b.
Proof. unfold ensureRef. now intros ->. Qed.

Lemma ensureRef_has_prefix (b : string) :
  gostrings.HasPrefix (ensureRef b) "refs/" = true.
Proof.
  destruct (gostrings.HasPrefix b "refs/") eqn:Hb.
  - now rewrite ensureRef_fixed.
  - rewrite ensureRef_qualifies by assumption.
    apply HasPrefix_iff. exists ("heads/" +:+ b). reflexivity.
Qed.

(** C10. [ensureRef] is idempotent, and for a branch name that does not
    start with [refs/], [shortBranch] undoes it. *)
Theorem ensureRef_idempotent_shortBranch_inverse (b : string) :
  ensureRef (ensureRef b) = ensureRef b
  /\ (gostrings.HasPrefix b "refs/" = false -> shortBranch (ensureRef b) = b).
Proof.
  split.
  - apply ensureRef_fixed, ensureRef_has_prefix.
  - intros Hb. rewrite ensureRef_qualifies by assumption.
    apply TrimPrefix_append.
Qed.

Lemma ensureRef_idempotent_shortBranch_inverse_witness :
  gostrings.HasPrefix "feature/login" "refs/" = false
  /\ shortBranch (ensureRef "feature/login") = "feature/login".
Proof.
  split; [reflexivity|].
  apply (proj2 (ensureRef_idempotent_shortBranch_inverse "feature/login")).
  reflexivity.
Defined.

(** ** The query builder *)

Lemma buildWIQL_conditions (project wiType state assignedTo : string) :
  buildWIQL project wiType state assignedTo
  = wiql.selectClause +:+ " WHERE "
    +:+ String.concat " AND "
          (map wiql.render (wiql.conditions project wiType state assignedTo))
    +:+ wiql.orderClause.
Proof.
  unfold buildWIQL, wiql.conditions, gostrings.Join, gostrings.append.
  destruct (wiType =? "") eqn:Ht, (state =? "") eqn:Hs,
    (assignedTo =? "") eqn:Ha, (assignedTo =? "@me") eqn:Hme;
    try (apply String.eqb_eq in Ha, Hme; subst; discriminate);
    cbn [negb app map wiql.render String.concat];
    unfold wiql.selectClause, wiql.orderClause;
    rewrite ?append_assoc; reflexivity.
Qed.

Lemma conditions_length (project wiType state assignedTo : string) :
  length (wiql.conditions project wiType state assignedTo)
  = 1 + spec.nonEmptyCount [wiType; state; assignedTo].
Proof.
  unfold wiql.conditions, spec.nonEmptyCount.
  destruct (wiType =? ""), (state =? ""), (assignedTo =? ""),
    (assignedTo =? "@me"); reflexivity.
Qed.

Lemma lastByte_append_some (s t : string) (c : ascii) :
  gostrings.lastByte t = Some c -> gostrings.lastByte (s +:+ t) = Some c.
Proof.
  intros Ht. rewrite lastByte_append; [assumption|].
  intros ->. discriminate.
Qed.

Lemma HasSuffix_lastByte (s suf : string) (c : ascii) :
  gostrings.HasSuffix s suf = true ->
  gostrings.lastByte suf = Some c -> gostrings.lastByte s = Some c.
Proof.
  intros [t ->]%HasSuffix_iff Hc. now apply lastByte_append_some.
Qed.

Lemma render_lastByte (c : wiql.Cond) :
  gostrings.lastByte (wiql.render c) = Some "'"%char
  \/ gostrings.lastByte (wiql.render c) = Some "e"%char.
Proof.
  destruct c as [field value|]; [left|right; reflexivity].
  unfold wiql.render. now repeat apply lastByte_append_some.
Qed.

Lemma concat_lastByte (sep : string) (l : list string) (x : string) (c : ascii) :
  gostrings.lastByte (List.last l x) = Some c -> l <> [] ->
  gostrings.lastByte (String.concat sep l) = Some c.
Proof.
  induction l as [|y [|z l] IH]; intros Hc Hl; [contradiction|exact Hc|].
  change (String.concat sep (y :: z :: l))
    with (y +:+ sep +:+ String.concat sep (z :: l)).
  do 2 apply lastByte_append_some. now apply IH.
Qed.

Lemma where_body_lastByte (project wiType state assignedTo : string) :
  let body := String.concat " AND "
                (map wiql.render (wiql.conditions project wiType state assignedTo)) in
  gostrings.lastByte body = Some "'"%char \/ gostrings.lastByte body = Some "e"%char.
Proof.
  intros body. subst body.
  set (conds := map wiql.render _).
  assert (Hne : conds <> []) by (subst conds; discriminate).
  assert (Hlast : exists c, List.last conds "" = wiql.render c).
  { subst conds. unfold wiql.conditions.
    destruct (wiType =? ""), (state =? ""), (assignedTo =? ""),
      (assignedTo =? "@me"); cbn [app map List.last]; eauto. }
  destruct Hlast as [c Hc].
  destruct (render_lastByte c) as [Hq|He]; [left|right];
    apply concat_lastByte with (x := ""); rewrite ?Hc; assumption.
Qed.

(** C3. The query is the SELECT clause, one WHERE keyword, the scope
    condition followed by one condition per non-empty filter in the order
    type, state, assignee, joined by [" AND "] with no operator in front
    or behind, and the fixed ORDER BY clause at the end; the two fixed
    clauses hold no WHERE of their own. *)
Theorem buildWIQL_where_clause (project wiType state assignedTo : string) :
  let conds := wiql.conditions project wiType state assignedTo in
  let body := String.concat " AND " (map wiql.render conds) in
  buildWIQL project wiType state assignedTo
  = wiql.selectClause +:+ " WHERE " +:+ body +:+ wiql.orderClause
  /\ length conds = 1 + spec.nonEmptyCount [wiType; state; assignedTo]
  /\ gostrings.HasPrefix body "[System.TeamProject] = '" = true
  /\ gostrings.HasPrefix body " AND " = false
  /\ gostrings.HasSuffix body " AND " = false
  /\ gostrings.HasSuffix (buildWIQL project wiType state assignedTo)
       " ORDER BY [System.ChangedDate] DESC" = true
  /\ gostrings.Containsb wiql.selectClause "WHERE" = false
  /\ gostrings.Containsb wiql.orderClause "WHERE" = false.
Proof.
  intros conds body.
  assert (Hstart : gostrings.HasPrefix body "[System.TeamProject] = '" = true).
  { apply HasPrefix_iff. subst body conds. unfold wiql.conditions.
    cbn [map wiql.render].
    match goal with |- context [String.concat _ (?c :: ?l)] => destruct l end.
    - eexists. cbn [String.concat]. rewrite ?append_assoc. reflexivity.
    - eexists. cbn [String.concat]. rewrite ?append_assoc. reflexivity. }
  repeat split.
  - apply buildWIQL_conditions.
  - apply conditions_length.
  - exact Hstart.
  - apply HasPrefix_iff in Hstart as [t Ht]. rewrite Ht. reflexivity.
  - destruct (gostrings.HasSuffix body " AND ") eqn:Hsuf; [exfalso|reflexivity].
    pose proof (HasSuffix_lastByte _ _ " "%char Hsuf eq_refl) as Hl.
    destruct (where_body_lastByte project wiType state assignedTo) as [Hq|He];
      fold conds in Hq || fold conds in He; fold body in Hq || fold body in He;
      congruence.
  - rewrite buildWIQL_conditions. apply HasSuffix_iff.
    eexists. rewrite <- !append_assoc. reflexivity.
Qed.

Lemma escapeWIQL_cons (c : ascii) (s : string) :
  escapeWIQL (String c s)
  = if Ascii.eqb c "'" then String "'" (String "'" (escapeWIQL s))
    else String c (escapeWIQL s).
Proof. unfold escapeWIQL. simpl. now destruct (Ascii.eqb c "'"). Qed.

Lemma readLiteral_escapeWIQL (v rest : string) :
  gostrings.HasPrefix rest "'" = false ->
  wiql.readLiteral (escapeWIQL v +:+ "'" +:+ rest) = Some (v, rest).
Proof.
  intros Hrest. induction v as [|c v IH].
  - change (escapeWIQL "" +:+ "'" +:+ rest) with (String "'" rest).
    destruct rest as [|c' rest']; [reflexivity|].
    simpl. destruct (Ascii.eqb c' "'") eqn:Hc'; [|reflexivity].
    apply Ascii.eqb_eq in Hc'. subst c'.
    exfalso. revert Hrest. unfold gostrings.HasPrefix. simpl. discriminate.
  - set (tail := "'" +:+ rest) in *.
    rewrite escapeWIQL_cons. destruct (Ascii.eqb c "'") eqn:Hc.
    + apply Ascii.eqb_eq in Hc. subst c.
      rewrite !append_cons. cbn [wiql.readLiteral]. simpl Ascii.eqb. cbv iota.
      rewrite IH. reflexivity.
    + rewrite append_cons. cbn [wiql.readLiteral]. rewrite Hc, IH. reflexivity.
Qed.

Lemma escapeWIQL_count (v : string) :
  gostrings.CountByte (escapeWIQL v) "'" = 2 * gostrings.CountByte v "'".
Proof.
  induction v as [|c v IH]; [reflexivity|].
  rewrite escapeWIQL_cons. destruct (Ascii.eqb c "'") eqn:Hc; simpl.
  - rewrite Hc, IH. simpl. lia.
  - rewrite Hc, IH. simpl. lia.
Qed.

(** An element of a joined list is followed by nothing or by the
    separator. *)
Lemma concat_In_split (sep : string) (l : list string) (x : string) :
  In x l ->
  exists pre post, String.concat sep l = pre +:+ x +:+ post
                   /\ (post = "" \/ exists r, post = sep +:+ r).
Proof.
  induction l as [|y [|z l] IH]; intros Hin.
  - destruct Hin.
  - destruct Hin as [<-|[]]. exists "", "". split; [|now left].
    simpl. now rewrite append_nil_r.
  - change (String.concat sep (y :: z :: l))
      with (y +:+ sep +:+ String.concat sep (z :: l)).
    destruct Hin as [<-|Hin].
    + exists "", (sep +:+ String.concat sep (z :: l)). split; [reflexivity|].
      right. eauto.
    + destruct (IH Hin) as (pre & post & Heq & Hpost).
      exists (y +:+ sep +:+ pre), post. split; [|assumption].
      rewrite Heq, !append_assoc. reflexivity.
Qed.

Lemma CountByte_append (s t : string) (c : ascii) :
  gostrings.CountByte (s +:+ t) c = gostrings.CountByte s c + gostrings.CountByte t c.
Proof.
  induction s as [|a s IH]; [reflexivity|].
  rewrite append_cons. cbn [gostrings.CountByte]. rewrite IH. lia.
Qed.

Lemma CountByte_concat (sep : string) (l : list string) (c : ascii) :
  gostrings.CountByte sep c = 0 ->
  gostrings.CountByte (String.concat sep l) c
  = list_sum (map (fun s => gostrings.CountByte s c) l).
Proof.
  intros Hsep. induction l as [|s [|s' l] IH]; [reflexivity | cbn; lia |].
  change (String.concat sep (s :: s' :: l))
    with (s +:+ sep +:+ String.concat sep (s' :: l)).
  rewrite !CountByte_append, Hsep, IH. reflexivity.
Qed.

Lemma render_quotes (project wiType state assignedTo : string) (c : wiql.Cond) :
  In c (wiql.conditions project wiType state assignedTo) ->
  gostrings.CountByte (wiql.render c) "'" = wiql.quotes c.
Proof.
  assert (Hlit : forall field value,
            gostrings.CountByte field "'" = 0 ->
            gostrings.CountByte (wiql.render (wiql.Equals field value)) "'"
            = wiql.quotes (wiql.Equals field value)).
  { intros field value Hf. unfold wiql.render, wiql.quotes.
    rewrite !CountByte_append, Hf, escapeWIQL_count. cbn. lia. }
  unfold wiql.conditions.
  destruct (wiType =? ""), (state =? ""), (assignedTo =? ""), (assignedTo =? "@me");
    cbn [app In]; intros Hin;
    repeat (destruct Hin as [<-|Hin]; [first [now apply Hlit | reflexivity]|]);
    destruct Hin.
Qed.

(** C4. The query is the fixed clauses around the conditions, joined
    by [ AND ]; a condition is a field, [ = ] and the value between two
    quotes with each of its own quotes doubled, or, for the assignee
    [@me], the macro without any quote.  So the quotes of the query are
    two for each literal and two for each quote of a value, and every
    literal read back from the query is the value itself and ends at
    the closing quote the builder wrote. *)
Theorem buildWIQL_literals_escaped (project wiType state assignedTo : string) :
  let q := buildWIQL project wiType state assignedTo in
  let conds := wiql.conditions project wiType state assignedTo in
  q = wiql.selectClause +:+ " WHERE "
      +:+ String.concat " AND " (map wiql.render conds) +:+ wiql.orderClause
  /\ (forall field value,
        wiql.render (wiql.Equals field value)
        = field +:+ " = '" +:+ escapeWIQL value +:+ "'")
  /\ wiql.render wiql.AssignedToMe = "[System.AssignedTo] = @me"
  /\ gostrings.CountByte q "'" = list_sum (map wiql.quotes conds)
  /\ (forall field value, In (wiql.Equals field value) conds ->
     exists pre post,
       q = pre +:+ field +:+ " = '" +:+ escapeWIQL value +:+ "'" +:+ post
       /\ wiql.readLiteral (escapeWIQL value +:+ "'" +:+ post) = Some (value, post))
  /\ (forall v, gostrings.CountByte (escapeWIQL v) "'" = 2 * gostrings.CountByte v "'")
  /\ (forall field value, In (wiql.Equals field value) conds ->
        In value [project; wiType; state; assignedTo])
  /\ In (wiql.Equals "[System.TeamProject]" project) conds
  /\ (wiType <> "" -> In (wiql.Equals "[System.WorkItemType]" wiType) conds)
  /\ (state <> "" -> In (wiql.Equals "[System.State]" state) conds)
  /\ (assignedTo <> "" -> assignedTo <> "@me" ->
        In (wiql.Equals "[System.AssignedTo]" assignedTo) conds)
  /\ (assignedTo = "@me" ->
        In wiql.AssignedToMe conds
        /\ ~ In (wiql.Equals "[System.AssignedTo]" assignedTo) conds
        /\ gostrings.Contains q "[System.AssignedTo] = @me").
Proof.
  intros q conds.
  assert (Hq : q = wiql.selectClause +:+ " WHERE "
                   +:+ String.concat " AND " (map wiql.render conds)
                   +:+ wiql.orderClause) by apply buildWIQL_conditions.
  assert (Hsplit : forall c, In c conds ->
            exists pre post, q = pre +:+ wiql.render c +:+ post
                             /\ gostrings.HasPrefix post "'" = false).
  { intros c Hc.
    destruct (concat_In_split " AND " (map wiql.render conds) (wiql.render c))
      as (pre & post & Heq & Hpost); [now apply in_map|].
    exists (wiql.selectClause +:+ " WHERE " +:+ pre), (post +:+ wiql.orderClause).
    split.
    - rewrite Hq, Heq, !append_assoc. reflexivity.
    - destruct Hpost as [->|[r ->]]; reflexivity. }
  split; [exact Hq|]. split; [reflexivity|]. split; [reflexivity|]. split.
  { rewrite Hq, !CountByte_append, CountByte_concat by reflexivity.
    change (gostrings.CountByte wiql.selectClause "'") with 0.
    change (gostrings.CountByte " WHERE " "'") with 0.
    change (gostrings.CountByte wiql.orderClause "'") with 0.
    rewrite Nat.add_0_r. cbn [Nat.add]. rewrite map_map. f_equal.
    apply map_ext_in. intros c Hc. now apply (render_quotes project wiType state assignedTo). }
  repeat split.
  - intros field value Hin.
    destruct (Hsplit _ Hin) as (pre & post & Heq & Hpost).
    exists pre, post. split.
    + rewrite Heq. unfold wiql.render. rewrite !append_assoc. reflexivity.
    + now apply readLiteral_escapeWIQL.
  - apply escapeWIQL_count.
  - subst conds. unfold wiql.conditions. intros field value.
    destruct (wiType =? ""), (state =? ""), (assignedTo =? ""),
      (assignedTo =? "@me"); cbn [app In];
      intuition (try discriminate);
      match goal with H : wiql.Equals _ _ = wiql.Equals _ _ |- _ =>
        injection H as _ <- end; auto.
  - now left.
  - intros Ht%String.eqb_neq. subst conds. unfold wiql.conditions.
    rewrite Ht. cbn [app In]. auto.
  - intros Hs%String.eqb_neq. subst conds. unfold wiql.conditions.
    rewrite Hs. destruct (wiType =? ""); cbn [app In]; auto.
  - intros Ha%String.eqb_neq Hme%String.eqb_neq. subst conds.
    unfold wiql.conditions. rewrite Ha, Hme.
    destruct (wiType =? ""), (state =? ""); cbn [app In]; auto.
  - subst assignedTo conds. unfold wiql.conditions.
    destruct (wiType =? ""), (state =? ""); cbn; auto.
  - subst assignedTo conds. unfold wiql.conditions.
    destruct (wiType =? ""), (state =? ""); cbn;
      intuition discriminate.
  - assert (Hin : In wiql.AssignedToMe conds).
    { subst assignedTo conds. unfold wiql.conditions.
      destruct (wiType =? ""), (state =? ""); cbn; auto. }
    destruct (Hsplit _ Hin) as (pre & post & Heq & _).
    exists pre, post. exact Heq.
Qed.

Lemma buildWIQL_literals_escaped_witness :
  wiql.readLiteral (escapeWIQL "O'Brien" +:+ "'" +:+ " ORDER BY [System.ChangedDate] DESC")
  = Some ("O'Brien", " ORDER BY [System.ChangedDate] DESC")
  /\ gostrings.Contains (buildWIQL "P" "" "" "@me") "[System.AssignedTo] = @me"
  /\ gostrings.CountByte (buildWIQL "O'Brien" "" "" "@me") "'" = 4.
Proof.
  split; [reflexivity|]. split.
  - apply (buildWIQL_literals_escaped "P" "" "" "@me"). reflexivity.
  - exact (proj1 (proj2 (proj2 (proj2
             (buildWIQL_literals_escaped "O'Brien" "" "" "@me"))))).
Defined.

(** ** The transport: responses *)

Lemma Contains_intro (pre sub post : string) :
  gostrings.Contains (pre +:+ sub +:+ post) sub.
Proof. now exists pre, post. Qed.

Lemma Error_Error_contains (e : Error) :
  gostrings.Contains (Error_Error e) (gostrings.Itoa (StatusCode e))
  /\ gostrings.Contains (Error_Error e) (Body e).
Proof.
  unfold Error_Error. split.
  - apply Contains_intro.
  - exists ("Azure DevOps API error (HTTP " +:+ gostrings.Itoa (StatusCode e) +:+ "): "), "".
    now rewrite append_nil_r, !append_assoc.
Qed.

(** C1. A response is turned into the typed error exactly when its
    status code is at least 400; the error carries the status code and
    the raw body, and its message shows both; below 400 the body is
    decoded into the variable the caller passed (and left alone when the
    caller passed none). *)
Theorem decodeOrClose_typed_error (T : Type) (resp : Response) (result : Target T) :
  let status := Response_StatusCode resp in
  let body := Response_Body resp in
  let e := {| StatusCode := status; Body := body |} in
  ((exists e', decodeOrClose resp result = Err (apiError e')) <-> (status >= 400)%Z)
  /\ ((status >= 400)%Z ->
        decodeOrClose resp result = Err (apiError e)
        /\ gostrings.Contains (error_Error (apiError e)) (gostrings.Itoa status)
        /\ gostrings.Contains (error_Error (apiError e)) body)
  /\ ((status < 400)%Z ->
        match result in Target T0 return Result T0 -> Prop with
        | into decode => fun r =>
            r = match decode body with
                | inl msg => Err (errorString msg)
                | inr v => Ok v
                end
        | nilTarget => fun r => r = Ok tt
        end (decodeOrClose resp result)).
Proof.
  intros status body e. unfold decodeOrClose. fold status body.
  destruct (Z.geb_spec status 400) as [Hge|Hlt].
  - repeat split.
    + lia.
    + intros _. eauto.
    + apply Error_Error_contains.
    + apply (Error_Error_contains e).
    + lia.
  - repeat split.
    + intros [e' He']. exfalso.
      destruct result as [|T decode]; [discriminate|].
      destruct (decode body); discriminate.
    + lia.
    + lia.
    + lia.
    + lia.
    + intros _. destruct result; reflexivity.
Qed.

Lemma decodeOrClose_typed_error_witness :
  let resp := {| Response_StatusCode := 404; Response_Body := "not found" |} in
  let e := {| StatusCode := 404; Body := "not found" |} in
  (404 >= 400)%Z
  /\ (decodeOrClose (T := unit) resp nilTarget = Err (apiError e)
      /\ gostrings.Contains (error_Error (apiError e)) "404"
      /\ gostrings.Contains (error_Error (apiError e)) "not found").
Proof.
  intros resp e. split; [lia|].
  apply (decodeOrClose_typed_error unit resp nilTarget). simpl. lia.
Defined.

Example Error_Error_404 :
  error_Error (apiError {| StatusCode := 404; Body := "not found" |})
  = "Azure DevOps API error (HTTP 404): not found".
Proof. reflexivity. Qed.

(** C9. With no identifiers, [GetWorkItems] returns no work items and no
    error, and leaves the world, the list of network calls included, as
    it was. *)
Theorem GetWorkItems_empty `{Runtime} (c : Client) (project : string) (w : World) :
  GetWorkItems c project [] w = (Ok [], w)
  /\ calls (snd (GetWorkItems c project [] w)) = calls w.
Proof. split; reflexivity. Qed.

(** ** The transport: one request per call *)

Section RoundTrips.
Context `{Runtime}.

Lemma doRaw_roundTrip {T : Type} (c : Client) (method rawURL contentType : string)
    (body : option Payload) (k : Response -> M T) (finish : Response -> Result T)
    (w : World) :
  (forall resp w', k resp w' = (finish resp, w')) ->
  bind (doRaw c method rawURL contentType body) k w
  = spec.roundTrip c method rawURL contentType body finish w.
Proof.
  intros Hk.
  unfold spec.roundTrip, doRaw, bind, lift, orReturn, ret, HTTP_Do, http_NewRequest.
  destruct (marshalBody body) as [data|err]; [|reflexivity].
  destruct (url_Parse rawURL) as [u|err]; [|reflexivity].
  change (gostrings.append (calls w) ?r) with (calls w ++ [r])%list.
  fold (spec.outgoing c method contentType u data).
  fold (spec.addCall w (spec.outgoing c method contentType u data)).
  destruct (transport (calls w) _) as [msg|resp]; [reflexivity|].
  apply Hk.
Qed.

Lemma do_roundTrip {T : Type} (c : Client) (method path : string)
    (body : option Payload) (k : Response -> M T) (finish : Response -> Result T)
    (w : World) :
  (forall resp w', k resp w' = (finish resp, w')) ->
  bind (do c method path body) k w
  = spec.roundTrip c method (BaseURL c +:+ "/" +:+ path) "application/json" body finish w.
Proof.
  intros Hk.
  unfold spec.roundTrip, do, bind, lift, orReturn, ret, HTTP_Do, http_NewRequest.
  destruct (marshalBody body) as [data|err]; [|reflexivity].
  destruct (url_Parse _) as [u|err]; [|reflexivity].
  change (gostrings.append (calls w) ?r) with (calls w ++ [r])%list.
  fold (spec.outgoing c method "application/json" u data).
  fold (spec.addCall w (spec.outgoing c method "application/json" u data)).
  destruct (transport (calls w) _) as [msg|resp]; [reflexivity|].
  apply Hk.
Qed.

(** A round trip leaves the output streams alone and adds at most one
    request to the calls. *)
Lemma roundTrip_world {T : Type} (c : Client) (method rawURL contentType : string)
    (body : option Payload) (finish : Response -> Result T) (w : World) :
  let w' := snd (spec.roundTrip c method rawURL contentType body finish w) in
  stdout w' = stdout w /\ stderr w' = stderr w
  /\ (calls w' = calls w \/ exists req, calls w' = (calls w ++ [req])%list).
Proof.
  unfold spec.roundTrip.
  destruct (marshalBody body) as [data|err]; [|simpl; auto].
  destruct (url_Parse rawURL) as [u|err]; [|simpl; auto].
  destruct (transport (calls w) _) as [msg|resp]; simpl; eauto 6.
Qed.

(** A round trip that succeeds has sent exactly one request, and its
    value is what [finish] made of the response. *)
Lemma roundTrip_Ok {T : Type} (c : Client) (method rawURL contentType : string)
    (body : option Payload) (finish : Response -> Result T) (w w' : World) (v : T) :
  spec.roundTrip c method rawURL contentType body finish w = (Ok v, w') ->
  exists data u resp,
    marshalBody body = Ok data /\ url_Parse rawURL = Ok u
    /\ transport (calls w) (spec.outgoing c method contentType u data) = inr resp
    /\ finish resp = Ok v
    /\ w' = spec.addCall w (spec.outgoing c method contentType u data).
Proof.
  unfold spec.roundTrip.
  destruct (marshalBody body) as [data|err]; [|discriminate].
  destruct (url_Parse rawURL) as [u|err]; [|discriminate].
  destruct (transport (calls w) _) as [msg|resp] eqn:Ht; [discriminate|].
  intros [= Hv <-]. exists data, u, resp. auto.
Qed.

Lemma GetPullRequest_roundTrip (c : Client) (project : string) (id : Z) (w : World) :
  GetPullRequest c project id w
  = spec.roundTrip c "GET"
      (ProjectURL c project ("git/pullrequests/" +:+ gostrings.Itoa id))
      "application/json" None
      (fun resp => decodeOrClose resp (into decode_PullRequest)) w.
Proof.
  unfold GetPullRequest. apply doRaw_roundTrip. intros resp w'.
  unfold bind, lift, ret. now destruct (decodeOrClose resp _).
Qed.

Lemma GetConnectionData_roundTrip (c : Client) (w : World) :
  GetConnectionData c w
  = spec.roundTrip c "GET" (BaseURL c +:+ "/" +:+ "connectionData")
      "application/json" None
      (fun resp => decodeOrClose resp (into decode_ConnectionData)) w.
Proof.
  unfold GetConnectionData, Get.
  transitivity (bind (do c "GET" "connectionData" None)
                  (fun resp => data <- lift (decodeOrClose resp (into decode_ConnectionData)) ;;
                               ret data) w).
  { unfold bind. destruct (do c "GET" "connectionData" None w) as [[resp|err] w']; reflexivity. }
  apply do_roundTrip. intros resp w'.
  unfold bind, lift, ret. now destruct (decodeOrClose resp _).
Qed.

Lemma VotePullRequest_roundTrip (c : Client) (project repoID : string) (prID : Z)
    (reviewerID : string) (vote : Z) (w : World) :
  VotePullRequest c project repoID prID reviewerID vote w
  = spec.roundTrip c "PUT"
      (ProjectURL c project
         ("git/repositories/" +:+ repoID +:+ "/pullrequests/"
          +:+ gostrings.Itoa prID +:+ "/reviewers/" +:+ reviewerID))
      "application/json" (Some (VoteBody vote))
      (fun resp => decodeOrClose resp nilTarget) w.
Proof. unfold VotePullRequest. now apply doRaw_roundTrip. Qed.

Lemma ListRepositories_roundTrip (c : Client) (project : string) (w : World) :
  ListRepositories c project w
  = spec.roundTrip c "GET" (ProjectURL c project "git/repositories")
      "application/json" None
      (fun resp =>
         match decodeOrClose resp (into decode_repositoryList) with
         | Ok result => Ok (repositoryList_Value result)
         | Err err => Err err
         end) w.
Proof.
  unfold ListRepositories. apply doRaw_roundTrip. intros resp w'.
  unfold bind, lift, ret. now destruct (decodeOrClose resp _).
Qed.

Lemma CreateWorkItem_roundTrip (c : Client) (project workItemType : string)
    (fields : list PatchField) (w : World) :
  CreateWorkItem c project workItemType fields w
  = spec.roundTrip c "POST" (ProjectURL c project ("wit/workitems/$" +:+ workItemType))
      "application/json-patch+json" (Some (PatchBody fields))
      (fun resp => decodeOrClose resp (into decode_WorkItem)) w.
Proof.
  unfold CreateWorkItem. apply doRaw_roundTrip. intros resp w'.
  unfold bind, lift, ret. now destruct (decodeOrClose resp _).
Qed.

Lemma UpdateWorkItem_roundTrip (c : Client) (project : string) (id : Z)
    (fields : list PatchField) (w : World) :
  UpdateWorkItem c project id fields w
  = spec.roundTrip c "PATCH" (BaseURL c +:+ "/wit/workitems/" +:+ gostrings.Itoa id)
      "application/json-patch+json" (Some (PatchBody fields))
      (fun resp => decodeOrClose resp (into decode_WorkItem)) w.
Proof.
  unfold UpdateWorkItem. apply doRaw_roundTrip. intros resp w'.
  unfold bind, lift, ret. now destruct (decodeOrClose resp _).
Qed.

End RoundTrips.

(** ** The patch builder *)

Lemma createFields_ops (title desc assignedTo areaPath iterationPath : string) :
  createFields title desc assignedTo areaPath iterationPath
  = ({| Op := "add"; Path := "/fields/System.Title"; Value := title |}
     :: spec.optionalOp "add" "/fields/System.Description" desc
     ++ spec.optionalOp "add" "/fields/System.AssignedTo" assignedTo
     ++ spec.optionalOp "add" "/fields/System.AreaPath" areaPath
     ++ spec.optionalOp "add" "/fields/System.IterationPath" iterationPath)%list.
Proof.
  unfold createFields, spec.optionalOp, gostrings.append.
  destruct (desc =? ""), (assignedTo =? ""), (areaPath =? ""), (iterationPath =? "");
    reflexivity.
Qed.

Lemma updateFields_ops (title state assignedTo : string) :
  updateFields title state assignedTo
  = (spec.optionalOp "replace" "/fields/System.Title" title
     ++ spec.optionalOp "replace" "/fields/System.State" state
     ++ spec.optionalOp "replace" "/fields/System.AssignedTo" assignedTo)%list.
Proof.
  unfold updateFields, spec.optionalOp, gostrings.append.
  destruct (title =? ""), (state =? ""), (assignedTo =? ""); reflexivity.
Qed.

Lemma optionalOp_length (op path input : string) :
  length (spec.optionalOp op path input) = spec.nonEmptyCount [input].
Proof. unfold spec.optionalOp. simpl. now destruct (input =? ""). Qed.

Lemma optionalOp_nonempty (op path input : string) :
  Forall (fun f => Value f = input /\ input <> "") (spec.optionalOp op path input).
Proof.
  unfold spec.optionalOp. destruct (input =? "") eqn:E; constructor; [|constructor].
  split; [reflexivity|]. now apply String.eqb_neq.
Qed.

Lemma optionalOp_value (op path input : string) :
  Forall (fun f => Value f <> "") (spec.optionalOp op path input).
Proof.
  eapply Forall_impl; [apply optionalOp_nonempty|].
  intros f [Hv Hne]. now rewrite Hv.
Qed.

Lemma bind_Ok {A B : Type} (m : M A) (k : A -> M B) (w w' : World) (a : A) :
  m w = (Ok a, w') -> bind m k w = k a w'.
Proof. unfold bind. now intros ->. Qed.

Lemma bind_Err {A B : Type} (m : M A) (k : A -> M B) (w w' : World) (err : error) :
  m w = (Err err, w') -> bind m k w = (Err err, w').
Proof. unfold bind. now intros ->. Qed.

Lemma orReturn_Ok {A : Type} (m : M A) (wrap : error -> error) (w w' : World) (a : A) :
  m w = (Ok a, w') -> orReturn m wrap w = (Ok a, w').
Proof. unfold orReturn. now intros ->. Qed.

Lemma orReturn_Err {A : Type} (m : M A) (wrap : error -> error) (w w' : World)
    (err : error) :
  m w = (Err err, w') -> orReturn m wrap w = (Err (wrap err), w').
Proof. unfold orReturn. now intros ->. Qed.

(** Runs the next step of a command whose outcome is known. *)
Ltac step Heq :=
  first [ rewrite (bind_Ok _ _ _ _ _ Heq) | rewrite (bind_Err _ _ _ _ _ Heq) ].

Section Commands.
Context `{Runtime}.
Variable env : Env.

Lemma newAPIClient_pure (w : World) : exists r, newAPIClient env w = (r, w).
Proof.
  unfold newAPIClient. destruct (viper_organization env =? ""); [unfold fail; eauto|].
  unfold bind, lift, ret. destruct (GetPAT env); eauto.
Qed.

Lemma resolveProject_pure (cmd : Command) (w : World) :
  exists r, resolveProject env cmd w = (r, w).
Proof.
  unfold resolveProject, ret, fail.
  destruct (negb (GetString cmd "project" =? "")); [eauto|].
  destruct (viper_project env =? ""); eauto.
Qed.

Lemma encodeToStdout_calls (v : Payload) (w : World) :
  calls (snd (encodeToStdout v w)) = calls w.
Proof. unfold encodeToStdout, fail, Printf. now destruct (json_EncodeIndent v). Qed.

(** What [runWorkitemCreate] sends, if it sends anything: one request,
    whose body is the patch sequence built from the flags, reached only
    with a title. *)
Lemma runWorkitemCreate_calls (cmd : Command) (w : World) :
  let fields := createFields (GetString cmd "title") (GetString cmd "description")
                  (GetString cmd "assigned-to") (GetString cmd "area-path")
                  (GetString cmd "iteration-path") in
  let w' := snd (runWorkitemCreate env cmd w) in
  calls w' = calls w
  \/ exists req data,
       calls w' = (calls w ++ [req])%list
       /\ GetString cmd "title" <> ""
       /\ json_Marshal (PatchBody fields) = inr data
       /\ RequestBody req = Some data.
Proof.
  intros fields. unfold runWorkitemCreate.
  destruct (newAPIClient_pure w) as [[client|err] Hc]; step Hc; [|now left].
  destruct (resolveProject_pure cmd w) as [[project|err] Hp]; step Hp; [|now left].
  destruct (GetString cmd "type" =? ""); [now left|].
  destruct (GetString cmd "title" =? "") eqn:Htitle; [now left|].
  apply String.eqb_neq in Htitle. fold fields.
  destruct (CreateWorkItem client project (GetString cmd "type") fields w)
    as [r w1] eqn:Hcall.
  assert (Hsent : calls w1 = calls w
            \/ exists req data,
                 calls w1 = (calls w ++ [req])%list
                 /\ json_Marshal (PatchBody fields) = inr data
                 /\ RequestBody req = Some data).
  { rewrite CreateWorkItem_roundTrip in Hcall. revert Hcall.
    unfold spec.roundTrip, marshalBody.
    destruct (json_Marshal (PatchBody fields)) as [msg|data]; [intros [= _ <-]; now left|].
    destruct (url_Parse _) as [u|err]; [|intros [= _ <-]; now left].
    destruct (transport (calls w) _) as [msg|resp]; intros [= _ <-];
      right; eexists _, data; repeat split. }
  destruct r as [wi|err].
  - step (orReturn_Ok _ (Errorf_w "creating work item: ") _ _ _ Hcall).
    assert (Hsame : forall m : M unit,
              (m = encodeToStdout (WorkItemOutput wi) \/ exists text, m = Printf text) ->
              calls (snd (m w1)) = calls w1).
    { intros m [->|[text ->]]; [apply encodeToStdout_calls|reflexivity]. }
    match goal with |- context [snd (?m w1)] => rewrite (Hsame m) end.
    + destruct Hsent as [Hs|(req & data & Hs & Hd & Hb)]; [now left|].
      right. exists req, data. auto.
    + destruct (OutputFormat env =? "json"); [now left|].
      destruct (OutputFormat env =? "plain"); right; eauto.
  - step (orReturn_Err _ (Errorf_w "creating work item: ") _ _ _ Hcall).
    destruct Hsent as [Hs|(req & data & Hs & Hd & Hb)]; [now left|].
    right. exists req, data. auto.
Qed.


(** The same for [runWorkitemUpdate]: the sequence sent is not empty. *)
Lemma runWorkitemUpdate_calls (cmd : Command) (args0 : string) (w : World) :
  let fields := updateFields (GetString cmd "title") (GetString cmd "state")
                  (GetString cmd "assigned-to") in
  let w' := snd (runWorkitemUpdate env cmd args0 w) in
  calls w' = calls w
  \/ exists req data,
       calls w' = (calls w ++ [req])%list
       /\ fields <> []
       /\ json_Marshal (PatchBody fields) = inr data
       /\ RequestBody req = Some data.
Proof.
  intros fields. unfold runWorkitemUpdate.
  destruct (gostrings.Atoi args0) as [id|]; [|now left].
  destruct (newAPIClient_pure w) as [[client|err] Hc]; step Hc; [|now left].
  destruct (resolveProject_pure cmd w) as [[project|err] Hp]; step Hp; [|now left].
  fold fields.
  destruct (length fields =? 0)%nat eqn:Hlen; [now left|].
  assert (Hne : fields <> []) by (intros Hnil; rewrite Hnil in Hlen; discriminate).
  destruct (UpdateWorkItem client project id fields w) as [r w1] eqn:Hcall.
  assert (Hsent : calls w1 = calls w
            \/ exists req data,
                 calls w1 = (calls w ++ [req])%list
                 /\ json_Marshal (PatchBody fields) = inr data
                 /\ RequestBody req = Some data).
  { rewrite UpdateWorkItem_roundTrip in Hcall. revert Hcall.
    unfold spec.roundTrip, marshalBody.
    destruct (json_Marshal (PatchBody fields)) as [msg|data]; [intros [= _ <-]; now left|].
    destruct (url_Parse _) as [u|err]; [|intros [= _ <-]; now left].
    destruct (transport (calls w) _) as [msg|resp]; intros [= _ <-];
      right; eexists _, data; repeat split. }
  destruct r as [wi|err].
  - step (orReturn_Ok _ (Errorf_w ("updating work item " +:+ gostrings.Itoa id +:+ ": "))
            _ _ _ Hcall).
    assert (Hsame : forall m : M unit,
              (m = encodeToStdout (WorkItemOutput wi) \/ exists text, m = Printf text) ->
              calls (snd (m w1)) = calls w1).
    { intros m [->|[text ->]]; [apply encodeToStdout_calls|reflexivity]. }
    match goal with |- context [snd (?m w1)] => rewrite (Hsame m) end.
    + destruct Hsent as [Hs|(req & data & Hs & Hd & Hb)]; [now left|].
      right. exists req, data. auto.
    + destruct (OutputFormat env =? "json"); [now left|].
      destruct (OutputFormat env =? "plain"); right; eauto.
  - step (orReturn_Err _ (Errorf_w ("updating work item " +:+ gostrings.Itoa id +:+ ": "))
            _ _ _ Hcall).
    destruct Hsent as [Hs|(req & data & Hs & Hd & Hb)]; [now left|].
    right. exists req, data. auto.
Qed.

(** C7. The patch sequence of a create is the Title operation followed
    by one operation per non-empty optional input, and that of an update
    is one operation per non-empty input: the lengths are the counts of
    non-empty optional inputs, plus one for the title of a create; no
    operation carries an empty optional input; and these sequences are
    what the two commands send. *)
Theorem patch_sequence_length
    (title desc assignedTo areaPath iterationPath state : string)
    (cmd : Command) (args0 : string) (w : World) :
  let created := createFields title desc assignedTo areaPath iterationPath in
  let updated := updateFields title state assignedTo in
  (length created = 1 + spec.nonEmptyCount [desc; assignedTo; areaPath; iterationPath]
   /\ hd_error created = Some {| Op := "add"; Path := "/fields/System.Title"; Value := title |}
   /\ tl created
      = (spec.optionalOp "add" "/fields/System.Description" desc
         ++ spec.optionalOp "add" "/fields/System.AssignedTo" assignedTo
         ++ spec.optionalOp "add" "/fields/System.AreaPath" areaPath
         ++ spec.optionalOp "add" "/fields/System.IterationPath" iterationPath)%list
   /\ Forall (fun f => Value f <> "") (tl created))
  /\ (length updated = spec.nonEmptyCount [title; state; assignedTo]
      /\ updated
         = (spec.optionalOp "replace" "/fields/System.Title" title
            ++ spec.optionalOp "replace" "/fields/System.State" state
            ++ spec.optionalOp "replace" "/fields/System.AssignedTo" assignedTo)%list
      /\ Forall (fun f => Value f <> "") updated)
  /\ (let sent := createFields (GetString cmd "title") (GetString cmd "description")
                    (GetString cmd "assigned-to") (GetString cmd "area-path")
                    (GetString cmd "iteration-path") in
      let w' := snd (runWorkitemCreate env cmd w) in
      calls w' = calls w
      \/ exists req data,
           calls w' = (calls w ++ [req])%list
           /\ GetString cmd "title" <> ""
           /\ json_Marshal (PatchBody sent) = inr data
           /\ RequestBody req = Some data)
  /\ (let sent := updateFields (GetString cmd "title") (GetString cmd "state")
                    (GetString cmd "assigned-to") in
      let w' := snd (runWorkitemUpdate env cmd args0 w) in
      calls w' = calls w
      \/ exists req data,
           calls w' = (calls w ++ [req])%list
           /\ sent <> []
           /\ json_Marshal (PatchBody sent) = inr data
           /\ RequestBody req = Some data).
Proof.
  intros created updated. subst created updated.
  rewrite createFields_ops, updateFields_ops.
  split; [|split; [|split]].
  - cbn [hd_error tl length]. repeat split.
    + rewrite !length_app, !optionalOp_length. simpl.
      destruct (desc =? ""), (assignedTo =? ""), (areaPath =? ""), (iterationPath =? "");
        reflexivity.
    + repeat apply Forall_app_2; apply optionalOp_value.
  - repeat split.
    + rewrite !length_app, !optionalOp_length. simpl.
      destruct (title =? ""), (state =? ""), (assignedTo =? ""); reflexivity.
    + repeat apply Forall_app_2; apply optionalOp_value.
  - apply runWorkitemCreate_calls.
  - apply runWorkitemUpdate_calls.
Qed.

(** C6, as amended. An update whose three optional inputs are all empty
    makes no network call and returns an error; once the identifier, the
    client and the project are resolved, which the handler does first,
    that error is the one saying that there are no fields to update. *)
Theorem runWorkitemUpdate_nothing_to_update (cmd : Command) (args0 : string) (w : World) :
  GetString cmd "title" = "" ->
  GetString cmd "state" = "" ->
  GetString cmd "assigned-to" = "" ->
  let (r, w') := runWorkitemUpdate env cmd args0 w in
  w' = w
  /\ calls w' = calls w
  /\ (exists err, r = Err err)
  /\ (forall id client project,
        gostrings.Atoi args0 = Some id ->
        newAPIClient env w = (Ok client, w) ->
        resolveProject env cmd w = (Ok project, w) ->
        r = Err (Errorf "no fields to update (use --title, --state, or --assigned-to)")).
Proof.
  intros Ht Hs Ha. unfold runWorkitemUpdate. rewrite Ht, Hs, Ha.
  destruct (gostrings.Atoi args0) as [id|].
  2:{ unfold fail. repeat split; eauto. intros; discriminate. }
  destruct (newAPIClient_pure w) as [[client|err] Hc]; step Hc.
  2:{ repeat split; eauto. intros id' c' p' _ Hc'. rewrite Hc in Hc'. discriminate. }
  destruct (resolveProject_pure cmd w) as [[project|err] Hp]; step Hp.
  2:{ repeat split; eauto. intros id' c' p' _ _ Hp'. rewrite Hp in Hp'. discriminate. }
  cbn. repeat split; eauto.
Qed.


Lemma roundTrip_stdout {T : Type} (c : Client) (method rawURL contentType : string)
    (body : option Payload) (finish : Response -> Result T) (w w' : World)
    (r : Result T) :
  spec.roundTrip c method rawURL contentType body finish w = (r, w') ->
  stdout w' = stdout w
  /\ (calls w' = calls w \/ exists req, calls w' = (calls w ++ [req])%list).
Proof.
  intros Heq.
  pose proof (roundTrip_world c method rawURL contentType body finish w) as Hw.
  rewrite Heq in Hw. simpl in Hw. tauto.
Qed.

Lemma voteURL_contains (c : Client) (project repoID : string) (id : Z)
    (reviewerID : string) :
  gostrings.Contains (spec.voteURL c project repoID id reviewerID) repoID
  /\ gostrings.Contains (spec.voteURL c project repoID id reviewerID) (gostrings.Itoa id)
  /\ gostrings.Contains (spec.voteURL c project repoID id reviewerID) reviewerID.
Proof.
  unfold spec.voteURL, ProjectURL, gostrings.Contains.
  set (orgBase := gostrings.TrimSuffix (BaseURL c) "/_apis").
  repeat split.
  - exists (orgBase +:+ "/" +:+ project +:+ "/_apis/" +:+ "git/repositories/"),
      ("/pullrequests/" +:+ gostrings.Itoa id +:+ "/reviewers/" +:+ reviewerID).
    now rewrite !append_assoc.
  - exists (orgBase +:+ "/" +:+ project +:+ "/_apis/" +:+ "git/repositories/"
            +:+ repoID +:+ "/pullrequests/"),
      ("/reviewers/" +:+ reviewerID).
    now rewrite !append_assoc.
  - exists (orgBase +:+ "/" +:+ project +:+ "/_apis/" +:+ "git/repositories/"
            +:+ repoID +:+ "/pullrequests/" +:+ gostrings.Itoa id +:+ "/reviewers/"), "".
    now rewrite append_nil_r, !append_assoc.
Qed.

(** The course of a vote, step by step: what each of the three calls
    sent and received, and how the command ends when one of them fails. *)
Lemma votePR_steps (cmd : Command) (args0 : string) (vote : Z) (label : string)
    (w : World) (id : Z) (client : Client) (project : string) :
  gostrings.Atoi args0 = Some id ->
  newAPIClient env w = (Ok client, w) ->
  resolveProject env cmd w = (Ok project, w) ->
  let (r, w') := votePR env cmd args0 vote label w in
  (forall e1 w1,
     GetPullRequest client project id w = (Err e1, w1) ->
     r = Err (Errorf_w ("fetching pull request " +:+ gostrings.Itoa id +:+ ": ") e1)
     /\ w' = w1 /\ stdout w' = stdout w
     /\ (calls w' = calls w \/ exists req1, calls w' = (calls w ++ [req1])%list))
  /\ (forall pr w1,
        GetPullRequest client project id w = (Ok pr, w1) ->
        let repoID := PRRepository_ID (PullRequest_Repository pr) in
        exists u1 resp1,
          url_Parse (spec.pullRequestURL client project id) = Ok u1
          /\ let req1 := spec.outgoing client "GET" "application/json" u1 None in
             calls w1 = (calls w ++ [req1])%list
             /\ transport (calls w) req1 = inr resp1
             /\ decodeOrClose resp1 (into decode_PullRequest) = Ok pr
             /\ (forall e2 w2,
                   GetConnectionData client w1 = (Err e2, w2) ->
                   r = Err (Errorf_w "getting authenticated user: " e2)
                   /\ w' = w2 /\ stdout w' = stdout w
                   /\ (calls w' = (calls w ++ [req1])%list
                       \/ exists req2, calls w' = (calls w ++ [req1; req2])%list))
             /\ (forall conn w2,
                   GetConnectionData client w1 = (Ok conn, w2) ->
                   let userID := IdentityRef_ID (ConnectionData_AuthenticatedUser conn) in
                   exists u2 resp2,
                     url_Parse (spec.connectionDataURL client) = Ok u2
                     /\ let req2 := spec.outgoing client "GET" "application/json" u2 None in
                        calls w2 = (calls w ++ [req1; req2])%list
                        /\ transport (calls w ++ [req1])%list req2 = inr resp2
                        /\ decodeOrClose resp2 (into decode_ConnectionData) = Ok conn
                        /\ (forall e3 w3,
                              VotePullRequest client project repoID id userID vote w2
                              = (Err e3, w3) ->
                              r = Err (Errorf_w ("voting on pull request "
                                                 +:+ gostrings.Itoa id +:+ ": ") e3)
                              /\ w' = w3 /\ stdout w' = stdout w
                              /\ (calls w' = (calls w ++ [req1; req2])%list
                                  \/ exists req3,
                                       calls w' = (calls w ++ [req1; req2; req3])%list))
                        /\ (forall w3,
                              VotePullRequest client project repoID id userID vote w2
                              = (Ok tt, w3) ->
                              exists u3 data resp3,
                                url_Parse (spec.voteURL client project repoID id userID) = Ok u3
                                /\ json_Marshal (VoteBody vote) = inr data
                                /\ let req3 := spec.outgoing client "PUT" "application/json"
                                                 u3 (Some data) in
                                   calls w' = (calls w ++ [req1; req2; req3])%list
                                   /\ transport (calls w ++ [req1; req2])%list req3 = inr resp3
                                   /\ (Response_StatusCode resp3 < 400)%Z
                                   /\ gostrings.Contains
                                        (spec.voteURL client project repoID id userID) repoID
                                   /\ gostrings.Contains
                                        (spec.voteURL client project repoID id userID)
                                        (gostrings.Itoa id)
                                   /\ gostrings.Contains
                                        (spec.voteURL client project repoID id userID) userID))).
Proof.
  intros Hid Hc Hp. unfold votePR. rewrite Hid. step Hc. step Hp.
  destruct (GetPullRequest client project id w) as [[pr|e1] w1] eqn:H1.
  2:{ step (orReturn_Err _ (Errorf_w ("fetching pull request " +:+ gostrings.Itoa id +:+ ": "))
             _ _ _ H1).
      rewrite GetPullRequest_roundTrip in H1. apply roundTrip_stdout in H1 as [Hout Hcalls].
      split; [|intros ? ? [=]].
      intros e1' w1' [= <- <-]. auto. }
  step (orReturn_Ok _ (Errorf_w ("fetching pull request " +:+ gostrings.Itoa id +:+ ": "))
          _ _ _ H1).
  pose proof H1 as H1'. rewrite GetPullRequest_roundTrip in H1'.
  apply roundTrip_stdout in H1' as [Hout1 _].
  rewrite GetPullRequest_roundTrip in H1.
  apply roundTrip_Ok in H1 as (data1 & u1 & resp1 & Hm1 & Hu1 & Ht1 & Hd1 & Hw1).
  injection Hm1 as <-.
  assert (Hcalls1 : calls w1 = (calls w ++ [spec.outgoing client "GET" "application/json" u1 None])%list)
    by (rewrite Hw1; reflexivity).
  set (req1 := spec.outgoing client "GET" "application/json" u1 None) in *.
  set (repoID := PRRepository_ID (PullRequest_Repository pr)).
  destruct (GetConnectionData client w1) as [[conn|e2] w2] eqn:H2.
  2:{ step (orReturn_Err _ (Errorf_w "getting authenticated user: ") _ _ _ H2).
      pose proof H2 as K2.
      rewrite GetConnectionData_roundTrip in H2.
      apply roundTrip_stdout in H2 as [Hout2 Hcalls2].
      split; [intros ? ? [=]|].
      intros pr' w1' [= <- <-]. exists u1, resp1.
      split; [assumption|]. cbv zeta. split; [assumption|].
      split; [assumption|]. split; [assumption|]. split.
      - intros e2' w2' Heq. rewrite K2 in Heq. injection Heq as <- <-.
        split; [reflexivity|]. split; [reflexivity|]. split; [congruence|].
        rewrite Hcalls1 in Hcalls2. destruct Hcalls2 as [->|[req2 ->]]; [now left|].
        right. exists req2. now rewrite <- app_assoc.
      - intros ? ? Heq. rewrite K2 in Heq. discriminate. }
  step (orReturn_Ok _ (Errorf_w "getting authenticated user: ") _ _ _ H2).
  pose proof H2 as K2. pose proof H2 as H2'.
  rewrite GetConnectionData_roundTrip in H2'.
  apply roundTrip_stdout in H2' as [Hout2 _].
  rewrite GetConnectionData_roundTrip in H2.
  apply roundTrip_Ok in H2 as (data2 & u2 & resp2 & Hm2 & Hu2 & Ht2 & Hd2 & Hw2).
  injection Hm2 as <-.
  set (req2 := spec.outgoing client "GET" "application/json" u2 None) in *.
  assert (Hcalls2 : calls w2 = (calls w ++ [req1; req2])%list).
  { rewrite Hw2. unfold spec.addCall. cbn [calls]. rewrite Hcalls1, <- app_assoc. reflexivity. }
  rewrite Hcalls1 in Ht2.
  set (userID := IdentityRef_ID (ConnectionData_AuthenticatedUser conn)).
  destruct (VotePullRequest client project repoID id userID vote w2) as [[[]|e3] w3] eqn:H3.
  2:{ step (orReturn_Err _ (Errorf_w ("voting on pull request " +:+ gostrings.Itoa id +:+ ": "))
             _ _ _ H3).
      pose proof H3 as K3.
      rewrite VotePullRequest_roundTrip in H3.
      apply roundTrip_stdout in H3 as [Hout3 Hcalls3].
      split; [intros ? ? [=]|].
      intros pr' w1' [= <- <-]. exists u1, resp1.
      split; [assumption|]. cbv zeta. split; [assumption|].
      split; [assumption|]. split; [assumption|].
      split; [intros ? ? Heq; rewrite K2 in Heq; discriminate|].
      intros conn' w2' Heq. rewrite K2 in Heq. injection Heq as <- <-.
      exists u2, resp2.
      split; [assumption|]. split; [assumption|].
      split; [assumption|]. split; [assumption|]. split.
      - intros e3' w3' Heq. fold repoID userID in Heq. rewrite K3 in Heq.
        injection Heq as <- <-.
        split; [reflexivity|]. split; [reflexivity|]. split; [congruence|].
        rewrite Hcalls2 in Hcalls3. destruct Hcalls3 as [->|[req3 ->]]; [now left|].
        right. exists req3. now rewrite <- app_assoc.
      - intros ? Heq. fold repoID userID in Heq. rewrite K3 in Heq. discriminate. }
  step (orReturn_Ok _ (Errorf_w ("voting on pull request " +:+ gostrings.Itoa id +:+ ": "))
          _ _ _ H3).
  pose proof H3 as K3.
  rewrite VotePullRequest_roundTrip in H3.
  apply roundTrip_Ok in H3 as (data3 & u3 & resp3 & Hm3 & Hu3 & Ht3 & Hd3 & Hw3).
  assert (Hcalls3 : calls w3
            = (calls w ++ [req1; req2; spec.outgoing client "PUT" "application/json" u3 data3])%list).
  { rewrite Hw3. unfold spec.addCall. cbn [calls]. rewrite Hcalls2, <- app_assoc. reflexivity. }
  rewrite Hcalls2 in Ht3.
  assert (Hout : forall m : M unit,
            (m = encodeToStdout (VoteOutput id vote label) \/ exists text, m = Printf text) ->
            calls (snd (m w3)) = calls w3).
  { intros m [->|[text ->]]; [apply encodeToStdout_calls|reflexivity]. }
  match goal with |- context [let (_, _) := ?m w3 in _] =>
    assert (Hm : calls (snd (m w3)) = calls w3)
      by (apply Hout; destruct (OutputFormat env =? "json"); [now left|];
          destruct (OutputFormat env =? "plain"); right; eauto);
    destruct (m w3) as [r w'] eqn:Hrun
  end.
  cbn [snd] in Hm.
  split; [intros ? ? [=]|].
  intros pr' w1' [= <- <-]. exists u1, resp1.
  split; [assumption|]. cbv zeta. split; [assumption|].
  split; [assumption|]. split; [assumption|].
  split; [intros ? ? Heq; rewrite K2 in Heq; discriminate|].
  intros conn' w2' Heq. rewrite K2 in Heq. injection Heq as <- <-.
  exists u2, resp2.
  split; [assumption|]. split; [assumption|].
  split; [assumption|]. split; [assumption|].
  split; [intros ? ? Heq; fold repoID userID in Heq; rewrite K3 in Heq; discriminate|].
  intros w3' Heq. fold repoID userID in Heq. rewrite K3 in Heq. injection Heq as <-.
  unfold marshalBody in Hm3.
  destruct (json_Marshal (VoteBody vote)) as [msg|data] eqn:Hdata; [discriminate|].
  injection Hm3 as <-.
  exists u3, data, resp3.
  split; [assumption|]. split; [reflexivity|].
  split; [now rewrite Hm, Hcalls3|]. split; [exact Ht3|]. split; [|apply voteURL_contains].
  unfold decodeOrClose in Hd3.
  destruct (Z.geb_spec (Response_StatusCode resp3) 400); [discriminate|assumption].
Qed.

(** C2. A vote on pull request [id] (an approval with vote 10, a
    rejection with vote -10) fetches the pull request, then the
    connection data, then sends the vote to the address made of the
    fetched repository id, [id] and the fetched user id: exactly these
    three requests, in this order, when all succeed.  When one of the
    three calls fails, the command returns that error under its context,
    in the world the failed call left: nothing is sent after it and
    nothing is printed. *)
Theorem votePR_three_calls (cmd : Command) (args0 : string) (vote : Z) (label : string)
    (w : World) (id : Z) (client : Client) (project : string) :
  gostrings.Atoi args0 = Some id ->
  newAPIClient env w = (Ok client, w) ->
  resolveProject env cmd w = (Ok project, w) ->
  let (r, w') := votePR env cmd args0 vote label w in
  (forall e1 w1,
     GetPullRequest client project id w = (Err e1, w1) ->
     r = Err (Errorf_w ("fetching pull request " +:+ gostrings.Itoa id +:+ ": ") e1)
     /\ w' = w1 /\ stdout w' = stdout w
     /\ (calls w' = calls w \/ exists req1, calls w' = (calls w ++ [req1])%list))
  /\ (forall pr w1 e2 w2,
        GetPullRequest client project id w = (Ok pr, w1) ->
        GetConnectionData client w1 = (Err e2, w2) ->
        r = Err (Errorf_w "getting authenticated user: " e2)
        /\ w' = w2 /\ stdout w' = stdout w
        /\ exists req1,
             calls w1 = (calls w ++ [req1])%list
             /\ (calls w' = calls w1 \/ exists req2, calls w' = (calls w1 ++ [req2])%list))
  /\ (forall pr w1 conn w2 e3 w3,
        GetPullRequest client project id w = (Ok pr, w1) ->
        GetConnectionData client w1 = (Ok conn, w2) ->
        VotePullRequest client project (PRRepository_ID (PullRequest_Repository pr)) id
          (IdentityRef_ID (ConnectionData_AuthenticatedUser conn)) vote w2 = (Err e3, w3) ->
        r = Err (Errorf_w ("voting on pull request " +:+ gostrings.Itoa id +:+ ": ") e3)
        /\ w' = w3 /\ stdout w' = stdout w
        /\ exists req1 req2,
             calls w2 = (calls w ++ [req1; req2])%list
             /\ (calls w' = calls w2 \/ exists req3, calls w' = (calls w2 ++ [req3])%list))
  /\ (forall pr w1 conn w2 w3,
        let repoID := PRRepository_ID (PullRequest_Repository pr) in
        let userID := IdentityRef_ID (ConnectionData_AuthenticatedUser conn) in
        GetPullRequest client project id w = (Ok pr, w1) ->
        GetConnectionData client w1 = (Ok conn, w2) ->
        VotePullRequest client project repoID id userID vote w2 = (Ok tt, w3) ->
        exists u1 u2 u3 data resp1 resp2 resp3,
          url_Parse (spec.pullRequestURL client project id) = Ok u1
          /\ url_Parse (spec.connectionDataURL client) = Ok u2
          /\ url_Parse (spec.voteURL client project repoID id userID) = Ok u3
          /\ json_Marshal (VoteBody vote) = inr data
          /\ let req1 := spec.outgoing client "GET" "application/json" u1 None in
             let req2 := spec.outgoing client "GET" "application/json" u2 None in
             let req3 := spec.outgoing client "PUT" "application/json" u3 (Some data) in
             calls w' = (calls w ++ [req1; req2; req3])%list
             /\ transport (calls w) req1 = inr resp1
             /\ decodeOrClose resp1 (into decode_PullRequest) = Ok pr
             /\ transport (calls w ++ [req1])%list req2 = inr resp2
             /\ decodeOrClose resp2 (into decode_ConnectionData) = Ok conn
             /\ transport (calls w ++ [req1; req2])%list req3 = inr resp3
             /\ (Response_StatusCode resp3 < 400)%Z
             /\ gostrings.Contains (spec.voteURL client project repoID id userID) repoID
             /\ gostrings.Contains (spec.voteURL client project repoID id userID)
                  (gostrings.Itoa id)
             /\ gostrings.Contains (spec.voteURL client project repoID id userID) userID).
Proof.
  intros Hid Hc Hp.
  pose proof (votePR_steps cmd args0 vote label w id client project Hid Hc Hp) as Hsteps.
  destruct (votePR env cmd args0 vote label w) as [r w'].
  destruct Hsteps as [Hfail1 Hok1].
  split; [exact Hfail1|]. split; [|split].
  - intros pr w1 e2 w2 H1 H2.
    destruct (Hok1 pr w1 H1) as (u1 & resp1 & _ & Hcalls1 & _ & _ & Hfail2 & _).
    destruct (Hfail2 e2 w2 H2) as (Hr & Hw & Hout & Hcalls).
    split; [exact Hr|]. split; [exact Hw|]. split; [exact Hout|].
    eexists. split; [exact Hcalls1|]. rewrite Hcalls1.
    destruct Hcalls as [Hc1|[req2 Hc2]]; [now left|].
    right. exists req2. now rewrite <- app_assoc.
  - intros pr w1 conn w2 e3 w3 H1 H2 H3.
    destruct (Hok1 pr w1 H1) as (u1 & resp1 & _ & Hcalls1 & _ & _ & _ & Hok2).
    destruct (Hok2 conn w2 H2) as (u2 & resp2 & _ & Hcalls2 & _ & _ & Hfail3 & _).
    destruct (Hfail3 e3 w3 H3) as (Hr & Hw & Hout & Hcalls).
    split; [exact Hr|]. split; [exact Hw|]. split; [exact Hout|].
    eexists _, _. split; [exact Hcalls2|]. rewrite Hcalls2.
    destruct Hcalls as [Hc2|[req3 Hc3]]; [now left|].
    right. exists req3. now rewrite <- app_assoc.
  - intros pr w1 conn w2 w3 repoID userID H1 H2 H3.
    destruct (Hok1 pr w1 H1) as (u1 & resp1 & Hu1 & _ & Ht1 & Hd1 & _ & Hok2).
    destruct (Hok2 conn w2 H2) as (u2 & resp2 & Hu2 & _ & Ht2 & Hd2 & _ & Hok3).
    destruct (Hok3 w3 H3)
      as (u3 & data & resp3 & Hu3 & Hdata & Hcalls & Ht3 & Hs3 & Hrepo & Hnum & Huser).
    exists u1, u2, u3, data, resp1, resp2, resp3. repeat split; assumption.
Qed.

End Commands.

(** ** The entity resolver *)

Section Resolver.
Context `{Runtime}.

Lemma findRepo_first (pre post : list Repository) (r : Repository) (repoName : string) :
  Forall (fun r' => strings_EqualFold (Repository_Name r') repoName = false) pre ->
  strings_EqualFold (Repository_Name r) repoName = true ->
  findRepo (pre ++ r :: post) repoName = Some (Repository_ID r).
Proof.
  intros Hpre Hr. induction Hpre as [|r' pre Hr' _ IH]; simpl.
  - now rewrite Hr.
  - now rewrite Hr'.
Qed.

Lemma findRepo_none (repos : list Repository) (repoName : string) :
  Forall (fun r => strings_EqualFold (Repository_Name r) repoName = false) repos ->
  findRepo repos repoName = None.
Proof.
  intros Hall. induction Hall as [|r repos Hr _ IH]; simpl; [reflexivity|].
  now rewrite Hr.
Qed.

(** Either some candidate is the first to match, or none matches. *)
Lemma findRepo_cases (repos : list Repository) (repoName : string) :
  (exists pre r post,
     repos = (pre ++ r :: post)%list
     /\ Forall (fun r' => strings_EqualFold (Repository_Name r') repoName = false) pre
     /\ strings_EqualFold (Repository_Name r) repoName = true)
  \/ Forall (fun r => strings_EqualFold (Repository_Name r) repoName = false) repos.
Proof.
  induction repos as [|r repos IH]; [right; constructor|].
  destruct (strings_EqualFold (Repository_Name r) repoName) eqn:Hr.
  - left. exists [], r, repos. auto.
  - destruct IH as [(pre & r' & post & -> & Hpre & Hr')|Hnone].
    + left. exists (r :: pre), r', post. auto.
    + right. now constructor.
Qed.

Lemma EqualFold_ToLower (s t : string) :
  golib.EqualFold s t = true <-> golib.ToLower s = golib.ToLower t.
Proof.
  revert t; induction s as [|a s IH]; intros [|b t]; cbn [golib.EqualFold golib.ToLower];
    try (split; [reflexivity | reflexivity]); try (split; discriminate).
  rewrite andb_true_iff, Ascii.eqb_eq, IH. split.
  - now intros [-> ->].
  - intros [= -> ->]. now split.
Qed.

Lemma verbatim_quoteBytes (s : string) :
  golib.verbatim s = true -> golib.quoteBytes s = s.
Proof.
  induction s as [|c s IH]; [reflexivity|].
  cbn [golib.verbatim golib.quoteBytes]. cbv zeta.
  intros Hv. apply andb_true_iff in Hv as [Hc Hs].
  apply andb_true_iff in Hc as [Hc Hb]. apply andb_true_iff in Hc as [Hc Hq].
  rewrite (IH Hs). unfold golib.quoteByte. cbv zeta.
  apply negb_true_iff in Hq, Hb. now rewrite Hq, Hb, Hc.
Qed.

Lemma verbatim_isASCII (s : string) : golib.verbatim s = true -> golib.isASCII s = true.
Proof.
  induction s as [|c s IH]; [reflexivity|].
  cbn [golib.verbatim golib.isASCII]. cbv zeta.
  intros Hv. apply andb_true_iff in Hv as [Hc Hs].
  apply andb_true_iff in Hc as [Hc _]. apply andb_true_iff in Hc as [Hc _].
  apply andb_true_iff in Hc as [_ Hc]. apply N.leb_le in Hc.
  rewrite (IH Hs), andb_true_r. apply N.ltb_lt. lia.
Qed.

Lemma verbatim_Quote (s : string) :
  golib.verbatim s = true -> golib.Quote s = golib.dquote +:+ s +:+ golib.dquote.
Proof. intros Hv. unfold golib.Quote. now rewrite verbatim_quoteBytes. Qed.

Lemma Contains_trans (s t u : string) :
  gostrings.Contains s t -> gostrings.Contains t u -> gostrings.Contains s u.
Proof.
  intros (p1 & q1 & ->) (p2 & q2 & ->).
  exists (p1 +:+ p2), (q2 +:+ q1). now rewrite !append_assoc.
Qed.

(** C8. Given the candidates the listing call returned, either one of
    them is the first for which [strings.EqualFold] holds of its name
    and the wanted name, and the resolver returns its id, or none is,
    and the resolver returns an error whose message shows the wanted
    name and the project as [%q] quotes them.  With the two library
    functions being Go's on ASCII text: for ASCII names [EqualFold]
    holds exactly when the whole names are equal up to the case of
    their letters, and a name and a project of printable characters
    without double quote and backslash stand in the message as they
    are, between double quotes. *)
Theorem resolveRepoID_first_match (client : Client) (project repoName : string)
    (repos : list Repository) (w w1 : World) :
  golib.lawful ->
  ListRepositories client project w = (Ok repos, w1) ->
  ((exists pre r post,
      repos = (pre ++ r :: post)%list
      /\ Forall (fun r' => strings_EqualFold (Repository_Name r') repoName = false) pre
      /\ strings_EqualFold (Repository_Name r) repoName = true)
   \/ Forall (fun r => strings_EqualFold (Repository_Name r) repoName = false) repos)
  /\ (forall pre r post,
        repos = (pre ++ r :: post)%list ->
        Forall (fun r' => strings_EqualFold (Repository_Name r') repoName = false) pre ->
        strings_EqualFold (Repository_Name r) repoName = true ->
        resolveRepoID client project repoName w = (Ok (Repository_ID r), w1))
  /\ (Forall (fun r => strings_EqualFold (Repository_Name r) repoName = false) repos ->
      exists msg,
        resolveRepoID client project repoName w = (Err (errorString msg), w1)
        /\ msg = "repository " +:+ strconv_Quote repoName
                 +:+ " not found in project " +:+ strconv_Quote project
        /\ (golib.isASCII repoName = true -> golib.isASCII project = true ->
            msg = "repository " +:+ golib.Quote repoName
                  +:+ " not found in project " +:+ golib.Quote project)
        /\ (golib.verbatim repoName = true -> golib.verbatim project = true ->
            msg = "repository " +:+ golib.dquote +:+ repoName +:+ golib.dquote
                  +:+ " not found in project " +:+ golib.dquote +:+ project +:+ golib.dquote
            /\ gostrings.Contains msg repoName
            /\ gostrings.Contains msg project))
  /\ (golib.isASCII repoName = true ->
      forall r, In r repos -> golib.isASCII (Repository_Name r) = true ->
        (strings_EqualFold (Repository_Name r) repoName = true
         <-> golib.ToLower (Repository_Name r) = golib.ToLower repoName)).
Proof.
  intros [Hfold Hquote] Hlist. unfold resolveRepoID.
  step (orReturn_Ok _ (Errorf_w "listing repositories: ") _ _ _ Hlist).
  split; [apply findRepo_cases|]. split; [|split].
  - intros pre r post -> Hpre Hr. now rewrite findRepo_first.
  - intros Hnone. rewrite findRepo_none by assumption.
    eexists. split; [reflexivity|]. split; [reflexivity|]. split.
    + intros Hn Hp. now rewrite (Hquote _ Hn), (Hquote _ Hp).
    + intros Hn Hp.
      rewrite (Hquote _ (verbatim_isASCII _ Hn)), (Hquote _ (verbatim_isASCII _ Hp)).
      rewrite (verbatim_Quote _ Hn), (verbatim_Quote _ Hp), !append_assoc.
      split; [reflexivity|]. split.
      * exists ("repository " +:+ golib.dquote),
          (golib.dquote +:+ " not found in project " +:+ golib.dquote +:+ project
           +:+ golib.dquote).
        now rewrite !append_assoc.
      * exists ("repository " +:+ golib.dquote +:+ repoName +:+ golib.dquote
                +:+ " not found in project " +:+ golib.dquote), golib.dquote.
        now rewrite !append_assoc.
  - intros Hn r _ Hr. rewrite (Hfold _ _ Hr Hn). apply EqualFold_ToLower.
Qed.

End Resolver.

(** ** The scenarios of the design document, on the stub runtime *)

Section Scenarios.
#[local] Existing Instance stub.runtime.

Lemma votePR_three_calls_witness :
  let client := NewClient "org" "secret" in
  let w' := snd (runPRApprove stub.env (stub.command []) "42" emptyWorld) in
  gostrings.Atoi "42" = Some 42%Z
  /\ newAPIClient stub.env emptyWorld = (Ok client, emptyWorld)
  /\ resolveProject stub.env (stub.command []) emptyWorld = (Ok "proj", emptyWorld)
  /\ exists req1 req2 req3,
       calls w' = [req1; req2; req3]
       /\ map Method [req1; req2; req3] = ["GET"; "GET"; "PUT"]
       /\ map (fun req => neturl.URLString (URL req)) [req1; req2; req3]
          = [ "https://dev.azure.com/org/proj/_apis/git/pullrequests/42?api-version=7.1";
              "https://dev.azure.com/org/_apis/connectionData?api-version=7.1";
              "https://dev.azure.com/org/proj/_apis/git/repositories/R1/pullrequests/42/reviewers/U9?api-version=7.1" ].
Proof.
  intros client w'. split; [reflexivity|]. split; [reflexivity|]. split; [reflexivity|].
  pose proof (votePR_three_calls stub.env (stub.command []) "42" 10 "Approved"
                emptyWorld 42 client "proj" eq_refl eq_refl eq_refl) as Hthm.
  subst w'. unfold runPRApprove.
  destruct (votePR stub.env (stub.command []) "42" 10 "Approved" emptyWorld) as [r w'].
  destruct Hthm as (_ & _ & _ & Hok).
  destruct (Hok _ _ _ _ _ eq_refl eq_refl eq_refl)
    as (u1 & u2 & u3 & data & resp1 & resp2 & resp3 & Hu1 & Hu2 & Hu3 & _ & Hcalls & _).
  injection Hu1 as <-. injection Hu2 as <-. injection Hu3 as <-.
  eexists _, _, _. split; [exact Hcalls|]. split; reflexivity.
Defined.

Lemma runWorkitemUpdate_nothing_to_update_witness :
  GetString (stub.command []) "title" = ""
  /\ GetString (stub.command []) "state" = ""
  /\ GetString (stub.command []) "assigned-to" = ""
  /\ runWorkitemUpdate stub.env (stub.command []) "7" emptyWorld
     = (Err (Errorf "no fields to update (use --title, --state, or --assigned-to)"),
        emptyWorld).
Proof.
  split; [reflexivity|]. split; [reflexivity|]. split; [reflexivity|].
  pose proof (runWorkitemUpdate_nothing_to_update stub.env (stub.command []) "7"
                emptyWorld eq_refl eq_refl eq_refl) as Hthm.
  destruct (runWorkitemUpdate stub.env (stub.command []) "7" emptyWorld) as [r w'].
  destruct Hthm as (-> & _ & _ & Hr).
  now rewrite (Hr 7%Z (NewClient "org" "secret") "proj" eq_refl eq_refl eq_refl).
Defined.

Lemma resolveRepoID_first_match_witness :
  let client := NewClient "org" "secret" in
  golib.lawful
  /\ (exists w1, ListRepositories client "proj" emptyWorld = (Ok stub.repositories, w1)
        /\ resolveRepoID client "proj" "ALPHA" emptyWorld = (Ok "1", w1))
  /\ (exists msg w1,
        resolveRepoID client "proj" "gamma" emptyWorld = (Err (errorString msg), w1)
        /\ msg = "repository " +:+ golib.dquote +:+ "gamma" +:+ golib.dquote
                 +:+ " not found in project " +:+ golib.dquote +:+ "proj" +:+ golib.dquote
        /\ gostrings.Contains msg "gamma" /\ gostrings.Contains msg "proj")
  /\ (strings_EqualFold "Alpha" "ALPHA" = true
      <-> golib.ToLower "Alpha" = golib.ToLower "ALPHA").
Proof.
  intros client.
  pose (w1 := snd (ListRepositories client "proj" emptyWorld)).
  assert (Hlist : ListRepositories client "proj" emptyWorld = (Ok stub.repositories, w1))
    by reflexivity.
  assert (lawful_stub : golib.lawful)
    by (split; [intros s t _ _; reflexivity | intros s _; reflexivity]).
  split; [exact lawful_stub|]. split; [|split].
  - exists w1. split; [exact Hlist|].
    apply (proj1 (proj2 (resolveRepoID_first_match client "proj" "ALPHA" stub.repositories
                           emptyWorld w1 lawful_stub Hlist))
             [] {| Repository_ID := "1"; Repository_Name := "Alpha"; Repository_URL := "" |}
             [ {| Repository_ID := "2"; Repository_Name := "beta"; Repository_URL := "" |} ]);
      [reflexivity | constructor | reflexivity].
  - destruct (proj1 (proj2 (proj2 (resolveRepoID_first_match client "proj" "gamma"
                                     stub.repositories emptyWorld w1 lawful_stub Hlist))))
      as (msg & Hres & _ & _ & Hverbatim).
    + repeat constructor.
    + destruct (Hverbatim eq_refl eq_refl) as (Hmsg & Hname & Hproject).
      exists msg, w1. split; [exact Hres|]. split; [exact Hmsg|]. split; assumption.
  - apply (proj2 (proj2 (proj2 (resolveRepoID_first_match client "proj" "ALPHA"
                                  stub.repositories emptyWorld w1 lawful_stub Hlist)))
             eq_refl
             {| Repository_ID := "1"; Repository_Name := "Alpha"; Repository_URL := "" |});
      [now left | reflexivity].
Defined.

End Scenarios.
(** ** The query string *)

Section QueryStrings.

Lemma QueryEscape_cons (c : ascii) (s : string) :
  neturl.QueryEscape (String c s) = spec.escapeByte c +:+ neturl.QueryEscape s.
Proof.
  unfold spec.escapeByte. simpl.
  destruct (Ascii.eqb c " "); [reflexivity|].
  destruct (neturl.shouldEscape c); reflexivity.
Qed.

Lemma escapeByte_clean (c : ascii) :
  gostrings.ContainsByte (spec.escapeByte c) "&" = false
  /\ gostrings.ContainsByte (spec.escapeByte c) ";" = false
  /\ gostrings.ContainsByte (spec.escapeByte c) "=" = false.
Proof. destruct c as [[] [] [] [] [] [] [] []]; vm_compute; auto. Qed.

Lemma QueryUnescape_escapeByte (c : ascii) (rest : string) :
  neturl.QueryUnescape (spec.escapeByte c +:+ rest)
  = option_map (String c) (neturl.QueryUnescape rest).
Proof. destruct c as [[] [] [] [] [] [] [] []]; reflexivity. Qed.

Lemma ContainsByte_append (s t : string) (c : ascii) :
  gostrings.ContainsByte (s +:+ t) c
  = gostrings.ContainsByte s c || gostrings.ContainsByte t c.
Proof.
  induction s as [|a s IH]; [reflexivity|].
  rewrite append_cons. simpl. now rewrite IH, orb_assoc.
Qed.

Lemma QueryEscape_clean (s : string) :
  gostrings.ContainsByte (neturl.QueryEscape s) "&" = false
  /\ gostrings.ContainsByte (neturl.QueryEscape s) ";" = false
  /\ gostrings.ContainsByte (neturl.QueryEscape s) "=" = false.
Proof.
  induction s as [|c s (IH1 & IH2 & IH3)]; [auto|].
  rewrite QueryEscape_cons, !ContainsByte_append, IH1, IH2, IH3.
  destruct (escapeByte_clean c) as (-> & -> & ->). auto.
Qed.

Lemma QueryUnescape_QueryEscape (s : string) :
  neturl.QueryUnescape (neturl.QueryEscape s) = Some s.
Proof.
  induction s as [|c s IH]; [reflexivity|].
  now rewrite QueryEscape_cons, QueryUnescape_escapeByte, IH.
Qed.

Lemma Cut_found (s t : string) (sep : ascii) :
  gostrings.ContainsByte s sep = false ->
  gostrings.Cut (s +:+ String sep t) sep = (s, t, true).
Proof.
  induction s as [|a s IH]; intros Hs.
  - simpl. now rewrite Ascii.eqb_refl.
  - simpl in Hs. apply orb_false_iff in Hs as [Ha Hs].
    rewrite append_cons. simpl. now rewrite Ha, IH.
Qed.

Lemma Split_cons (s t : string) (sep : ascii) :
  gostrings.ContainsByte s sep = false ->
  gostrings.Split (s +:+ String sep t) sep = s :: gostrings.Split t sep.
Proof.
  induction s as [|a s IH]; intros Hs.
  - simpl. now rewrite Ascii.eqb_refl.
  - simpl in Hs. apply orb_false_iff in Hs as [Ha Hs].
    rewrite append_cons. simpl. now rewrite Ha, IH.
Qed.

Lemma Split_single (s : string) (sep : ascii) :
  gostrings.ContainsByte s sep = false -> gostrings.Split s sep = [s].
Proof.
  induction s as [|a s IH]; intros Hs; [reflexivity|].
  simpl in Hs. apply orb_false_iff in Hs as [Ha Hs].
  simpl. now rewrite Ha, IH.
Qed.

Lemma Split_concat (sep : ascii) (l : list string) :
  l <> [] ->
  Forall (fun s => gostrings.ContainsByte s sep = false) l ->
  gostrings.Split (String.concat (String sep "") l) sep = l.
Proof.
  induction l as [|x [|y l] IH]; intros Hne Hall; [contradiction| |].
  - apply Split_single. now inversion Hall.
  - change (String.concat (String sep "") (x :: y :: l))
      with (x +:+ String sep (String.concat (String sep "") (y :: l))).
    inversion Hall as [|? ? Hx Hrest]; subst.
    rewrite Split_cons by assumption. f_equal. now apply IH.
Qed.


Lemma encodePair_clean (kv : string * string) :
  gostrings.ContainsByte (spec.encodePair kv) "&" = false
  /\ gostrings.ContainsByte (spec.encodePair kv) ";" = false
  /\ spec.encodePair kv <> "".
Proof.
  unfold spec.encodePair.
  destruct (QueryEscape_clean kv.1) as (Hk1 & Hk2 & _).
  destruct (QueryEscape_clean kv.2) as (Hv1 & Hv2 & _).
  rewrite !ContainsByte_append, Hk1, Hk2, Hv1, Hv2. repeat split.
  intros Hnil. apply (f_equal String.length) in Hnil.
  rewrite !length_append in Hnil. simpl in Hnil. lia.
Qed.

Lemma parsePair_encodePair (m : neturl.Values) (kv : string * string) :
  neturl.parsePair m (spec.encodePair kv) = spec.addValue m kv.
Proof.
  destruct (encodePair_clean kv) as (_ & Hsemi & Hne).
  unfold neturl.parsePair. rewrite Hsemi.
  apply String.eqb_neq in Hne. rewrite Hne.
  unfold spec.encodePair.
  change ("=" +:+ neturl.QueryEscape kv.2) with (String "=" (neturl.QueryEscape kv.2)).
  rewrite Cut_found by apply QueryEscape_clean.
  now rewrite !QueryUnescape_QueryEscape.
Qed.

Lemma ParseQuery_pairs (l : list (string * string)) :
  neturl.ParseQuery (String.concat "&" (map spec.encodePair l))
  = fold_left spec.addValue l ∅.
Proof.
  unfold neturl.ParseQuery. destruct l as [|kv l]; [reflexivity|].
  rewrite Split_concat.
  - generalize (∅ : neturl.Values). generalize (kv :: l). clear.
    intros l. induction l as [|kv l IH]; intros m; [reflexivity|].
    simpl. now rewrite parsePair_encodePair, IH.
  - discriminate.
  - apply List.Forall_forall. intros p [kv' [<- _]]%in_map_iff. apply encodePair_clean.
Qed.

(** The values of one key arrive in order. *)
Lemma addValue_values (k : string) (vs : list string) (m : neturl.Values) :
  vs <> [] ->
  fold_left spec.addValue (map (pair k) vs) m
  = <[k := (default [] (m !! k) ++ vs)%list]> m.
Proof.
  revert m. induction vs as [|a [|b vs] IH]; intros m Hne; [contradiction|reflexivity|].
  change (map (pair k) (a :: b :: vs)) with ((k, a) :: map (pair k) (b :: vs)).
  cbn [fold_left]. rewrite IH by discriminate.
  unfold spec.addValue, gostrings.append. cbn [fst snd].
  rewrite lookup_insert_eq, insert_insert_eq. cbn [default]. unfold id.
  now rewrite <- app_assoc.
Qed.

Lemma addValue_keys (v : neturl.Values) (keys : list string) (m : neturl.Values) :
  let entries := map (fun k => (k, default [] (v !! k))) keys in
  NoDup keys ->
  Forall (fun k => default [] (v !! k) <> [] /\ m !! k = None) keys ->
  fold_left spec.addValue (spec.pairs v keys) m = list_to_map entries ∪ m.
Proof.
  intros entries. subst entries. revert m.
  induction keys as [|k keys IH]; intros m Hnodup Hall.
  - simpl. now rewrite (left_id_L ∅ (∪)).
  - apply NoDup_cons in Hnodup as [Hk Hnodup].
    apply Forall_cons in Hall as [[Hvs Hm] Hall].
    unfold spec.pairs. cbn [flat_map]. rewrite fold_left_app.
    rewrite addValue_values by assumption. rewrite Hm. cbn [default app].
    fold (spec.pairs v keys). rewrite IH; [|assumption|].
    + cbn [map list_to_map foldr fst snd]. rewrite <- insert_union_l.
      symmetry. apply insert_union_r.
      apply not_elem_of_list_to_map_1.
      intros Hin. apply Hk. revert Hin. clear.
      induction keys as [|k' keys IH]; [easy|].
      cbn. rewrite !elem_of_cons. intuition.
    + apply Forall_forall. intros k' Hin.
      rewrite Forall_forall in Hall. destruct (Hall k' Hin) as [Hvs' Hm'].
      split; [assumption|].
      rewrite lookup_insert_ne; [assumption|].
      intros <-. contradiction.
Qed.

(** Parsing the pairs of a populated query, its keys in any order,
    gives the query back. *)
Lemma addValue_pairs (v : neturl.Values) (keys : list string) :
  spec.populated v ->
  keys ≡ₚ (map_to_list v).*1 ->
  fold_left spec.addValue (spec.pairs v keys) ∅ = v.
Proof.
  intros Hpop Hperm.
  assert (Hnodup : NoDup keys)
    by (rewrite Hperm; apply NoDup_fst_map_to_list).
  rewrite addValue_keys; [|assumption|].
  - rewrite (right_id_L ∅ (∪)).
    transitivity (list_to_map (map_to_list v) : neturl.Values);
      [|apply list_to_map_to_list].
    apply list_to_map_proper.
    + change (map ?f ?l) with (f <$> l). rewrite <- list_fmap_compose.
      now rewrite list_fmap_id.
    + change (map ?f ?l) with (f <$> l). rewrite Hperm.
      rewrite <- list_fmap_compose.
      rewrite (list_fmap_ext _ id); [now rewrite list_fmap_id|].
      intros i [k vs] Hi%list_elem_of_lookup_2%elem_of_map_to_list.
      cbn. now rewrite Hi.
  - apply Forall_forall. intros k Hk. split; [|apply lookup_empty].
    rewrite Hperm in Hk. apply list_elem_of_fmap in Hk as ([k' vs] & -> & Hin).
    apply elem_of_map_to_list in Hin. cbn. rewrite Hin. cbn.
    exact (Hpop _ _ Hin).
Qed.


Lemma write_values (k : string) (vs : list string) (buf : string) :
  fold_left (fun buf v => spec.write buf (spec.encodePair (k, v))) vs buf
  = fold_left spec.write (map spec.encodePair (map (pair k) vs)) buf.
Proof. revert buf. induction vs as [|a vs IH]; intros buf; [reflexivity|]. apply IH. Qed.

Lemma write_keys (v : neturl.Values) (keys : list string) (buf : string) :
  fold_left
    (fun buf k =>
       fold_left (fun buf val => spec.write buf (spec.encodePair (k, val)))
         (default [] (v !! k)) buf)
    keys buf
  = fold_left spec.write (map spec.encodePair (spec.pairs v keys)) buf.
Proof.
  revert buf. induction keys as [|k keys IH]; intros buf; [reflexivity|].
  unfold spec.pairs. cbn [flat_map fold_left].
  rewrite map_app, fold_left_app, <- write_values. apply IH.
Qed.

Lemma concat_merge (sep x y : string) (l : list string) :
  String.concat sep ((x +:+ sep +:+ y) :: l) = String.concat sep (x :: y :: l).
Proof.
  destruct l as [|z l]; [reflexivity|].
  change (String.concat sep ((x +:+ sep +:+ y) :: z :: l))
    with ((x +:+ sep +:+ y) +:+ sep +:+ String.concat sep (z :: l)).
  change (String.concat sep (x :: y :: z :: l))
    with (x +:+ sep +:+ y +:+ sep +:+ String.concat sep (z :: l)).
  now rewrite !append_assoc.
Qed.

Lemma write_concat_from (l : list string) (buf : string) :
  buf <> "" ->
  fold_left spec.write l buf = String.concat "&" (buf :: l).
Proof.
  revert buf. induction l as [|p l IH]; intros buf Hbuf; [reflexivity|].
  cbn [fold_left]. unfold spec.write at 2.
  destruct buf as [|a buf]; [contradiction|]. cbn [String.length Nat.ltb Nat.leb].
  rewrite IH.
  - rewrite append_assoc. apply concat_merge.
  - rewrite !append_cons. discriminate.
Qed.

Lemma write_concat (l : list string) :
  Forall (fun p => p <> "") l ->
  fold_left spec.write l "" = String.concat "&" l.
Proof.
  destruct l as [|p l]; [reflexivity|]. intros Hall.
  cbn [fold_left]. change (spec.write "" p) with p.
  apply write_concat_from. now inversion Hall.
Qed.

(** What [Encode] writes: the pairs, key by key in sorted order,
    joined by [&]. *)
Lemma Encode_pairs (v : neturl.Values) :
  neturl.Encode v
  = String.concat "&"
      (map spec.encodePair
         (spec.pairs v (merge_sort String.le (map fst (map_to_list v))))).
Proof.
  unfold neturl.Encode. destruct (decide (size v = 0)) as [Hsize|_].
  - apply map_size_empty_inv in Hsize. subst v. now rewrite map_to_list_empty.
  - rewrite <- write_concat.
    + apply (write_keys v).
    + apply List.Forall_forall. intros p [kv [<- _]]%in_map_iff.
      apply encodePair_clean.
Qed.

(** Parsing what [Encode] wrote gives the query back. *)
Lemma ParseQuery_Encode (v : neturl.Values) :
  spec.populated v -> neturl.ParseQuery (neturl.Encode v) = v.
Proof.
  intros Hpop. rewrite Encode_pairs, ParseQuery_pairs.
  apply addValue_pairs; [assumption|].
  change (map fst (map_to_list v)) with ((map_to_list v).*1).
  apply merge_sort_Permutation.
Qed.

Lemma parsePair_populated (m : neturl.Values) (key : string) :
  spec.populated m -> spec.populated (neturl.parsePair m key).
Proof.
  intros Hm. unfold neturl.parsePair.
  destruct (gostrings.ContainsByte key ";"); [assumption|].
  destruct (key =? ""); [assumption|].
  destruct (gostrings.Cut key "=") as [[k val] found].
  destruct (neturl.QueryUnescape k) as [k'|]; [|assumption].
  destruct (neturl.QueryUnescape val) as [val'|]; [|assumption].
  apply map_Forall_insert_2; [|assumption].
  unfold gostrings.append. now destruct (default [] (m !! k')).
Qed.

Lemma ParseQuery_populated (query : string) : spec.populated (neturl.ParseQuery query).
Proof.
  unfold neturl.ParseQuery.
  assert (Hempty : spec.populated ∅) by apply map_Forall_empty.
  revert Hempty. generalize (∅ : neturl.Values).
  induction (gostrings.Split query "&") as [|key keys IH]; intros m Hm; [assumption|].
  apply IH. now apply parsePair_populated.
Qed.

Lemma Set_populated (v : neturl.Values) (key value : string) :
  spec.populated v -> spec.populated (neturl.Set_ v key value).
Proof. intros Hv. apply map_Forall_insert_2; [discriminate|assumption]. Qed.

End QueryStrings.

(** ** The transport: the query of the request *)

Section ApiVersion.
Context `{Runtime}.

Lemma bind_ret {A : Type} (m : M A) (w : World) : bind m ret w = m w.
Proof. unfold bind, ret. now destruct (m w) as [[a|err] w']. Qed.

Lemma doRaw_as_roundTrip (c : Client) (method rawURL contentType : string)
    (body : option Payload) (w : World) :
  doRaw c method rawURL contentType body w
  = spec.roundTrip c method rawURL contentType body Ok w.
Proof. rewrite <- bind_ret. now apply doRaw_roundTrip. Qed.

Lemma do_as_roundTrip (c : Client) (method path : string)
    (body : option Payload) (w : World) :
  do c method path body w
  = spec.roundTrip c method (BaseURL c +:+ "/" +:+ path) "application/json" body Ok w.
Proof. rewrite <- bind_ret. now apply do_roundTrip. Qed.

Lemma QueryByWiql_roundTrip (c : Client) (project wiql : string) (top : Z) (w : World) :
  QueryByWiql c project wiql top w
  = spec.roundTrip c "POST"
      (ProjectURL c project ("wit/wiql?$top=" +:+ gostrings.Itoa top))
      "application/json" (Some (WiqlBody wiql))
      (fun resp => decodeOrClose resp (into decode_WiqlResult)) w.
Proof.
  unfold QueryByWiql. apply doRaw_roundTrip. intros resp w'.
  unfold bind, lift, ret. now destruct (decodeOrClose resp _).
Qed.

(** The query the server reads off the request is the target's own
    query with [api-version] set. *)
Lemma outgoing_Query (c : Client) (method contentType : string) (u : neturl.URL)
    (data : option string) :
  neturl.Query (URL (spec.outgoing c method contentType u data))
  = <["api-version" := [APIVersion c]]> (neturl.Query u).
Proof.
  unfold neturl.Query at 1. cbn [spec.outgoing URL neturl.RawQuery].
  apply ParseQuery_Encode, Set_populated, ParseQuery_populated.
Qed.

Lemma roundTrip_api_version {T : Type} (c : Client)
    (method rawURL contentType : string) (body : option Payload)
    (finish : Response -> Result T) (w : World) :
  let w' := snd (spec.roundTrip c method rawURL contentType body finish w) in
  calls w' = calls w
  \/ exists u req,
       url_Parse rawURL = Ok u
       /\ calls w' = (calls w ++ [req])%list
       /\ neturl.Base (URL req) = neturl.Base u
       /\ neturl.Fragment (URL req) = neturl.Fragment u
       /\ neturl.RawQuery (URL req)
          = neturl.Encode (neturl.Set_ (neturl.Query u) "api-version" (APIVersion c))
       /\ neturl.Query (URL req) !! "api-version" = Some [APIVersion c]
       /\ forall k, k <> "api-version" ->
                    neturl.Query (URL req) !! k = neturl.Query u !! k.
Proof.
  unfold spec.roundTrip.
  destruct (marshalBody body) as [data|err]; [|now left].
  destruct (url_Parse rawURL) as [u|err]; [|now left].
  right. exists u, (spec.outgoing c method contentType u data).
  split; [reflexivity|]. split.
  { now destruct (transport (calls w) _). }
  split; [reflexivity|]. split; [reflexivity|]. split; [reflexivity|].
  rewrite outgoing_Query. split.
  - apply lookup_insert_eq.
  - intros k Hk. now apply lookup_insert_ne.
Qed.

(** C5. Every request the transport executes, by [doRaw] or by [do],
    has [api-version] set to the client's [APIVersion] in its query, and
    every other parameter of the target's query as it was; so it is for
    the WIQL query, whose target carries [$top]. *)
Theorem transport_api_version (c : Client) (method target contentType path : string)
    (body : option Payload) (project wiql : string) (top : Z) (w : World) :
  let executed (w' : World) (rawURL : string) : Prop :=
    calls w' = calls w
    \/ exists u req,
         url_Parse rawURL = Ok u
         /\ calls w' = (calls w ++ [req])%list
         /\ neturl.Base (URL req) = neturl.Base u
         /\ neturl.Fragment (URL req) = neturl.Fragment u
         /\ neturl.RawQuery (URL req)
            = neturl.Encode (neturl.Set_ (neturl.Query u) "api-version" (APIVersion c))
         /\ neturl.Query (URL req) !! "api-version" = Some [APIVersion c]
         /\ forall k, k <> "api-version" ->
                      neturl.Query (URL req) !! k = neturl.Query u !! k in
  executed (snd (doRaw c method target contentType body w)) target
  /\ executed (snd (do c method path body w)) (BaseURL c +:+ "/" +:+ path)
  /\ executed (snd (QueryByWiql c project wiql top w))
       (ProjectURL c project ("wit/wiql?$top=" +:+ gostrings.Itoa top)).
Proof.
  intros executed. subst executed. cbv beta.
  rewrite doRaw_as_roundTrip, do_as_roundTrip, QueryByWiql_roundTrip.
  split; [|split]; apply roundTrip_api_version.
Qed.

End ApiVersion.

Section QueryScenario.
#[local] Existing Instance stub.runtime.

Lemma transport_api_version_witness :
  let c := NewClient "org" "secret" in
  let w' := snd (QueryByWiql c "proj" "SELECT [System.Id] FROM WorkItems" 20 emptyWorld) in
  exists req,
    calls w' = [req]
    /\ neturl.Query (URL req) !! "api-version" = Some ["7.1"]
    /\ neturl.Query (URL req) !! "$top" = Some ["20"]
    /\ neturl.URLString (URL req)
       = "https://dev.azure.com/org/proj/_apis/wit/wiql?%24top=20&api-version=7.1".
Proof.
  intros c w'.
  destruct (transport_api_version c "POST" "" "" "" None "proj"
              "SELECT [System.Id] FROM WorkItems" 20 emptyWorld)
    as (_ & _ & [Hnone|(u & req & Hu & Hcalls & Hbase & Hfrag & Hraw & Hversion & Hkeep)]).
  - discriminate Hnone.
  - exists req. split; [exact Hcalls|]. split; [exact Hversion|].
    injection Hu as <-. split.
    + rewrite Hkeep by discriminate. reflexivity.
    + unfold neturl.URLString. rewrite Hbase, Hfrag, Hraw. reflexivity.
Defined.

End QueryScenario.

(** ** Worked examples *)

Example Atoi_examples :
  gostrings.Atoi "42" = Some 42%Z /\ gostrings.Atoi "-7" = Some (-7)%Z
  /\ gostrings.Atoi "abc" = None /\ gostrings.Atoi "" = None
  /\ gostrings.Atoi "9223372036854775808" = None.
Proof. repeat split; reflexivity. Qed.

Example buildWIQL_bugs_of_mine :
  buildWIQL "P" "Bug" "" "@me"
  = "SELECT [System.Id], [System.Title], [System.State], [System.WorkItemType], [System.AssignedTo] FROM WorkItems WHERE [System.TeamProject] = 'P' AND [System.WorkItemType] = 'Bug' AND [System.AssignedTo] = @me ORDER BY [System.ChangedDate] DESC".
Proof. reflexivity. Qed.

Example buildWIQL_scope_only :
  buildWIQL "O'Neill" "" "" ""
  = "SELECT [System.Id], [System.Title], [System.State], [System.WorkItemType], [System.AssignedTo] FROM WorkItems WHERE [System.TeamProject] = 'O''Neill' ORDER BY [System.ChangedDate] DESC".
Proof. reflexivity. Qed.

Example createFields_title_only :
  createFields "Fix crash" "" "" "" ""
  = [ {| Op := "add"; Path := "/fields/System.Title"; Value := "Fix crash" |} ].
Proof. reflexivity. Qed.

Example updateFields_state_only :
  updateFields "" "Active" ""
  = [ {| Op := "replace"; Path := "/fields/System.State"; Value := "Active" |} ].
Proof. reflexivity. Qed.

Example Encode_sorted_and_escaped :
  neturl.Encode (neturl.Set_ (neturl.ParseQuery "$top=20&a=b%20c") "api-version" "7.1")
  = "%24top=20&a=b+c&api-version=7.1".
Proof. vm_compute. reflexivity. Qed.

Example ensureRef_main :
  ensureRef "main" = "refs/heads/main" /\ ensureRef "refs/tags/v1" = "refs/tags/v1"
  /\ shortBranch "refs/heads/main" = "main".
Proof. repeat split; reflexivity. Qed.

(** A vote whose identity lookup is refused: two calls, the typed error
    under its context, nothing printed. *)
Example votePR_identity_refused :
  let run := @runPRReject stub.runtimeDenied stub.env (stub.command []) "42" emptyWorld in
  fst run
  = Err (Errorf_w "getting authenticated user: "
           (apiError {| StatusCode := 404; Body := "not found" |}))
  /\ error_Error (Errorf_w "getting authenticated user: "
                    (apiError {| StatusCode := 404; Body := "not found" |}))
     = "getting authenticated user: Azure DevOps API error (HTTP 404): not found"
  /\ map (fun req => (Method req, neturl.URLString (URL req))) (calls (snd run))
     = [ ("GET", "https://dev.azure.com/org/proj/_apis/git/pullrequests/42?api-version=7.1");
         ("GET", "https://dev.azure.com/org/_apis/connectionData?api-version=7.1") ]
  /\ stdout (snd run) = "".
Proof. vm_compute. repeat split; reflexivity. Qed.

(** With all three optional inputs empty, an update whose identifier is
    not a number, and one without a configured organization, end before
    any call as well, but with the error of the check that failed first,
    not with the one about fields. *)
Lemma runWorkitemUpdate_other_error_first :
  (GetString (stub.command []) "title" = ""
   /\ GetString (stub.command []) "state" = ""
   /\ GetString (stub.command []) "assigned-to" = "")
  /\ @runWorkitemUpdate stub.runtime stub.env (stub.command []) "abc" emptyWorld
     = (Err (Errorf "invalid work item ID: abc"), emptyWorld)
  /\ fst (@runWorkitemUpdate stub.runtime stub.env (stub.command []) "abc" emptyWorld)
     <> Err (Errorf "no fields to update (use --title, --state, or --assigned-to)")
  /\ @runWorkitemUpdate stub.runtime stub.unconfigured (stub.command []) "7" emptyWorld
     = (Err (Errorf "organization not configured (run 'ado config set organization <org>')"),
        emptyWorld)
  /\ fst (@runWorkitemUpdate stub.runtime stub.unconfigured (stub.command []) "7" emptyWorld)
     <> Err (Errorf "no fields to update (use --title, --state, or --assigned-to)").
Proof.
  split; [repeat split; reflexivity|].
  split; [reflexivity|]. split; [discriminate|].
  split; [reflexivity|]. discriminate.
Qed.

Lemma prefix_append (sub post : string) : String.prefix sub (sub +:+ post) = true.
Proof.
  induction sub as [|a sub IH]; [now destruct post|].
  rewrite append_cons. cbn [String.prefix].
  destruct (ascii_dec a a) as [_|Hne]; [exact IH | now contradiction Hne].
Qed.

Lemma Contains_Containsb (s sub : string) :
  gostrings.Contains s sub -> gostrings.Containsb s sub = true.
Proof.
  intros (pre & post & ->). induction pre as [|a pre IH].
  - rewrite append_nil_l. destruct (sub +:+ post) eqn:Heq.
    + cbn [gostrings.Containsb]. rewrite <- Heq, prefix_append. reflexivity.
    + cbn [gostrings.Containsb]. rewrite <- Heq, prefix_append. reflexivity.
  - rewrite append_cons. cbn [gostrings.Containsb]. rewrite IH. apply orb_true_r.
Qed.

(** A repository name with a double quote in it is not found among the
    repositories [Alpha] and [beta]; the message shows the name as [%q]
    quotes it, with a backslash before the quote, so the name itself
    does not occur in the message. *)
Lemma resolveRepoID_quote_in_name :
  @golib.lawful stub.runtime
  /\ fst (@resolveRepoID stub.runtime (NewClient "org" "secret") "proj"
            ("my" +:+ golib.dquote +:+ "repo") emptyWorld)
     = Err (errorString
              ("repository " +:+ golib.dquote +:+ "my" +:+ golib.backslash +:+ golib.dquote
               +:+ "repo" +:+ golib.dquote +:+ " not found in project "
               +:+ golib.dquote +:+ "proj" +:+ golib.dquote))
  /\ ~ gostrings.Contains
         ("repository " +:+ golib.dquote +:+ "my" +:+ golib.backslash +:+ golib.dquote
          +:+ "repo" +:+ golib.dquote +:+ " not found in project "
          +:+ golib.dquote +:+ "proj" +:+ golib.dquote)
         ("my" +:+ golib.dquote +:+ "repo").
Proof.
  split; [split; [intros s t _ _; reflexivity | intros s _; reflexivity]|].
  split; [reflexivity|].
  intros Hc. apply Contains_Containsb in Hc. vm_compute in Hc. discriminate.
Qed.

(** * Further properties of the code *)

(** ** Decimal numbers *)

Section Numbers.

Lemma parseDigits_acc (d : Decimal.uint) (acc : positive) :
  gostrings.parseDigits (NilEmpty.string_of_uint d) (Z.pos acc)
  = Some (Z.pos (Pos.of_uint_acc d acc)).
Proof.
  revert acc; induction d; intros acc; cbn [NilEmpty.string_of_uint gostrings.parseDigits Pos.of_uint_acc];
    [reflexivity | ..];
    (replace (gostrings.isDigit _) with true by reflexivity);
    cbv iota;
    match goal with
    | |- gostrings.parseDigits _ ?z = _ =>
        match goal with
        | |- _ = Some (Z.pos (Pos.of_uint_acc _ ?p)) =>
            replace z with (Z.pos p) by (vm_compute (Z.of_N (N_of_ascii _)); lia)
        end
    end; apply IHd.
Qed.

Lemma parseDigits_of_uint (d : Decimal.uint) :
  gostrings.parseDigits (NilEmpty.string_of_uint d) 0 = Some (Z.of_N (Pos.of_uint d)).
Proof.
  induction d; cbn [NilEmpty.string_of_uint gostrings.parseDigits Pos.of_uint];
    [reflexivity | ..];
    (replace (gostrings.isDigit _) with true by reflexivity);
    cbv iota.
  1: exact IHd.
  all: match goal with
       | |- gostrings.parseDigits _ ?z = Some (Z.of_N (N.pos (Pos.of_uint_acc _ ?p))) =>
           replace z with (Z.pos p) by (vm_compute; reflexivity)
       end; apply parseDigits_acc.
Qed.

Lemma string_of_to_uint (p : positive) :
  NilZero.string_of_uint (Pos.to_uint p) = NilEmpty.string_of_uint (Pos.to_uint p)
  /\ exists c s, NilEmpty.string_of_uint (Pos.to_uint p) = String c s
                 /\ gostrings.isDigit c = true.
Proof.
  pose proof (DecimalPos.Unsigned.to_uint_nonnil p) as Hn.
  destruct (Pos.to_uint p); [congruence | ..];
    (split; [reflexivity | eexists _, _; split; [reflexivity | reflexivity]]).
Qed.

Lemma Atoi_digits (c : ascii) (s : string) (n : Z) :
  gostrings.isDigit c = true ->
  gostrings.parseDigits (String c s) 0 = Some n ->
  gostrings.Atoi (String c s)
  = if ((- 2 ^ 63 <=? n) && (n <=? 2 ^ 63 - 1))%Z then Some n else None.
Proof.
  intros Hc Hp. unfold gostrings.Atoi.
  assert (Ascii.eqb c "+" = false) as ->.
  { destruct (Ascii.eqb_spec c "+"); [subst; discriminate | reflexivity]. }
  assert (Ascii.eqb c "-" = false) as ->.
  { destruct (Ascii.eqb_spec c "-"); [subst; discriminate | reflexivity]. }
  cbn [String.eqb]. now rewrite Hp.
Qed.

Lemma Atoi_Itoa (z : Z) :
  (- 2 ^ 63 <= z <= 2 ^ 63 - 1)%Z -> gostrings.Atoi (gostrings.Itoa z) = Some z.
Proof.
  intros Hz. unfold gostrings.Itoa. destruct z as [|p|p]; [reflexivity | |].
  - cbn [Z.to_int NilZero.string_of_int].
    destruct (string_of_to_uint p) as [-> (c & s & Hs & Hc)].
    pose proof (parseDigits_of_uint (Pos.to_uint p)) as Hp.
    rewrite DecimalPos.Unsigned.of_to in Hp. rewrite Hs in Hp |- *.
    rewrite (Atoi_digits c s _ Hc Hp).
    replace ((- 2 ^ 63 <=? Z.of_N (N.pos p)) && (Z.of_N (N.pos p) <=? 2 ^ 63 - 1))%Z
      with true; [reflexivity|].
    symmetry; apply andb_true_iff; split; apply Z.leb_le; cbn [Z.of_N]; lia.
  - cbn [Z.to_int NilZero.string_of_int].
    destruct (string_of_to_uint p) as [-> (c & s & Hs & Hc)].
    pose proof (parseDigits_of_uint (Pos.to_uint p)) as Hp.
    rewrite DecimalPos.Unsigned.of_to in Hp. rewrite Hs in Hp |- *.
    unfold gostrings.Atoi.
    change (Ascii.eqb "-" "+") with false. change (Ascii.eqb "-" "-") with true.
    cbv iota. cbn [String.eqb]. rewrite Hp.
    replace ((- 2 ^ 63 <=? - Z.of_N (N.pos p)) && (- Z.of_N (N.pos p) <=? 2 ^ 63 - 1))%Z
      with true; [reflexivity|].
    symmetry; apply andb_true_iff; split; apply Z.leb_le; cbn [Z.of_N]; lia.
Qed.

Lemma Itoa_int_of_string (z : Z) :
  NilZero.int_of_string (gostrings.Itoa z) = Some (Z.to_int z).
Proof.
  unfold gostrings.Itoa. apply NilZero.isi.
  - destruct z; cbn; try discriminate.
    intros [= Hn]. now apply DecimalPos.Unsigned.to_uint_nonnil in Hn.
  - destruct z; cbn; try discriminate.
    intros [= Hn]. now apply DecimalPos.Unsigned.to_uint_nonnil in Hn.
Qed.

Lemma Itoa_inj (z z' : Z) : gostrings.Itoa z = gostrings.Itoa z' -> z = z'.
Proof.
  intros Heq. apply (f_equal NilZero.int_of_string) in Heq.
  rewrite !Itoa_int_of_string in Heq. injection Heq as Heq.
  now apply DecimalZ.to_int_inj.
Qed.

End Numbers.

(** ** Formatting helpers of the commands *)

Section Formatting.
Import apiplus cmdplus.

Lemma sliceTo_length (n : nat) (s : string) :
  (n <= String.length s)%nat -> String.length (gostrings.sliceTo n s) = n.
Proof.
  revert s; induction n as [|n IH]; intros [|a s] Hn; cbn in *; try lia.
  rewrite IH; lia.
Qed.

(** X1.  [truncate] returns [s] itself when it fits in [max] bytes;
    a longer [s] is cut to exactly [max] bytes, the first [max-3] of [s]
    followed by three dots, when [max] is at least 3, and the call
    panics when [max] is less: so for the widths the commands pass, 20
    and 50, it returns at most that many bytes. *)
Theorem truncate_width (s : string) (max : Z) :
  ((Z.of_nat (String.length s) <= max)%Z -> truncate s max = Some s)
  /\ ((max < Z.of_nat (String.length s))%Z -> (3 <= max)%Z ->
        exists t,
          truncate s max = Some t
          /\ t = gostrings.sliceTo (Z.to_nat (max - 3)) s +:+ "..."
          /\ Z.of_nat (String.length t) = max)
  /\ ((max < Z.of_nat (String.length s))%Z -> (max < 3)%Z -> truncate s max = None)
  /\ ((3 <= max)%Z -> (Z.of_nat (String.length (truncated s max)) <= max)%Z).
Proof.
  assert (Hcut : (max < Z.of_nat (String.length s))%Z -> (3 <= max)%Z ->
                 truncate s max = Some (gostrings.sliceTo (Z.to_nat (max - 3)) s +:+ "...")
                 /\ Z.of_nat (String.length
                      (gostrings.sliceTo (Z.to_nat (max - 3)) s +:+ "...")) = max).
  { intros Hlong Hmax. unfold truncate.
    destruct (Z.leb_spec (Z.of_nat (String.length s)) max); [lia|].
    destruct (Z.ltb_spec (max - 3) 0); [lia|]. split; [reflexivity|].
    rewrite length_append, sliceTo_length by lia. cbn [String.length]. lia. }
  repeat split.
  - intros Hfit. unfold truncate.
    now destruct (Z.leb_spec (Z.of_nat (String.length s)) max); [|lia].
  - intros Hlong Hmax. destruct (Hcut Hlong Hmax) as [Ht Hlen]. eauto.
  - intros Hlong Hmax. unfold truncate.
    destruct (Z.leb_spec (Z.of_nat (String.length s)) max); [lia|].
    now destruct (Z.ltb_spec (max - 3) 0); [|lia].
  - intros Hmax. unfold truncated.
    destruct (Z.le_gt_cases (Z.of_nat (String.length s)) max) as [Hfit|Hlong].
    + unfold truncate.
      destruct (Z.leb_spec (Z.of_nat (String.length s)) max); [cbn [from_option id]; lia | lia].
    + destruct (Hcut Hlong Hmax) as [-> Hlen]. cbn [from_option id]. lia.
Qed.

Lemma truncate_width_witness :
  truncate "Fix the crash on start-up" 10 = Some "Fix the..."
  /\ truncate "ab" 1 = None
  /\ (Z.of_nat (String.length (truncated "Fix the crash on start-up" 20)) <= 20)%Z.
Proof.
  split; [|split].
  - destruct (proj1 (proj2 (truncate_width "Fix the crash on start-up" 10)))
      as (t & Ht & -> & _); [cbn; lia | lia | exact Ht].
  - apply (proj1 (proj2 (proj2 (truncate_width "ab" 1)))); cbn; lia.
  - apply (proj2 (proj2 (proj2 (truncate_width "Fix the crash on start-up" 20)))); lia.
Defined.

Lemma Itoa_not_word (z : Z) (word : string) :
  NilZero.int_of_string word = None -> gostrings.Itoa z <> word.
Proof.
  intros Hw Heq. apply (f_equal NilZero.int_of_string) in Heq.
  rewrite Itoa_int_of_string, Hw in Heq. discriminate.
Qed.

(** X2.  [voteString] names the five votes of Azure DevOps, prints any
    other vote as its number, and never shows two votes alike. *)
Theorem voteString_injective (vote vote' : Z) :
  voteString vote = voteString vote' -> vote = vote'.
Proof.
  unfold voteString.
  repeat match goal with
         | |- context [(?a =? ?b)%Z] => destruct (Z.eqb_spec a b)
         end;
    intros Heq; subst; try reflexivity; try discriminate; try congruence;
    try (now apply Itoa_inj);
    exfalso;
    first [ now apply Itoa_not_word in Heq
          | symmetry in Heq; now apply Itoa_not_word in Heq ].
Qed.

Lemma voteString_injective_witness :
  voteString 10 = "Approved" /\ voteString 7 = "7" /\ (10 = 10)%Z.
Proof.
  split; [reflexivity | split; [reflexivity|]].
  apply (voteString_injective 10 10). reflexivity.
Defined.

End Formatting.

(** ** Targets and request parts built by pure code *)

Section Targets.
Import apiplus cmdplus.

Lemma TrimSuffix_append (s suf : string) : gostrings.TrimSuffix (s +:+ suf) suf = s.
Proof.
  unfold gostrings.TrimSuffix.
  replace (gostrings.HasSuffix (s +:+ suf) suf) with true
    by (symmetry; apply HasSuffix_iff; now exists s).
  rewrite length_append.
  replace (String.length s + String.length suf - String.length suf)%nat
    with (String.length s) by lia.
  apply sliceTo_append.
Qed.

Lemma ProjectURL_official (org pat project path : string) :
  ProjectURL (NewClient org pat) project path
  = "https://dev.azure.com/" +:+ org +:+ "/" +:+ project +:+ "/_apis/" +:+ path.
Proof.
  unfold ProjectURL, NewClient. cbn [BaseURL].
  rewrite <- (append_assoc "https://dev.azure.com/" org "/_apis").
  rewrite TrimSuffix_append. now rewrite append_assoc.
Qed.

(** X3.  For the client [NewClient] makes, a project-scoped target is
    [https://dev.azure.com/<org>/<project>/_apis/<path>]: the [/_apis]
    that ends the base is taken off before the project is put in, once,
    whatever the organization's name ends in.  For a client whose base
    does not end in [/_apis] the base is kept whole. *)
Theorem ProjectURL_NewClient (org pat project path : string) (c : Client) :
  ProjectURL (NewClient org pat) project path
  = "https://dev.azure.com/" +:+ org +:+ "/" +:+ project +:+ "/_apis/" +:+ path
  /\ (gostrings.HasSuffix (BaseURL c) "/_apis" = false ->
      ProjectURL c project path = BaseURL c +:+ "/" +:+ project +:+ "/_apis/" +:+ path).
Proof.
  split.
  - apply ProjectURL_official.
  - intros Hs. unfold ProjectURL, gostrings.TrimSuffix. now rewrite Hs.
Qed.

Lemma ProjectURL_NewClient_witness :
  ProjectURL (NewClient "org/_apis" "secret") "proj" "git/repositories"
  = "https://dev.azure.com/org/_apis/proj/_apis/git/repositories"
  /\ ProjectURL {| BaseURL := "https://ado.example/tfs"; PAT := ""; APIVersion := "7.1" |}
       "proj" "wit/wiql"
     = "https://ado.example/tfs/proj/_apis/wit/wiql".
Proof.
  split.
  - exact (proj1 (ProjectURL_NewClient "org/_apis" "secret" "proj" "git/repositories"
                    (NewClient "" ""))).
  - apply (proj2 (ProjectURL_NewClient "" "" "proj" "wit/wiql"
                    {| BaseURL := "https://ado.example/tfs"; PAT := ""; APIVersion := "7.1" |})).
    reflexivity.
Defined.

Section Reviewers.
Context `{Library}.

Lemma addReviewers_filter (reviewers : list IdentityRef) (pieces : list string) :
  addReviewers reviewers pieces
  = (reviewers
     ++ map (fun r => {| IdentityRef_ID := r; IdentityRef_DisplayName := "";
                         IdentityRef_UniqueName := "" |})
          (filter (fun r => r <> "") (map strings_TrimSpace pieces)))%list.
Proof.
  revert reviewers; induction pieces as [|r pieces IH]; intros reviewers.
  - cbn. now rewrite app_nil_r.
  - cbn [addReviewers map]. rewrite IH. rewrite filter_cons.
    destruct (String.eqb_spec (strings_TrimSpace r) "") as [He|Hne].
    + cbn [negb]. destruct (decide (strings_TrimSpace r <> "")); [contradiction|].
      reflexivity.
    + cbn [negb]. destruct (decide (strings_TrimSpace r <> "")); [|contradiction].
      unfold gostrings.append. cbn [map]. now rewrite <- app_assoc.
Qed.

End Reviewers.
End Targets.

(** ** What the API methods and the commands do to the world *)

Section Effects.
Context `{Runtime}.
Import effects.

Lemma quiet_ret {A : Type} (P : Request -> Prop) (n : nat) (a : A) : quiet P n (ret a).
Proof. intros w. exists []. cbn. rewrite app_nil_r. repeat split; [lia | constructor]. Qed.

Lemma quiet_fail {A : Type} (P : Request -> Prop) (n : nat) (e : error) :
  quiet P n (fail (A := A) e).
Proof. intros w. exists []. cbn. rewrite app_nil_r. repeat split; [lia | constructor]. Qed.

Lemma quiet_lift {A : Type} (P : Request -> Prop) (n : nat) (r : Result A) :
  quiet P n (lift r).
Proof. intros w. exists []. cbn. rewrite app_nil_r. repeat split; [lia | constructor]. Qed.

Lemma quiet_orReturn {A : Type} (P : Request -> Prop) (n : nat) (m : M A)
    (wrap : error -> error) :
  quiet P n m -> quiet P n (orReturn m wrap).
Proof.
  intros Hm w. destruct (Hm w) as (sent & Hc & Hn & HP & Ho & He).
  exists sent. unfold orReturn. destruct (m w) as [[a|e] w']; cbn in *; auto.
Qed.

Lemma returned_orReturn {A : Type} (m : M A) (wrap : error -> error) (a : A) :
  returned (orReturn m wrap) a -> returned m a.
Proof.
  intros (w & w' & Hr). exists w, w'. unfold orReturn in Hr.
  destruct (m w) as [[a'|e] w1]; congruence.
Qed.

Lemma returned_lift {A : Type} (r : Result A) (a : A) : returned (lift r) a -> r = Ok a.
Proof. intros (w & w' & Hr). unfold lift in Hr. congruence. Qed.

Lemma quiet_bind {A B : Type} (P : Request -> Prop) (n1 n2 : nat) (m : M A)
    (k : A -> M B) :
  quiet P n1 m -> (forall a, returned m a -> quiet P n2 (k a)) ->
  quiet P (n1 + n2) (bind m k).
Proof.
  intros Hm Hk w. destruct (Hm w) as (sent & Hc & Hn & HP & Ho & He).
  unfold bind. destruct (m w) as [[a|e] w'] eqn:Hmw; cbn in *.
  - destruct (Hk a (ex_intro _ w (ex_intro _ w' Hmw)) w')
      as (sent' & Hc' & Hn' & HP' & Ho' & He').
    exists (sent ++ sent')%list. rewrite Hc', Hc, Ho', He', length_app, app_assoc.
    repeat split; [lia | now apply Forall_app | assumption | assumption].
  - exists sent. repeat split; [assumption | lia | assumption..].
Qed.

Lemma quiet_step {A B : Type} (P : Request -> Prop) (n : nat) (m : M A) (k : A -> M B) :
  quiet P 0 m -> (forall a, returned m a -> quiet P n (k a)) -> quiet P n (bind m k).
Proof. intros Hm Hk. now apply (quiet_bind P 0 n). Qed.

Lemma quiet_call {A B : Type} (P : Request -> Prop) (n : nat) (m : M A) (k : A -> M B) :
  quiet P 1 m -> (forall a, returned m a -> quiet P n (k a)) -> quiet P (S n) (bind m k).
Proof. intros Hm Hk. now apply (quiet_bind P 1 n). Qed.

Lemma quiet_ext {A : Type} (P : Request -> Prop) (n : nat) (m m' : M A) :
  (forall w, m w = m' w) -> quiet P n m' -> quiet P n m.
Proof. intros Heq Hm w. rewrite Heq. apply Hm. Qed.

Lemma quiet_HTTP_Do (P : Request -> Prop) (n : nat) (req : Request) :
  P req -> quiet P (S n) (HTTP_Do req).
Proof.
  intros HP w. exists [req]. unfold HTTP_Do, gostrings.append.
  destruct (transport (calls w) req); cbn;
    (repeat split; [lia | now constructor]).
Qed.

(** *** The requests of an official client *)

Lemma Cut_prefix (p s : string) (sep : ascii) :
  gostrings.ContainsByte p sep = false ->
  gostrings.Cut (p +:+ s) sep
  = let '(before, after, found) := gostrings.Cut s sep in (p +:+ before, after, found).
Proof.
  induction p as [|a p IH]; intros Hp.
  - rewrite append_nil_l. destruct (gostrings.Cut s sep) as [[? ?] ?].
    now rewrite append_nil_l.
  - cbn in Hp. apply orb_false_iff in Hp as [Ha Hp].
    rewrite append_cons. cbn [gostrings.Cut]. rewrite Ha, (IH Hp).
    destruct (gostrings.Cut s sep) as [[? ?] ?]. now rewrite append_cons.
Qed.

Lemma url_Parse_Base (p s : string) (u : neturl.URL) :
  gostrings.ContainsByte p "#" = false ->
  gostrings.ContainsByte p "?" = false ->
  url_Parse (p +:+ s) = Ok u ->
  exists t, neturl.Base u = p +:+ t.
Proof.
  intros Hh Hq. unfold url_Parse. destruct (url_parse_error (p +:+ s)); [discriminate|].
  rewrite (Cut_prefix p s "#" Hh).
  destruct (gostrings.Cut s "#") as [[before frag] found].
  rewrite (Cut_prefix p before "?" Hq).
  destruct (gostrings.Cut before "?") as [[rest query] found'].
  intros [= <-]. now exists rest.
Qed.

Lemma outgoing_authorized (c : Client) (method contentType rawURL : string)
    (u : neturl.URL) (data : option string) :
  gostrings.HasPrefix rawURL "https://dev.azure.com/" = true ->
  contentType = "application/json" \/ contentType = "application/json-patch+json" ->
  url_Parse rawURL = Ok u ->
  authorized c (spec.outgoing c method contentType u data).
Proof.
  intros Hp Hct Hu. apply HasPrefix_iff in Hp as [s ->].
  destruct (url_Parse_Base "https://dev.azure.com/" s u eq_refl eq_refl Hu) as [t Ht].
  split; [|split; [|split]].
  - cbn. rewrite lookup_insert_ne by discriminate. apply lookup_insert_eq.
  - cbn. destruct Hct as [-> | ->]; [left | right]; apply lookup_insert_eq.
  - rewrite outgoing_Query. apply lookup_insert_eq.
  - cbn [spec.outgoing URL neturl.Base]. rewrite Ht. apply HasPrefix_iff. now exists t.
Qed.

Lemma quiet_roundTrip {T : Type} (P : Request -> Prop) (n : nat) (c : Client)
    (method rawURL contentType : string) (body : option Payload)
    (finish : Response -> Result T) :
  (forall u data, url_Parse rawURL = Ok u ->
                  P (spec.outgoing c method contentType u data)) ->
  quiet P (S n) (spec.roundTrip c method rawURL contentType body finish).
Proof.
  intros HP w. unfold spec.roundTrip.
  destruct (marshalBody body) as [data|e].
  2: { exists []. cbn. rewrite app_nil_r. repeat split; [lia | constructor]. }
  destruct (url_Parse rawURL) as [u|e] eqn:Hu.
  2: { exists []. cbn. rewrite app_nil_r. repeat split; [lia | constructor]. }
  exists [spec.outgoing c method contentType u data].
  destruct (transport (calls w) _); cbn;
    (repeat split; [lia | constructor; [now apply HP | constructor]]).
Qed.

Lemma quiet_doRaw (n : nat) (c : Client) (method rawURL contentType : string)
    (body : option Payload) :
  gostrings.HasPrefix rawURL "https://dev.azure.com/" = true ->
  contentType = "application/json" \/ contentType = "application/json-patch+json" ->
  quiet (authorized c) (S n) (doRaw c method rawURL contentType body).
Proof.
  intros Hp Hct. eapply quiet_ext; [intros w; apply doRaw_as_roundTrip|].
  apply quiet_roundTrip. intros u data Hu. now apply (outgoing_authorized _ _ _ rawURL).
Qed.

Lemma quiet_do (n : nat) (c : Client) (method path : string) (body : option Payload) :
  gostrings.HasPrefix (BaseURL c) "https://dev.azure.com/" = true ->
  quiet (authorized c) (S n) (do c method path body).
Proof.
  intros Hp. eapply quiet_ext; [intros w; apply do_as_roundTrip|].
  apply quiet_roundTrip. intros u data Hu.
  apply (outgoing_authorized _ _ _ (BaseURL c +:+ "/" +:+ path)); auto.
  apply HasPrefix_iff in Hp as [s ->]. apply HasPrefix_iff.
  exists (s +:+ "/" +:+ path). now rewrite append_assoc.
Qed.

Lemma pure_then {A B : Type} (m : M A) (k : A -> M B) (w : World) :
  (forall a w', (k a w').2 = w') -> (bind m k w).2 = (m w).2.
Proof. intros Hk. unfold bind. destruct (m w) as [[a|e] w']; [apply Hk | reflexivity]. Qed.

Lemma calls_then {A B : Type} (m : M A) (k : A -> M B) (w : World) :
  (forall a w', calls (k a w').2 = calls w') -> calls (bind m k w).2 = calls (m w).2.
Proof. intros Hk. unfold bind. destruct (m w) as [[a|e] w']; [apply Hk | reflexivity]. Qed.

Lemma roundTrip_sent {T : Type} (c : Client) (method rawURL contentType : string)
    (body : option Payload) (finish : Response -> Result T) (w : World) :
  let w' := (spec.roundTrip c method rawURL contentType body finish w).2 in
  calls w' = calls w
  \/ exists u data,
       url_Parse rawURL = Ok u /\ marshalBody body = Ok data
       /\ calls w' = (calls w ++ [spec.outgoing c method contentType u data])%list.
Proof.
  unfold spec.roundTrip.
  destruct (marshalBody body) as [data|err]; [|now left].
  destruct (url_Parse rawURL) as [u|err]; [|now left].
  right. exists u, data. split; [reflexivity|]. split; [reflexivity|].
  now destruct (transport (calls w) _).
Qed.

End Effects.

Section Methods.
Context `{Runtime} `{apiplus.Library}.
Import effects apiplus.

Ltac official_prefix :=
  first
    [ rewrite ProjectURL_official; apply HasPrefix_iff; eexists; reflexivity
    | cbn [BaseURL NewClient]; rewrite ?append_assoc; apply HasPrefix_iff;
      eexists; reflexivity ].

Ltac quiet_tac :=
  cbv zeta;
  repeat first
    [ apply quiet_ret | apply quiet_fail | apply quiet_lift
    | apply quiet_orReturn
    | apply quiet_doRaw; [official_prefix | auto]
    | apply quiet_do; official_prefix
    | apply quiet_step; [solve [quiet_tac] | intros ? ?; cbv zeta]
    | apply quiet_call; [solve [quiet_tac] | intros ? ?; cbv zeta]
    | match goal with
      | |- quiet _ _ (if ?b then _ else _) => destruct b
      | |- quiet _ _ (match ?x with _ => _ end) => destruct x
      end ].

Section Official.
Variables org pat : string.

Lemma quiet_Get {T : Type} (path : string) (result : Target T) :
  quiet (authorized (NewClient org pat)) 1 (Get (NewClient org pat) path result).
Proof. unfold Get. quiet_tac. Qed.

Lemma quiet_Post {T : Type} (path : string) (body : option Payload) (result : Target T) :
  quiet (authorized (NewClient org pat)) 1 (Post (NewClient org pat) path body result).
Proof. unfold Post. quiet_tac. Qed.

Lemma quiet_Patch {T : Type} (path : string) (body : option Payload) (result : Target T) :
  quiet (authorized (NewClient org pat)) 1 (Patch (NewClient org pat) path body result).
Proof. unfold Patch. quiet_tac. Qed.

Lemma quiet_ListRepositories (project : string) :
  quiet (authorized (NewClient org pat)) 1 (ListRepositories (NewClient org pat) project).
Proof. unfold ListRepositories. quiet_tac. Qed.

Lemma quiet_GetPullRequest (project : string) (id : Z) :
  quiet (authorized (NewClient org pat)) 1 (GetPullRequest (NewClient org pat) project id).
Proof. unfold GetPullRequest. quiet_tac. Qed.

Lemma quiet_VotePullRequest (project repoID : string) (prID : Z) (reviewerID : string)
    (vote : Z) :
  quiet (authorized (NewClient org pat)) 1 (VotePullRequest (NewClient org pat) project repoID prID reviewerID vote).
Proof. unfold VotePullRequest. quiet_tac. Qed.

Lemma quiet_GetConnectionData : quiet (authorized (NewClient org pat)) 1 (GetConnectionData (NewClient org pat)).
Proof. unfold GetConnectionData, Get. quiet_tac. Qed.

Lemma quiet_QueryByWiql (project wiql : string) (top : Z) :
  quiet (authorized (NewClient org pat)) 1 (QueryByWiql (NewClient org pat) project wiql top).
Proof. unfold QueryByWiql. quiet_tac. Qed.

Lemma quiet_GetWorkItem (project : string) (id : Z) :
  quiet (authorized (NewClient org pat)) 1 (GetWorkItem (NewClient org pat) project id).
Proof. unfold GetWorkItem, Get. quiet_tac. Qed.

Lemma quiet_GetWorkItems (project : string) (ids : list Z) :
  quiet (authorized (NewClient org pat)) 1 (GetWorkItems (NewClient org pat) project ids).
Proof.
  unfold GetWorkItems. destruct (length ids =? 0)%nat; [apply quiet_ret|]. cbv zeta.
  apply quiet_call; [apply quiet_Get | intros; apply quiet_ret].
Qed.

Lemma quiet_CreateWorkItem (project workItemType : string) (fields : list PatchField) :
  quiet (authorized (NewClient org pat)) 1 (CreateWorkItem (NewClient org pat) project workItemType fields).
Proof. unfold CreateWorkItem. quiet_tac. Qed.

Lemma quiet_UpdateWorkItem (project : string) (id : Z) (fields : list PatchField) :
  quiet (authorized (NewClient org pat)) 1 (UpdateWorkItem (NewClient org pat) project id fields).
Proof.
  unfold UpdateWorkItem. cbv zeta.
  apply quiet_call; [|intros resp _; apply quiet_step; [apply quiet_lift|]; intros; apply quiet_ret].
  apply quiet_doRaw; [|now right].
  cbn [BaseURL NewClient]. rewrite !append_assoc. apply HasPrefix_iff. eexists. reflexivity.
Qed.

Lemma doRawMarshalled_sent (c0 : Client) (method rawURL contentType : string)
    (marshalled : string + string) (w : World) :
  doRawMarshalled c0 method rawURL contentType marshalled w
  = match marshalled with
    | inl msg => (Err (Errorf_w "marshaling request body: " (errorString msg)), w)
    | inr data =>
        match url_Parse rawURL with
        | Err err => (Err (Errorf_w "creating request: " err), w)
        | Ok u =>
            let req := spec.outgoing c0 method contentType u (Some data) in
            match transport (calls w) req with
            | inl msg =>
                (Err (Errorf_w "executing request: " (errorString msg)), spec.addCall w req)
            | inr resp => (Ok resp, spec.addCall w req)
            end
        end
    end.
Proof.
  unfold doRawMarshalled, bind, lift, orReturn, ret, HTTP_Do, http_NewRequest.
  destruct marshalled as [msg|data]; [reflexivity|].
  destruct (url_Parse rawURL) as [u|err]; [|reflexivity].
  change (gostrings.append (calls w) ?r) with (calls w ++ [r])%list.
  fold (spec.outgoing c0 method contentType u (Some data)).
  fold (spec.addCall w (spec.outgoing c0 method contentType u (Some data))).
  now destruct (transport (calls w) _) as [msg|resp].
Qed.

Lemma quiet_doRawMarshalled (n : nat) (c0 : Client) (method rawURL contentType : string)
    (marshalled : string + string) :
  gostrings.HasPrefix rawURL "https://dev.azure.com/" = true ->
  contentType = "application/json" \/ contentType = "application/json-patch+json" ->
  quiet (authorized c0) (S n) (doRawMarshalled c0 method rawURL contentType marshalled).
Proof.
  intros Hp Hct w. rewrite doRawMarshalled_sent.
  destruct marshalled as [msg|data].
  { exists []. cbn. rewrite app_nil_r. repeat split; [lia | constructor]. }
  destruct (url_Parse rawURL) as [u|e] eqn:Hu.
  2: { exists []. cbn. rewrite app_nil_r. repeat split; [lia | constructor]. }
  exists [spec.outgoing c0 method contentType u (Some data)].
  cbv zeta. destruct (transport (calls w) _); cbn;
    (repeat split;
     [lia | constructor; [now apply (outgoing_authorized _ _ _ rawURL) | constructor]]).
Qed.

Lemma quiet_CreatePullRequest (project repoID : string) (input : CreatePRInput) :
  quiet (authorized (NewClient org pat)) 1 (CreatePullRequest (NewClient org pat) project repoID input).
Proof.
  unfold CreatePullRequest. cbv zeta.
  apply quiet_call; [|intros ? ?; quiet_tac].
  apply quiet_doRawMarshalled; [official_prefix | auto].
Qed.

Lemma URLString_prefix (u : neturl.URL) (p t rawQuery : string) :
  neturl.Base u = p +:+ t ->
  gostrings.HasPrefix (neturl.URLString (withRawQuery u rawQuery)) p = true.
Proof.
  intros Hb. apply HasPrefix_iff. unfold neturl.URLString, withRawQuery.
  cbn [neturl.Base neturl.RawQuery neturl.Fragment]. rewrite Hb, append_assoc. eauto.
Qed.

Lemma quiet_ListPullRequests (project repoID : string) (query : PullRequestQuery) :
  quiet (authorized (NewClient org pat)) 1 (ListPullRequests (NewClient org pat) project repoID query).
Proof.
  unfold ListPullRequests. cbv zeta.
  apply quiet_step; [quiet_tac|]. intros u Hu. cbv zeta.
  apply returned_orReturn, returned_lift in Hu.
  rewrite ProjectURL_official in Hu.
  destruct (url_Parse_Base "https://dev.azure.com/" _ u eq_refl eq_refl Hu) as [t Ht].
  apply quiet_call; [|intros ? ?; quiet_tac].
  apply quiet_doRaw; [|auto]. now apply (URLString_prefix u _ t).
Qed.

End Official.

(** X4.  Every method of the client [NewClient] makes hands at most one
    request to the transport, after the requests made before, and
    writes nothing.  That request carries the basic-authentication
    header made of the client's token, one of the two JSON content
    types and the client's API version, and it goes to
    [https://dev.azure.com/]. *)
Theorem methods_send_one_authorized_request (org pat project repoID : string)
    (id vote top : Z) (ids : list Z) (reviewerID wiql workItemType path : string)
    (body : option Payload) (fields : list PatchField) (query : PullRequestQuery)
    (input : CreatePRInput) :
  let c := NewClient org pat in
  let one {A : Type} (m : M A) := quiet (authorized c) 1 m in
  one (Get c path nilTarget) /\ one (Post c path body nilTarget)
  /\ one (Patch c path body nilTarget)
  /\ one (ListRepositories c project)
  /\ one (ListPullRequests c project repoID query)
  /\ one (GetPullRequest c project id)
  /\ one (CreatePullRequest c project repoID input)
  /\ one (VotePullRequest c project repoID id reviewerID vote)
  /\ one (GetConnectionData c)
  /\ one (QueryByWiql c project wiql top)
  /\ one (GetWorkItem c project id)
  /\ one (GetWorkItems c project ids)
  /\ one (CreateWorkItem c project workItemType fields)
  /\ one (UpdateWorkItem c project id fields).
Proof.
  cbv zeta.
  split; [apply quiet_Get|]. split; [apply quiet_Post|]. split; [apply quiet_Patch|].
  split; [apply quiet_ListRepositories|]. split; [apply quiet_ListPullRequests|].
  split; [apply quiet_GetPullRequest|]. split; [apply quiet_CreatePullRequest|].
  split; [apply quiet_VotePullRequest|]. split; [apply quiet_GetConnectionData|].
  split; [apply quiet_QueryByWiql|]. split; [apply quiet_GetWorkItem|].
  split; [apply quiet_GetWorkItems|]. split; [apply quiet_CreateWorkItem|].
  apply quiet_UpdateWorkItem.
Qed.

End Methods.

Section CommandEffects.
Context `{Runtime} `{apiplus.Library}.
Import effects apiplus cmdplus.

Lemma prints_ret {A : Type} (a : A) : prints (ret a).
Proof. intros w. split; [now exists a | reflexivity]. Qed.

Lemma prints_Printf (text : string) : prints (Printf text).
Proof. intros w. split; [now exists tt | reflexivity]. Qed.

Lemma prints_Eprintf (text : string) : prints (Eprintf text).
Proof. intros w. split; [now exists tt | reflexivity]. Qed.

Lemma prints_bind {A B : Type} (m : M A) (k : A -> M B) :
  prints m -> (forall a, prints (k a)) -> prints (bind m k).
Proof.
  intros Hm Hk w. destruct (Hm w) as [[a Ha] Hc]. unfold bind.
  destruct (m w) as [[a'|e] w']; cbn in *; [|discriminate].
  destruct (Hk a' w') as [Hb Hc']. split; [assumption | congruence].
Qed.

Lemma prints_forEach {A : Type} (l : list A) (body : A -> M unit) :
  (forall x, prints (body x)) -> prints (forEach l body).
Proof.
  intros Hb. induction l as [|x l IH]; cbn [forEach]; [apply prints_ret|].
  apply prints_bind; [apply Hb | intros _; apply IH].
Qed.

Lemma command_quiet {A : Type} (P : Request -> Prop) (n : nat) (m : M A) :
  quiet P n m -> command P n m.
Proof.
  intros Hm w. destruct (Hm w) as (sent & Hc & Hn & HP & Ho & He).
  exists sent. repeat split; assumption.
Qed.

Lemma command_prints {A : Type} (P : Request -> Prop) (n : nat) (m : M A) :
  prints m -> command P n m.
Proof.
  intros Hm w. destruct (Hm w) as [[a Ha] Hc]. exists [].
  rewrite app_nil_r. repeat split; [assumption | cbn; lia | constructor | |];
    rewrite Ha in *; discriminate.
Qed.

Lemma command_fail {A : Type} (P : Request -> Prop) (n : nat) (e : error) :
  command P n (fail (A := A) e).
Proof. apply command_quiet, quiet_fail. Qed.

Lemma command_bind {A B : Type} (P : Request -> Prop) (n1 n2 : nat) (m : M A)
    (k : A -> M B) :
  quiet P n1 m -> (forall a, returned m a -> command P n2 (k a)) ->
  command P (n1 + n2) (bind m k).
Proof.
  intros Hm Hk w. destruct (Hm w) as (sent & Hc & Hn & HP & Ho & He).
  unfold bind. destruct (m w) as [[a|e] w'] eqn:Hmw; cbn in *.
  - destruct (Hk a (ex_intro _ w (ex_intro _ w' Hmw)) w')
      as (sent' & Hc' & Hn' & HP' & Hs').
    exists (sent ++ sent')%list. rewrite Hc', Hc, length_app, app_assoc.
    repeat split; [lia | now apply Forall_app | |];
      destruct (Hs' err) as [Ho' He']; congruence.
  - exists sent. repeat split; [assumption | lia | assumption..].
Qed.

Lemma command_step {A B : Type} (P : Request -> Prop) (n : nat) (m : M A)
    (k : A -> M B) :
  quiet P 0 m -> (forall a, returned m a -> command P n (k a)) -> command P n (bind m k).
Proof. intros Hm Hk. now apply (command_bind P 0 n). Qed.

Lemma command_call {A B : Type} (P : Request -> Prop) (n : nat) (m : M A)
    (k : A -> M B) :
  quiet P 1 m -> (forall a, returned m a -> command P n (k a)) ->
  command P (S n) (bind m k).
Proof. intros Hm Hk. now apply (command_bind P 1 n). Qed.

Variable env : Env.

Lemma returned_newAPIClient (c : Client) :
  returned (newAPIClient env) c -> c = clientOf env.
Proof.
  intros (w & w' & Hr). unfold newAPIClient, clientOf, GetPAT in *.
  destruct (viper_organization env =? ""); [discriminate|].
  unfold bind, lift, ret, fail in Hr. destruct (keyring_Get env); congruence.
Qed.

Lemma quiet_newAPIClient (P : Request -> Prop) (n : nat) : quiet P n (newAPIClient env).
Proof.
  unfold newAPIClient. destruct (viper_organization env =? ""); [apply quiet_fail|].
  apply (quiet_bind P 0 n); [apply quiet_lift | intros; apply quiet_ret].
Qed.

Lemma quiet_resolveProject (P : Request -> Prop) (n : nat) (cmd : Command) :
  quiet P n (resolveProject env cmd).
Proof.
  unfold resolveProject. destruct (negb _); [apply quiet_ret|].
  destruct (_ =? _); [apply quiet_fail | apply quiet_ret].
Qed.

Lemma quiet_resolveRepoID (org pat project repoName : string) :
  quiet (authorized (NewClient org pat)) 1
    (resolveRepoID (NewClient org pat) project repoName).
Proof.
  unfold resolveRepoID. apply (quiet_bind _ 1 0).
  - apply quiet_orReturn, quiet_ListRepositories.
  - intros repos _. destruct (findRepo repos repoName); [apply quiet_ret | apply quiet_fail].
Qed.

Ltac prints_tac :=
  cbv zeta;
  repeat first
    [ apply prints_ret | apply prints_Printf | apply prints_Eprintf
    | apply prints_bind; [|intros ?; cbv zeta]
    | apply prints_forEach; intros ?
    | match goal with
      | |- prints (if ?b then _ else _) => destruct b
      end ].

Ltac api_call :=
  first
    [ apply quiet_GetPullRequest | apply quiet_GetConnectionData
    | apply quiet_VotePullRequest | apply quiet_ListPullRequests
    | apply quiet_CreatePullRequest | apply quiet_GetWorkItem
    | apply quiet_CreateWorkItem | apply quiet_UpdateWorkItem
    | apply quiet_resolveRepoID ].

Ltac command_tac :=
  cbv zeta;
  repeat first
    [ apply command_fail
    | apply command_step;
      [ first [ apply quiet_newAPIClient | apply quiet_resolveProject | apply quiet_ret ]
      | let c := fresh "c" in
        let Hc := fresh "Hc" in
        intros c Hc; try (apply returned_newAPIClient in Hc; subst c; unfold clientOf);
        cbv zeta ]
    | apply command_call;
      [ first [ api_call | apply quiet_orReturn; api_call ] | intros ? _; cbv zeta ]
    | apply command_prints; solve [prints_tac]
    | match goal with
      | |- command _ _ (if ?b then _ else _) => destruct b
      | |- command _ _ (match ?x with _ => _ end) => destruct x
      end ].

Lemma command_encodeToStdout (P : Request -> Prop) (n : nat) (v : Payload) :
  command P n (encodeToStdout v).
Proof. unfold encodeToStdout. command_tac. Qed.

Lemma command_votePR (cmd : Command) (args0 : string) (vote : Z) (label : string) :
  command (authorized (clientOf env)) 3 (votePR env cmd args0 vote label).
Proof. unfold votePR, encodeToStdout, clientOf. command_tac. Qed.

Lemma command_runWorkitemCreate (cmd : Command) :
  command (authorized (clientOf env)) 1 (runWorkitemCreate env cmd).
Proof. unfold runWorkitemCreate, encodeToStdout, clientOf. command_tac. Qed.

Lemma command_runWorkitemUpdate (cmd : Command) (args0 : string) :
  command (authorized (clientOf env)) 1 (runWorkitemUpdate env cmd args0).
Proof. unfold runWorkitemUpdate, encodeToStdout, clientOf. command_tac. Qed.

Lemma command_runWorkitemShow (cmd : Command) (args0 : string) :
  command (authorized (clientOf env)) 1 (runWorkitemShow env cmd args0).
Proof. unfold runWorkitemShow, encodeToStdout, clientOf. command_tac. Qed.

Lemma command_runPRShow (cmd : Command) (args0 : string) :
  command (authorized (clientOf env)) 1 (runPRShow env cmd args0).
Proof. unfold runPRShow, clientOf. command_tac. Qed.

Lemma command_runPRCreate (cmd : Command) :
  command (authorized (clientOf env)) 2 (runPRCreate env cmd).
Proof. unfold runPRCreate, clientOf. command_tac. Qed.

Lemma command_runPRList (cmd : Command) :
  command (authorized (clientOf env)) 2 (runPRList env cmd).
Proof.
  unfold runPRList, clientOf. cbv zeta.
  apply command_step; [apply quiet_newAPIClient|].
  intros c Hc. apply returned_newAPIClient in Hc; subst c; unfold clientOf.
  apply command_step; [apply quiet_resolveProject|]. intros project _.
  apply command_call.
  { destruct (negb _); [apply quiet_resolveRepoID | apply quiet_ret]. }
  intros repoID _. command_tac.
Qed.

Lemma command_runAuthStatus (P : Request -> Prop) :
  command P 0 (runAuthStatus env).
Proof. unfold runAuthStatus. command_tac. Qed.

Lemma command_nothing {A : Type} (m : M A) (w : World) :
  command (fun _ => True) 0 m -> calls (m w).2 = calls w.
Proof.
  intros Hm. destruct (Hm w) as (sent & Hc & Hn & _).
  destruct sent; [now rewrite app_nil_r in Hc | cbn in Hn; lia].
Qed.

Lemma runPRShow_calls (cmd : Command) (args0 : string) (id : Z) (client : Client)
    (project : string) (w : World) :
  gostrings.Atoi args0 = Some id ->
  newAPIClient env w = (Ok client, w) ->
  resolveProject env cmd w = (Ok project, w) ->
  calls (runPRShow env cmd args0 w).2 = calls (GetPullRequest client project id w).2.
Proof.
  intros Hid Hclient Hproject. unfold runPRShow. rewrite Hid.
  step Hclient. step Hproject. rewrite calls_then.
  - unfold orReturn. now destruct (GetPullRequest client project id w) as [[pr|e] w1].
  - intros pr w1. apply command_nothing. command_tac.
Qed.

Lemma runWorkitemShow_calls (cmd : Command) (args0 : string) (id : Z) (client : Client)
    (project : string) (w : World) :
  gostrings.Atoi args0 = Some id ->
  newAPIClient env w = (Ok client, w) ->
  resolveProject env cmd w = (Ok project, w) ->
  calls (runWorkitemShow env cmd args0 w).2 = calls (GetWorkItem client project id w).2.
Proof.
  intros Hid Hclient Hproject. unfold runWorkitemShow. rewrite Hid.
  step Hclient. step Hproject. rewrite calls_then.
  - unfold orReturn. now destruct (GetWorkItem client project id w) as [[wi|e] w1].
  - intros wi w1. apply command_nothing. unfold encodeToStdout. command_tac.
Qed.

End CommandEffects.

Section CommandTheorems.
Context `{Runtime} `{apiplus.Library}.
Import effects apiplus cmdplus.
Variable env : Env.

Lemma commands_behave (cmd : Command) (args0 : string) (n : nat) (run : M unit) :
  In (n, run) (commands env cmd args0) -> command (authorized (clientOf env)) n run.
Proof.
  unfold commands. cbn [In].
  intros [Hin|[Hin|[Hin|[Hin|[Hin|[Hin|[Hin|[Hin|[Hin|[]]]]]]]]]];
    injection Hin as <- <-.
  - apply command_votePR.
  - apply command_votePR.
  - apply command_runPRShow.
  - apply command_runPRCreate.
  - apply command_runPRList.
  - apply command_runWorkitemShow.
  - apply command_runWorkitemCreate.
  - apply command_runWorkitemUpdate.
  - apply command_runAuthStatus.
Qed.

(** X5.  A command makes no more requests than its steps call for (a
    vote three, creating or listing pull requests two, showing,
    creating or updating a record one, the authentication status
    none): nothing is retried, and the requests made before are kept.
    Every request carries the stored token in its basic-authentication
    header, a JSON content type and the API version, and goes to
    [https://dev.azure.com/]. *)
Theorem commands_call_budget (cmd : Command) (args0 : string) (n : nat) (run : M unit)
    (w : World) :
  In (n, run) (commands env cmd args0) ->
  exists sent,
    calls (run w).2 = (calls w ++ sent)%list
    /\ (length sent <= n)%nat
    /\ Forall (authorized (clientOf env)) sent.
Proof.
  intros Hin. destruct (commands_behave cmd args0 n run Hin w) as (sent & Hc & Hn & HP & _).
  now exists sent.
Qed.


Lemma prelude_fails {A : Type} (cmd : Command) (k : Client -> string -> M A) (w : World) :
  viper_organization env = ""
  \/ (exists msg, keyring_Get env = inl msg)
  \/ (GetString cmd "project" = "" /\ viper_project env = "") ->
  exists e,
    bind (newAPIClient env) (fun c => bind (resolveProject env cmd) (k c)) w = (Err e, w).
Proof.
  intros Hun. unfold bind at 1.
  destruct (newAPIClient env w) as [[c|e] w1] eqn:Hc.
  2: { destruct (newAPIClient_pure env w) as [r Hr]. rewrite Hr in Hc.
       injection Hc as _ <-. eauto. }
  assert (w1 = w) as ->.
  { destruct (newAPIClient_pure env w) as [r Hr]. congruence. }
  unfold newAPIClient, GetPAT in Hc.
  destruct Hun as [Horg | [[msg Hk] | [Hflag Hp]]].
  - rewrite Horg in Hc. discriminate.
  - rewrite Hk in Hc. destruct (viper_organization env =? ""); discriminate.
  - unfold bind, resolveProject. rewrite Hflag, Hp. cbn. eauto.
Qed.

(** X7.  Without an organization, without a token in the keyring, or
    without a project (neither [--project] nor a configured default),
    a command that talks to the service fails and leaves the world as
    it was: no request is made. *)
Theorem commands_need_configuration (cmd : Command) (args0 : string) (n : nat)
    (run : M unit) (w : World) :
  viper_organization env = ""
  \/ (exists msg, keyring_Get env = inl msg)
  \/ (GetString cmd "project" = "" /\ viper_project env = "") ->
  In (S n, run) (commands env cmd args0) ->
  exists e, run w = (Err e, w).
Proof.
  intros Hun. unfold commands. cbn [In].
  intros [Hin|[Hin|[Hin|[Hin|[Hin|[Hin|[Hin|[Hin|[Hin|[]]]]]]]]]];
    try discriminate Hin; injection Hin as _ <-.
  - unfold runPRApprove, votePR. destruct (gostrings.Atoi args0); [|unfold fail; eauto].
    now apply prelude_fails.
  - unfold runPRReject, votePR. destruct (gostrings.Atoi args0); [|unfold fail; eauto].
    now apply prelude_fails.
  - unfold runPRShow. destruct (gostrings.Atoi args0); [|unfold fail; eauto].
    now apply prelude_fails.
  - unfold runPRCreate. now apply prelude_fails.
  - unfold runPRList. now apply prelude_fails.
  - unfold runWorkitemShow. destruct (gostrings.Atoi args0); [|unfold fail; eauto].
    now apply prelude_fails.
  - unfold runWorkitemCreate. now apply prelude_fails.
  - unfold runWorkitemUpdate. destruct (gostrings.Atoi args0); [|unfold fail; eauto].
    now apply prelude_fails.
Qed.

End CommandTheorems.

Section CommandScenarios.
#[local] Existing Instance stubplus.runtime.
#[local] Existing Instance stubplus.library.
Import effects apiplus cmdplus.

Lemma commands_call_budget_witness :
  exists sent,
    calls (runPRApprove stub.env (stub.command []) "42" emptyWorld).2 = sent
    /\ (length sent <= 3)%nat
    /\ Forall (authorized (clientOf stub.env)) sent.
Proof.
  destruct (commands_call_budget stub.env (stub.command []) "42" 3
              (runPRApprove stub.env (stub.command []) "42") emptyWorld)
    as (sent & Hc & Hn & HP); [left; reflexivity|].
  exists sent. split; [exact Hc | split; [exact Hn | exact HP]].
Defined.


Lemma commands_need_configuration_witness :
  viper_organization stub.unconfigured = ""
  /\ exists e, runPRList stub.unconfigured (stub.command []) emptyWorld = (Err e, emptyWorld).
Proof.
  split; [reflexivity|].
  apply (commands_need_configuration stub.unconfigured (stub.command []) "" 1
           (runPRList stub.unconfigured (stub.command [])) emptyWorld).
  - left; reflexivity.
  - do 4 right; left; reflexivity.
Defined.

End CommandScenarios.

(** ** The queries of the requests *)

Section Queries.
Context `{Runtime} `{apiplus.Library}.
Import effects apiplus.

Lemma Cut_none (s : string) (sep : ascii) :
  gostrings.ContainsByte s sep = false -> gostrings.Cut s sep = (s, "", false).
Proof.
  induction s as [|a s IH]; intros Hs; [reflexivity|].
  cbn in Hs. apply orb_false_iff in Hs as [Ha Hs].
  cbn [gostrings.Cut]. now rewrite Ha, (IH Hs).
Qed.


Lemma url_Parse_query (base query : string) :
  url_parse_error (base +:+ "?" +:+ query) = None -> plain base ->
  gostrings.ContainsByte query "#" = false ->
  url_Parse (base +:+ "?" +:+ query)
  = Ok {| neturl.Base := base; neturl.RawQuery := query; neturl.Fragment := "" |}.
Proof.
  intros Herr [Hq Hh] Hquery. unfold url_Parse. rewrite Herr.
  rewrite (Cut_none (base +:+ "?" +:+ query) "#").
  2: { rewrite !ContainsByte_append, Hh, Hquery. reflexivity. }
  change ("?" +:+ query) with (String "?" query).
  now rewrite (Cut_found base query "?" Hq).
Qed.

Lemma QueryUnescape_plain (s : string) :
  gostrings.ContainsByte s "%" = false -> gostrings.ContainsByte s "+" = false ->
  neturl.QueryUnescape s = Some s.
Proof.
  induction s as [|a s IH]; intros Hp Hplus; [reflexivity|].
  cbn in Hp, Hplus. apply orb_false_iff in Hp as [Ha Hp].
  apply orb_false_iff in Hplus as [Ha' Hplus].
  cbn [neturl.QueryUnescape]. now rewrite Ha, Ha', (IH Hp Hplus).
Qed.

Lemma ParseQuery_single (key value : string) :
  key <> "" ->
  (forall sep, In sep ["&"; ";"; "="; "%"; "+"]%char ->
               gostrings.ContainsByte key sep = false) ->
  (forall sep, In sep ["&"; ";"; "%"; "+"]%char ->
               gostrings.ContainsByte value sep = false) ->
  neturl.ParseQuery (key +:+ "=" +:+ value) = {[ key := [value] ]}.
Proof.
  intros Hne Hkey Hvalue.
  unfold neturl.ParseQuery. rewrite Split_single.
  2: { rewrite !ContainsByte_append, Hkey, Hvalue by (cbn; auto 10). reflexivity. }
  cbn [fold_left]. unfold neturl.parsePair.
  rewrite !ContainsByte_append, Hkey, Hvalue by (cbn; auto 10).
  cbn [gostrings.ContainsByte Ascii.eqb Bool.eqb orb].
  destruct (String.eqb_spec (key +:+ "=" +:+ value) "") as [He|_].
  { apply (f_equal String.length) in He. rewrite !length_append in He. cbn in He. lia. }
  change ("=" +:+ value) with (String "=" value).
  rewrite (Cut_found key value "=") by (apply Hkey; cbn; auto 10).
  rewrite (QueryUnescape_plain key), (QueryUnescape_plain value)
    by (first [apply Hkey | apply Hvalue]; cbn; auto 10).
  rewrite lookup_empty. reflexivity.
Qed.

Lemma string_of_uint_digits (d : Decimal.uint) (c : ascii) :
  gostrings.isDigit c = false ->
  gostrings.ContainsByte (NilEmpty.string_of_uint d) c = false.
Proof.
  intros Hc. induction d; cbn [NilEmpty.string_of_uint gostrings.ContainsByte];
    [reflexivity | ..];
    rewrite IHd, orb_false_r;
    match goal with
    | |- Ascii.eqb ?a c = false =>
        destruct (Ascii.eqb_spec a c) as [<-|]; [discriminate Hc | reflexivity]
    end.
Qed.

Lemma Itoa_digits (z : Z) (c : ascii) :
  gostrings.isDigit c = false -> c <> "-"%char ->
  gostrings.ContainsByte (gostrings.Itoa z) c = false.
Proof.
  intros Hc Hminus. unfold gostrings.Itoa.
  destruct z as [|p|p]; cbn [Z.to_int NilZero.string_of_int].
  - now apply (string_of_uint_digits (Decimal.D0 Decimal.Nil)).
  - destruct (string_of_to_uint p) as [-> _]. now apply string_of_uint_digits.
  - destruct (string_of_to_uint p) as [-> _]. cbn [gostrings.ContainsByte].
    rewrite string_of_uint_digits, orb_false_r by assumption.
    destruct (Ascii.eqb_spec "-" c) as [<-|]; [now contradiction Hminus | reflexivity].
Qed.

Lemma concat_clean (sep : string) (l : list string) (c : ascii) :
  gostrings.ContainsByte sep c = false ->
  Forall (fun s => gostrings.ContainsByte s c = false) l ->
  gostrings.ContainsByte (String.concat sep l) c = false.
Proof.
  intros Hsep Hl. induction Hl as [|s l Hs Hl IH]; [reflexivity|].
  destruct l as [|s' l]; [exact Hs|].
  change (String.concat sep (s :: s' :: l))
    with (s +:+ sep +:+ String.concat sep (s' :: l)).
  now rewrite !ContainsByte_append, Hs, Hsep, IH.
Qed.

Lemma Join_Itoa_clean (ids : list Z) (c : ascii) :
  gostrings.isDigit c = false -> c <> "-"%char -> c <> ","%char ->
  gostrings.ContainsByte (gostrings.Join (map gostrings.Itoa ids) ",") c = false.
Proof.
  intros Hc Hminus Hcomma. apply concat_clean.
  - cbn [gostrings.ContainsByte]. rewrite orb_false_r.
    destruct (Ascii.eqb_spec "," c) as [<-|]; [now contradiction Hcomma | reflexivity].
  - apply List.Forall_forall. intros s Hs. apply in_map_iff in Hs as (z & <- & _).
    now apply Itoa_digits.
Qed.

Lemma ContainsByte_sliceTo (n : nat) (s : string) (c : ascii) :
  gostrings.ContainsByte s c = false ->
  gostrings.ContainsByte (gostrings.sliceTo n s) c = false.
Proof.
  revert s; induction n as [|n IH]; intros [|a s] Hs; try reflexivity.
  cbn in Hs |- *. apply orb_false_iff in Hs as [-> Hs]. now apply IH.
Qed.

Lemma plain_append (s t : string) : plain s -> plain t -> plain (s +:+ t).
Proof. intros [? ?] [? ?]. split; rewrite ContainsByte_append; now apply orb_false_iff. Qed.

Lemma plain_TrimSuffix (s suf : string) : plain s -> plain (gostrings.TrimSuffix s suf).
Proof.
  intros [? ?]. unfold gostrings.TrimSuffix.
  destruct (gostrings.HasSuffix s suf); [|now split].
  split; now apply ContainsByte_sliceTo.
Qed.

Lemma plain_ProjectURL (c : Client) (project path : string) :
  plain (BaseURL c) -> plain project -> plain path -> plain (ProjectURL c project path).
Proof.
  intros Hb Hp Hpath. unfold ProjectURL.
  repeat apply plain_append; try assumption; try (now split).
  now apply plain_TrimSuffix.
Qed.

(** X8.  [GetWorkItems] for a non-empty list makes at most one request,
    a GET of [<base>/wit/workitems] (the project is not part of it)
    whose query holds the decimal ids, comma-separated and in the given
    order, under [ids], and the API version, and which has no body. *)
Theorem GetWorkItems_one_request (c : Client) (project : string) (ids : list Z)
    (w : World) :
  ids <> [] -> plain (BaseURL c) ->
  let w' := (GetWorkItems c project ids w).2 in
  calls w' = calls w
  \/ exists req,
       calls w' = (calls w ++ [req])%list
       /\ Method req = "GET"
       /\ neturl.Base (URL req) = BaseURL c +:+ "/wit/workitems"
       /\ neturl.Query (URL req)
          = <["api-version" := [APIVersion c]]>
              {[ "ids" := [gostrings.Join (map gostrings.Itoa ids) ","] ]}
       /\ RequestBody req = None.
Proof.
  intros Hids Hbase. unfold GetWorkItems.
  destruct ids as [|id ids]; [contradiction|]. cbn [length Nat.eqb]. cbv zeta.
  rewrite pure_then by reflexivity. unfold Get.
  rewrite pure_then by reflexivity. rewrite do_as_roundTrip.
  set (joined := gostrings.Join (map gostrings.Itoa (id :: ids)) ",").
  destruct (roundTrip_sent c "GET" (BaseURL c +:+ "/" +:+ "wit/workitems?ids=" +:+ joined)
              "application/json" None Ok w) as [Hsame | (u & data & Hu & Hdata & Hcalls)];
    [now left | right].
  injection Hdata as <-.
  exists (spec.outgoing c "GET" "application/json" u None).
  split; [exact Hcalls|]. split; [reflexivity|].
  assert (Hparsed : u = {| neturl.Base := BaseURL c +:+ "/wit/workitems";
                           neturl.RawQuery := "ids=" +:+ joined;
                           neturl.Fragment := "" |}).
  { change (BaseURL c +:+ "/" +:+ "wit/workitems?ids=" +:+ joined)
      with (BaseURL c +:+ "/wit/workitems" +:+ "?" +:+ "ids=" +:+ joined) in Hu.
    rewrite <- (append_assoc (BaseURL c) "/wit/workitems") in Hu.
    unfold url_Parse in Hu.
    destruct (url_parse_error _) eqn:Herr; [discriminate|].
    pose proof (url_Parse_query (BaseURL c +:+ "/wit/workitems") ("ids=" +:+ joined) Herr)
      as Hq.
    unfold url_Parse in Hq. rewrite Herr in Hq. rewrite Hq in Hu; [congruence | |].
    - apply plain_append; [assumption | now split].
    - rewrite ContainsByte_append. cbn [gostrings.ContainsByte Ascii.eqb Bool.eqb orb].
      now apply Join_Itoa_clean. }
  subst u. split; [reflexivity|]. split; [|reflexivity].
  rewrite outgoing_Query. f_equal. unfold neturl.Query. cbn [neturl.RawQuery].
  apply (ParseQuery_single "ids" joined); [discriminate | |].
  - intros sep Hsep. cbn in Hsep. now repeat destruct Hsep as [<-|Hsep].
  - intros sep Hsep. cbn in Hsep.
    repeat destruct Hsep as [<-|Hsep]; try contradiction;
      now apply Join_Itoa_clean.
Qed.

Lemma ProjectURL_query (c : Client) (project path query : string) :
  ProjectURL c project (path +:+ "?" +:+ query)
  = ProjectURL c project path +:+ "?" +:+ query.
Proof. unfold ProjectURL. now rewrite !append_assoc. Qed.

(** X9.  [QueryByWiql] makes at most one request, a POST of
    [<project URL>/wit/wiql] with the JSON content type, whose body is
    the marshalled query and whose query string holds [$top], the limit
    in decimal as it was given (zero and negative limits are sent too),
    and the API version. *)
Theorem QueryByWiql_one_request (c : Client) (project wiql : string) (top : Z)
    (w : World) :
  plain (BaseURL c) -> plain project ->
  let w' := (QueryByWiql c project wiql top w).2 in
  calls w' = calls w
  \/ exists req data,
       calls w' = (calls w ++ [req])%list
       /\ Method req = "POST"
       /\ neturl.Base (URL req) = ProjectURL c project "wit/wiql"
       /\ neturl.Query (URL req)
          = <["api-version" := [APIVersion c]]> {[ "$top" := [gostrings.Itoa top] ]}
       /\ Header req !! "Content-Type" = Some ["application/json"]
       /\ json_Marshal (WiqlBody wiql) = inr data
       /\ RequestBody req = Some data.
Proof.
  intros Hbase Hproject. cbv zeta. rewrite QueryByWiql_roundTrip.
  destruct (roundTrip_sent c "POST"
              (ProjectURL c project ("wit/wiql?$top=" +:+ gostrings.Itoa top))
              "application/json" (Some (WiqlBody wiql))
              (fun resp => decodeOrClose resp (into decode_WiqlResult)) w)
    as [Hsame | (u & data & Hu & Hdata & Hcalls)]; [now left | right].
  unfold marshalBody in Hdata.
  destruct (json_Marshal (WiqlBody wiql)) as [msg|text] eqn:Hm; [discriminate|].
  injection Hdata as <-.
  exists (spec.outgoing c "POST" "application/json" u (Some text)), text.
  split; [exact Hcalls|]. split; [reflexivity|].
  assert (Hparsed : u = {| neturl.Base := ProjectURL c project "wit/wiql";
                           neturl.RawQuery := "$top=" +:+ gostrings.Itoa top;
                           neturl.Fragment := "" |}).
  { change ("wit/wiql?$top=" +:+ gostrings.Itoa top)
      with ("wit/wiql" +:+ "?" +:+ "$top=" +:+ gostrings.Itoa top) in Hu.
    rewrite ProjectURL_query in Hu. unfold url_Parse in Hu.
    destruct (url_parse_error _) eqn:Herr; [discriminate|].
    pose proof (url_Parse_query (ProjectURL c project "wit/wiql")
                  ("$top=" +:+ gostrings.Itoa top) Herr) as Hq.
    unfold url_Parse in Hq. rewrite Herr in Hq. rewrite Hq in Hu; [congruence | |].
    - apply plain_ProjectURL; [assumption.. | now split].
    - rewrite ContainsByte_append. cbn [gostrings.ContainsByte Ascii.eqb Bool.eqb orb].
      now apply Itoa_digits. }
  subst u. split; [reflexivity|]. split; [|split; [|split; reflexivity]].
  - rewrite outgoing_Query. f_equal. unfold neturl.Query. cbn [neturl.RawQuery].
    apply (ParseQuery_single "$top" (gostrings.Itoa top)); [discriminate | |].
    + intros sep Hsep. cbn in Hsep. now repeat destruct Hsep as [<-|Hsep].
    + intros sep Hsep. cbn in Hsep.
      repeat destruct Hsep as [<-|Hsep]; try contradiction; now apply Itoa_digits.
  - cbn. apply lookup_insert_eq.
Qed.







End Queries.

Section QueryScenarios.
#[local] Existing Instance stubplus.runtime.
#[local] Existing Instance stubplus.library.
Import effects apiplus.

Lemma GetWorkItems_one_request_witness :
  let c := NewClient "org" "secret" in
  [7; 8]%Z <> [] /\ plain (BaseURL c)
  /\ (calls (GetWorkItems c "proj" [7; 8]%Z emptyWorld).2 = calls emptyWorld
      \/ exists req,
           calls (GetWorkItems c "proj" [7; 8]%Z emptyWorld).2
           = (calls emptyWorld ++ [req])%list
           /\ Method req = "GET"
           /\ neturl.Base (URL req) = "https://dev.azure.com/org/_apis/wit/workitems"
           /\ neturl.Query (URL req)
              = <["api-version" := [APIVersion c]]> {[ "ids" := ["7,8"] ]}
           /\ RequestBody req = None).
Proof.
  split; [discriminate|]. split; [split; reflexivity|].
  apply (GetWorkItems_one_request (NewClient "org" "secret") "proj" [7; 8]%Z emptyWorld).
  - discriminate.
  - split; reflexivity.
Defined.

Lemma QueryByWiql_one_request_witness :
  let c := NewClient "org" "secret" in
  plain (BaseURL c) /\ plain "proj"
  /\ (calls (QueryByWiql c "proj" "SELECT [System.Id] FROM WorkItems" 0 emptyWorld).2
      = calls emptyWorld
      \/ exists req data,
           calls (QueryByWiql c "proj" "SELECT [System.Id] FROM WorkItems" 0 emptyWorld).2
           = (calls emptyWorld ++ [req])%list
           /\ Method req = "POST"
           /\ neturl.Base (URL req) = ProjectURL c "proj" "wit/wiql"
           /\ neturl.Query (URL req)
              = <["api-version" := [APIVersion c]]> {[ "$top" := ["0"] ]}
           /\ Header req !! "Content-Type" = Some ["application/json"]
           /\ json_Marshal (WiqlBody "SELECT [System.Id] FROM WorkItems") = inr data
           /\ RequestBody req = Some data).
Proof.
  split; [split; reflexivity|]. split; [split; reflexivity|].
  apply (QueryByWiql_one_request (NewClient "org" "secret") "proj"
           "SELECT [System.Id] FROM WorkItems" 0 emptyWorld); split; reflexivity.
Defined.


End QueryScenarios.

(** ** What the commands check and what they send *)

Section Validation.
Context `{Runtime} `{apiplus.Library}.
Import effects apiplus cmdplus.
Variable env : Env.

(** X11.  [pr create] and [workitem create] name the first required
    flag that is missing ([--repo], [--title], [--source], [--target],
    in this order, and [--type], [--title]) and make no request. *)
Theorem create_required_flags (cmd : Command) (w : World) (client : Client)
    (project name : string) :
  newAPIClient env w = (Ok client, w) ->
  resolveProject env cmd w = (Ok project, w) ->
  (find (fun name => GetString cmd name =? "") ["repo"; "title"; "source"; "target"]
   = Some name ->
   runPRCreate env cmd w = (Err (Errorf ("--" +:+ name +:+ " is required")), w))
  /\ (find (fun name => GetString cmd name =? "") ["type"; "title"] = Some name ->
      runWorkitemCreate env cmd w = (Err (Errorf ("--" +:+ name +:+ " is required")), w)).
Proof.
  intros Hclient Hproject. split; intros Hfind.
  - unfold runPRCreate. step Hclient. step Hproject. cbv zeta. cbn [find] in Hfind.
    destruct (GetString cmd "repo" =? ""); [now injection Hfind as <-|].
    destruct (GetString cmd "title" =? ""); [now injection Hfind as <-|].
    destruct (GetString cmd "source" =? ""); [now injection Hfind as <-|].
    destruct (GetString cmd "target" =? ""); [now injection Hfind as <-|].
    discriminate.
  - unfold runWorkitemCreate. step Hclient. step Hproject. cbv zeta. cbn [find] in Hfind.
    destruct (GetString cmd "type" =? ""); [now injection Hfind as <-|].
    destruct (GetString cmd "title" =? ""); [now injection Hfind as <-|].
    discriminate.
Qed.

Lemma ensureRef_refs (b : string) : gostrings.HasPrefix (ensureRef b) "refs/" = true.
Proof.
  unfold ensureRef. destruct (gostrings.HasPrefix b "refs/") eqn:Hb; [exact Hb|].
  apply HasPrefix_iff. now exists ("heads/" +:+ b).
Qed.

(** X12.  With its four required flags given and the repository
    resolved, [pr create] makes at most one more request: a POST of the
    repository's pull requests whose body is the marshalled input.  In
    it both branches are full references (they start with [refs/]),
    and the reviewers are the comma-separated pieces of [--reviewers],
    trimmed, without the empty ones and in order; there are none when
    the flag is empty. *)
Theorem runPRCreate_request (cmd : Command) (w w1 : World) (client : Client)
    (project repoID : string) :
  newAPIClient env w = (Ok client, w) ->
  resolveProject env cmd w = (Ok project, w) ->
  GetString cmd "repo" <> "" -> GetString cmd "title" <> "" ->
  GetString cmd "source" <> "" -> GetString cmd "target" <> "" ->
  resolveRepoID client project (GetString cmd "repo") w = (Ok repoID, w1) ->
  let ids :=
    if GetString cmd "reviewers" =? "" then []
    else filter (fun r => r <> "")
           (map strings_TrimSpace (gostrings.Split (GetString cmd "reviewers") ",")) in
  let input :=
    {| SourceRefName := ensureRef (GetString cmd "source");
       TargetRefName := ensureRef (GetString cmd "target");
       Title := GetString cmd "title";
       Description := GetString cmd "description";
       IsDraft := GetBool cmd "draft";
       Reviewers := map (fun r => {| IdentityRef_ID := r; IdentityRef_DisplayName := "";
                                     IdentityRef_UniqueName := "" |}) ids |} in
  let w' := (runPRCreate env cmd w).2 in
  gostrings.HasPrefix (SourceRefName input) "refs/" = true
  /\ gostrings.HasPrefix (TargetRefName input) "refs/" = true
  /\ Forall (fun r => r <> "") ids
  /\ (calls w' = calls w1
      \/ exists u data,
           url_Parse (ProjectURL client project
                        ("git/repositories/" +:+ repoID +:+ "/pullrequests")) = Ok u
           /\ json_Marshal_CreatePRInput input = inr data
           /\ calls w'
              = (calls w1
                 ++ [spec.outgoing client "POST" "application/json" u (Some data)])%list).
Proof.
  intros Hclient Hproject Hrepo Htitle Hsource Htarget Hid. cbv zeta.
  split; [apply ensureRef_refs|]. split; [apply ensureRef_refs|]. split.
  { destruct (_ =? _); [constructor|].
    apply List.Forall_forall. intros r Hr. apply list_elem_of_In in Hr.
    now apply list_elem_of_filter in Hr as [Hr _]. }
  unfold runPRCreate. step Hclient. step Hproject. cbv zeta.
  destruct (String.eqb_spec (GetString cmd "repo") ""); [contradiction|].
  destruct (String.eqb_spec (GetString cmd "title") ""); [contradiction|].
  destruct (String.eqb_spec (GetString cmd "source") ""); [contradiction|].
  destruct (String.eqb_spec (GetString cmd "target") ""); [contradiction|].
  step Hid.
  set (input := if negb (GetString cmd "reviewers" =? "") then _ else _).
  set (input' := {| SourceRefName := _ |}).
  assert (input = input') as ->.
  { unfold input, input'. destruct (GetString cmd "reviewers" =? ""); [reflexivity|].
    cbn [negb SourceRefName TargetRefName Title Description IsDraft Reviewers].
    now rewrite addReviewers_filter. }
  rewrite calls_then.
  2: { intros pr w2. destruct (OutputFormat env =? "json");
         [now destruct (json_EncodeIndent_PullRequest pr)|].
       now destruct (OutputFormat env =? "plain"). }
  unfold orReturn.
  assert (Hcalls : forall r : Result PullRequest * World,
            calls (let (r0, w2) := r in
                   match r0 with
                   | Ok a => (Ok a, w2)
                   | Err err => (Err (Errorf_w "creating pull request: " err), w2)
                   end).2 = calls r.2).
  { now intros [[pr|e] w2]. }
  match goal with
  | |- calls (match ?r with _ => _ end).2 = _ \/ _ => rewrite (Hcalls r)
  end.
  unfold CreatePullRequest. cbv zeta. rewrite pure_then.
  2: { intros resp w2. unfold bind, lift, ret. now destruct (decodeOrClose resp _). }
  rewrite doRawMarshalled_sent.
  destruct (json_Marshal_CreatePRInput input') as [msg|data]; [now left|].
  destruct (url_Parse _) as [u|e]; [|now left].
  right. exists u, data. split; [reflexivity|]. split; [reflexivity|].
  cbv zeta. now destruct (transport (calls w1) _).
Qed.

End Validation.

Section ValidationScenarios.
#[local] Existing Instance stubplus.runtime.
#[local] Existing Instance stubplus.library.
Import effects apiplus cmdplus.

Lemma create_required_flags_witness :
  newAPIClient stub.env emptyWorld = (Ok (NewClient "org" "secret"), emptyWorld)
  /\ resolveProject stub.env (stub.command [("repo", "Alpha")]) emptyWorld
     = (Ok "proj", emptyWorld)
  /\ runPRCreate stub.env (stub.command [("repo", "Alpha")]) emptyWorld
     = (Err (Errorf "--title is required"), emptyWorld).
Proof.
  assert (Hclient : newAPIClient stub.env emptyWorld
                    = (Ok (NewClient "org" "secret"), emptyWorld))
    by (vm_compute; reflexivity).
  assert (Hproject : resolveProject stub.env (stub.command [("repo", "Alpha")]) emptyWorld
                     = (Ok "proj", emptyWorld))
    by (vm_compute; reflexivity).
  split; [exact Hclient|]. split; [exact Hproject|].
  apply (proj1 (create_required_flags stub.env (stub.command [("repo", "Alpha")])
                  emptyWorld (NewClient "org" "secret") "proj" "title"
                  Hclient Hproject)).
  vm_compute. reflexivity.
Defined.
Lemma runPRCreate_request_witness :
  let cmd := stub.command [("repo", "Alpha"); ("title", "Fix crash"); ("source", "fix");
                           ("target", "refs/heads/main"); ("reviewers", "u1, ,u2")] in
  let client := NewClient "org" "secret" in
  let w1 := (resolveRepoID client "proj" "Alpha" emptyWorld).2 in
  let w' := (runPRCreate stub.env cmd emptyWorld).2 in
  resolveRepoID client "proj" "Alpha" emptyWorld = (Ok "1", w1)
  /\ (calls w' = calls w1
      \/ exists u data,
           url_Parse (ProjectURL client "proj" "git/repositories/1/pullrequests") = Ok u
           /\ data = "refs/heads/fix -> refs/heads/main: Fix crash [u1,u2]"
           /\ calls w'
              = (calls w1
                 ++ [spec.outgoing client "POST" "application/json" u (Some data)])%list).
Proof.
  intros cmd client w1 w'.
  assert (Hclient : newAPIClient stub.env emptyWorld = (Ok client, emptyWorld))
    by (vm_compute; reflexivity).
  assert (Hproject : resolveProject stub.env cmd emptyWorld = (Ok "proj", emptyWorld))
    by (vm_compute; reflexivity).
  assert (Hrepo : GetString cmd "repo" = "Alpha") by (vm_compute; reflexivity).
  assert (Htitle : GetString cmd "title" <> "") by (vm_compute; discriminate).
  assert (Hsource : GetString cmd "source" <> "") by (vm_compute; discriminate).
  assert (Htarget : GetString cmd "target" <> "") by (vm_compute; discriminate).
  assert (Hid : resolveRepoID client "proj" (GetString cmd "repo") emptyWorld
                = (Ok "1", w1)) by (vm_compute; reflexivity).
  split; [vm_compute; reflexivity|].
  pose proof (runPRCreate_request stub.env cmd emptyWorld w1 client "proj" "1"
                Hclient Hproject) as Hthm.
  cbv zeta in Hthm.
  destruct Hthm as (_ & _ & _ & [Hsame | (u & data & Hu & Hdata & Hcalls)]);
    [rewrite Hrepo; discriminate | assumption.. | left; exact Hsame |].
  right. exists u, data. split; [exact Hu|]. split; [|exact Hcalls].
  vm_compute in Hdata. injection Hdata as <-. reflexivity.
Defined.

End ValidationScenarios.

(** ** Edge cases of the commands *)

Section Edges.
Context `{Runtime} `{apiplus.Library}.
Import effects apiplus cmdplus.

(** X13.  When the listing returns no pull request, [pr list] succeeds:
    in JSON format it prints the empty array [[]] on standard output, in
    the other formats it prints a notice on standard error and nothing
    on standard output; no further request is made. *)
Theorem runPRList_nothing_found (env : Env) (cmd : Command) (w w1 w2 : World)
    (client : Client) (project repoID : string) :
  newAPIClient env w = (Ok client, w) ->
  resolveProject env cmd w = (Ok project, w) ->
  (if negb (GetString cmd "repo" =? "")
   then resolveRepoID client project (GetString cmd "repo")
   else ret "") w = (Ok repoID, w1) ->
  ListPullRequests client project repoID
    {| Status := GetString cmd "status"; Creator := GetString cmd "creator";
       Reviewer := GetString cmd "reviewer"; Top := GetInt cmd "top" 20 |} w1
  = (Ok [], w2) ->
  runPRList env cmd w
  = (Ok tt,
     if OutputFormat env =? "json"
     then {| calls := calls w2; stdout := stdout w2 +:+ "[]" +:+ gostrings.newline;
             stderr := stderr w2 |}
     else {| calls := calls w2; stdout := stdout w2;
             stderr := stderr w2 +:+ "No pull requests found." +:+ gostrings.newline |}).
Proof.
  intros Hclient Hproject Hrepo Hlist. unfold runPRList.
  step Hclient. step Hproject. cbv zeta. step Hrepo.
  step (orReturn_Ok _ (Errorf_w "listing pull requests: ") _ _ _ Hlist).
  cbn [length Nat.eqb]. now destruct (OutputFormat env =? "json").
Qed.

(** X14.  [auth status] shows of the stored token its first four bytes
    and nothing else: two tokens of at least four bytes that agree on
    these give the same output, in every format. *)
Theorem runAuthStatus_shows_prefix_only (env env' : Env) (pat pat' : string) (w : World) :
  keyring_Get env = inr pat -> keyring_Get env' = inr pat' ->
  OutputFormat env = OutputFormat env' ->
  (4 <= String.length pat)%nat -> (4 <= String.length pat')%nat ->
  gostrings.sliceTo 4 pat = gostrings.sliceTo 4 pat' ->
  runAuthStatus env w = runAuthStatus env' w
  /\ TokenPrefix (authStatus env) = gostrings.sliceTo 4 pat +:+ "..."
  /\ String.length (TokenPrefix (authStatus env)) = 7.
Proof.
  intros Hk Hk' Hf Hl Hl' Hp.
  assert (Hs : forall e p, keyring_Get e = inr p -> (4 <= String.length p)%nat ->
                 authStatus e = {| Authenticated := true; TokenStored := true;
                                   TokenPrefix := gostrings.sliceTo 4 p +:+ "..." |}).
  { intros e p He Hlen. unfold authStatus. rewrite He.
    destruct p as [|a p]; [cbn in Hlen; lia|]. cbn [String.eqb negb andb].
    destruct (Nat.leb_spec 4 (String.length (String a p))); [reflexivity | lia]. }
  split; [|split].
  - unfold runAuthStatus. cbv zeta. now rewrite (Hs env pat), (Hs env' pat'), Hf, Hp.
  - now rewrite (Hs env pat).
  - rewrite (Hs env pat) by assumption. cbn [TokenPrefix].
    rewrite length_append, sliceTo_length by assumption. reflexivity.
Qed.

Lemma fold_append_map {A B : Type} (f : A -> B) (l : list A) (acc : list B) :
  fold_left (fun acc x => gostrings.append acc (f x)) l acc = (acc ++ map f l)%list.
Proof.
  revert acc; induction l as [|x l IH]; intros acc; cbn [fold_left map].
  - now rewrite app_nil_r.
  - rewrite IH. unfold gostrings.append. now rewrite <- app_assoc.
Qed.

(** X15.  The ids [workitem list] fetches are the ids of the query's
    result in its order, cut to the first [--top] of them when [--top]
    is positive; a limit of zero or less does not limit. *)
Theorem collectIDs_top (refs : list WiqlWorkItemRef) (top : Z) :
  collectIDs refs top
  = (if (0 <? top)%Z
     then take (Z.to_nat top) (map WiqlWorkItemRef_ID refs)
     else map WiqlWorkItemRef_ID refs)
  /\ ((0 < top)%Z -> (Z.of_nat (length (collectIDs refs top)) <= top)%Z)
  /\ ((top <= 0)%Z -> length (collectIDs refs top) = length refs).
Proof.
  assert (Heq : collectIDs refs top
                = if (0 <? top)%Z
                  then take (Z.to_nat top) (map WiqlWorkItemRef_ID refs)
                  else map WiqlWorkItemRef_ID refs).
  { unfold collectIDs. cbv zeta. rewrite fold_append_map. cbn [app].
    destruct (Z.ltb_spec 0 top); [|reflexivity]. cbn [andb].
    destruct (Z.ltb_spec top (Z.of_nat (length (map WiqlWorkItemRef_ID refs))));
      [reflexivity|].
    symmetry. apply take_ge. lia. }
  split; [exact Heq|]. split.
  - intros Htop. rewrite Heq. destruct (Z.ltb_spec 0 top); [|lia].
    rewrite length_take. lia.
  - intros Htop. rewrite Heq. destruct (Z.ltb_spec 0 top); [lia|].
    apply length_map.
Qed.

End Edges.

Section EdgeScenarios.
#[local] Existing Instance stubplus.runtime.
#[local] Existing Instance stubplus.library.
Import effects apiplus cmdplus.

Lemma runAuthStatus_shows_prefix_only_witness :
  let env' := {| viper_organization := "org"; viper_project := "proj";
                 viper_output_format := ""; keyring_Get := inr "secrxyz";
                 jsonOutput := false; plainOutput := false |} in
  runAuthStatus stub.env emptyWorld = runAuthStatus env' emptyWorld
  /\ TokenPrefix (authStatus stub.env) = "secr..."
  /\ String.length (TokenPrefix (authStatus stub.env)) = 7.
Proof.
  intros env'.
  apply (runAuthStatus_shows_prefix_only stub.env env' "secret" "secrxyz" emptyWorld);
    try reflexivity; cbn; lia.
Defined.

Lemma collectIDs_top_witness :
  (0 < 2)%Z
  /\ collectIDs [ mkWiqlWorkItemRef 7 ""; mkWiqlWorkItemRef 8 ""; mkWiqlWorkItemRef 9 "" ] 2
     = [7; 8]%Z
  /\ (Z.of_nat (length (collectIDs [ mkWiqlWorkItemRef 7 ""; mkWiqlWorkItemRef 8 "";
                                      mkWiqlWorkItemRef 9 "" ] 2)) <= 2)%Z.
Proof.
  split; [lia|]. split.
  - exact (proj1 (collectIDs_top [ mkWiqlWorkItemRef 7 ""; mkWiqlWorkItemRef 8 "";
                                   mkWiqlWorkItemRef 9 "" ] 2)).
  - apply (proj1 (proj2 (collectIDs_top [ mkWiqlWorkItemRef 7 ""; mkWiqlWorkItemRef 8 "";
                                          mkWiqlWorkItemRef 9 "" ] 2))). lia.
Defined.

End EdgeScenarios.

(** ** The configuration file and the keyring *)

Section Configuration.
Context `{config.System}.

Lemma Load_pure (m : config.Machine) : (config.Load m).2 = m.
Proof.
  unfold config.Load. destruct config.Path; [|reflexivity].
  destruct (config.os_ReadFile_error _); [reflexivity|].
  destruct (config.file m); [|reflexivity].
  now destruct (config.json_Unmarshal _).
Qed.

(** X16.  [config set] with a key other than the three known ones, or
    with an output format other than [table], [json] and [plain], and
    [config get] with an unknown key fail and change nothing: the file
    is not written and nothing is printed. *)
Theorem config_rejects (key value : string) (m : config.Machine) :
  (~ In key config.keys \/ (key = "output_format" /\ ~ In value config.formats) ->
   exists e, config.runConfigSet key value m = (Err e, m))
  /\ (~ In key config.keys -> exists e, config.runConfigGet key m = (Err e, m)).
Proof.
  pose proof (Load_pure m) as Hpure.
  split.
  - intros Hbad. unfold config.runConfigSet.
    destruct (config.Load m) as [[cfg|e] m1]; cbn in Hpure; subst m1; [|eauto].
    destruct Hbad as [Hkey | [-> Hvalue]].
    + destruct (String.eqb_spec key "organization") as [->|_];
        [exfalso; apply Hkey; cbn; auto|].
      destruct (String.eqb_spec key "project") as [->|_];
        [exfalso; apply Hkey; cbn; auto|].
      destruct (String.eqb_spec key "output_format") as [->|_];
        [exfalso; apply Hkey; cbn; auto|].
      eauto.
    + cbn [String.eqb Ascii.eqb Bool.eqb].
      destruct (String.eqb_spec value "table") as [->|_];
        [exfalso; apply Hvalue; cbn; auto|].
      destruct (String.eqb_spec value "json") as [->|_];
        [exfalso; apply Hvalue; cbn; auto|].
      destruct (String.eqb_spec value "plain") as [->|_];
        [exfalso; apply Hvalue; cbn; auto|].
      cbn [negb andb]. eauto.
  - intros Hkey. unfold config.runConfigGet.
    destruct (config.Load m) as [[cfg|e] m1]; cbn in Hpure; subst m1; [|eauto].
    destruct (String.eqb_spec key "organization") as [->|_];
      [exfalso; apply Hkey; cbn; auto|].
    destruct (String.eqb_spec key "project") as [->|_];
      [exfalso; apply Hkey; cbn; auto|].
    destruct (String.eqb_spec key "output_format") as [->|_];
      [exfalso; apply Hkey; cbn; auto|].
    eauto.
Qed.

Lemma Save_done (c : config.Config) (m m1 : config.Machine) :
  config.Save c m = (Ok tt, m1) ->
  exists data,
    config.json_MarshalIndent c = inr data
    /\ m1 = {| config.file := Some (data +:+ gostrings.newline);
               config.keyring := config.keyring m;
               config.out := config.out m; config.err := config.err m |}.
Proof.
  unfold config.Save. destruct config.Path; [|discriminate].
  destruct (config.os_MkdirAll _); [discriminate|].
  destruct (config.json_MarshalIndent c) as [msg|data]; [discriminate|].
  destruct (config.os_WriteFile_error _ _) as [[msg remains]|]; [discriminate|].
  intros [= <-]. now exists data.
Qed.

Lemma Load_written (cfg cfg' : config.Config) (m : config.Machine) (data : string)
    (k : option string) (o e : string) :
  config.Load m = (Ok cfg, m) ->
  config.json_Unmarshal data = inr cfg' ->
  config.Load {| config.file := Some data; config.keyring := k;
                 config.out := o; config.err := e |}
  = (Ok cfg', {| config.file := Some data; config.keyring := k;
                 config.out := o; config.err := e |}).
Proof.
  unfold config.Load. destruct config.Path; [|discriminate].
  destruct (config.os_ReadFile_error _); [discriminate|].
  intros _ Hu. cbn [config.file]. now rewrite Hu.
Qed.

Lemma get_set (cfg : config.Config) (key value : string) :
  In key config.keys ->
  config.get (config.set cfg key value) key = value
  /\ forall key', In key' config.keys -> key' <> key ->
       config.get (config.set cfg key value) key' = config.get cfg key'.
Proof.
  unfold config.keys. cbn [In].
  intros [<-|[<-|[<-|[]]]]; (split; [reflexivity|]);
    intros key' [<-|[<-|[<-|[]]]] Hne; try reflexivity; now contradiction Hne.
Qed.

Lemma runConfigGet_loaded (cfg : config.Config) (m : config.Machine) (key : string) :
  config.Load m = (Ok cfg, m) -> In key config.keys ->
  config.runConfigGet key m = config.Println (config.get cfg key) m.
Proof.
  intros Hl Hkey. unfold config.runConfigGet. rewrite Hl. unfold config.get.
  destruct (String.eqb_spec key "organization") as [_|Hne1]; [reflexivity|].
  destruct (String.eqb_spec key "project") as [_|Hne2]; [reflexivity|].
  destruct (String.eqb_spec key "output_format") as [_|Hne3]; [reflexivity|].
  exfalso. unfold config.keys in Hkey. cbn [In] in Hkey.
  destruct Hkey as [<-|[<-|[<-|[]]]]; [now apply Hne1 | now apply Hne2 | now apply Hne3].
Qed.

(** X17.  A [config set] that succeeds has loaded the configuration,
    has set the one key, a known one (and, for the output format, to
    one of the three formats), has written the whole configuration,
    marshalled and followed by a newline, to the file, and has
    confirmed on standard error.  When the JSON library reads that text
    back as the configuration, a following [config get] prints the new
    value for this key and the old values for the other keys. *)
Theorem config_set_then_get (key value : string) (m m' : config.Machine) :
  config.runConfigSet key value m = (Ok tt, m') ->
  exists cfg data,
    config.Load m = (Ok cfg, m)
    /\ In key config.keys
    /\ (key = "output_format" -> In value config.formats)
    /\ config.json_MarshalIndent (config.set cfg key value) = inr data
    /\ m' = {| config.file := Some (data +:+ gostrings.newline);
               config.keyring := config.keyring m;
               config.out := config.out m;
               config.err := config.err m +:+ "Set " +:+ key +:+ " = " +:+ value
                             +:+ gostrings.newline |}
    /\ (config.json_Unmarshal (data +:+ gostrings.newline)
        = inr (config.set cfg key value) ->
        config.runConfigGet key m' = config.Println value m'
        /\ forall key', In key' config.keys -> key' <> key ->
             config.runConfigGet key' m' = config.Println (config.get cfg key') m').
Proof.
  pose proof (Load_pure m) as Hpure. unfold config.runConfigSet.
  destruct (config.Load m) as [[cfg|e] m1] eqn:Hload; cbn in Hpure; subst m1;
    [|discriminate].
  set (updated := if key =? "organization" then _ else _).
  assert (Hupdated : forall cfg', updated = Ok cfg' ->
            cfg' = config.set cfg key value /\ In key config.keys
            /\ (key = "output_format" -> In value config.formats)).
  { intros cfg'. unfold updated, config.set, config.keys, config.formats.
    destruct (String.eqb_spec key "organization") as [->|_].
    { intros [= <-]. cbn. split; [reflexivity|]. split; [auto | discriminate]. }
    destruct (String.eqb_spec key "project") as [->|_].
    { intros [= <-]. cbn. split; [reflexivity|]. split; [auto | discriminate]. }
    destruct (String.eqb_spec key "output_format") as [->|_]; [|discriminate].
    destruct (String.eqb_spec value "table") as [->|_].
    { intros [= <-]. cbn. split; [reflexivity|]. split; auto. }
    destruct (String.eqb_spec value "json") as [->|_].
    { intros [= <-]. cbn. split; [reflexivity|]. split; auto. }
    destruct (String.eqb_spec value "plain") as [->|_]; [|discriminate].
    intros [= <-]. cbn. split; [reflexivity|]. split; auto 6. }
  destruct updated as [cfg'|e]; [|discriminate].
  destruct (Hupdated cfg' eq_refl) as (-> & Hkey & Hvalue).
  destruct (config.Save _ m) as [[[]|e] m1] eqn:Hsave; [|discriminate].
  destruct (Save_done _ _ _ Hsave) as (data & Hdata & ->).
  unfold config.Eprint. cbn [config.file config.keyring config.out config.err].
  intros [= <-]. exists cfg, data.
  split; [reflexivity|]. split; [exact Hkey|]. split; [exact Hvalue|].
  split; [exact Hdata|]. split; [reflexivity|].
  intros Hread.
  pose proof (Load_written cfg _ m _ (config.keyring m) (config.out m)
                (config.err m +:+ "Set " +:+ key +:+ " = " +:+ value +:+ gostrings.newline)
                Hload Hread) as Hload'.
  destruct (get_set cfg key value Hkey) as [Hsame Hother].
  split.
  - rewrite (runConfigGet_loaded _ _ key Hload' Hkey). now rewrite Hsame.
  - intros key' Hkey' Hne.
    rewrite (runConfigGet_loaded _ _ key' Hload' Hkey'). now rewrite Hother.
Qed.

(** X18.  [auth login] stores a token only when it is not empty: the
    value of [--pat], or without the flag the line read from standard
    input, trimmed, after the prompt on standard error.  A login that
    fails leaves the keyring as it was. *)
Theorem runAuthLogin_stores (patFlag : string) (m : config.Machine) :
  let (r, m') := config.runAuthLogin patFlag m in
  match r with
  | Ok _ =>
      exists pat,
        config.keyring m' = Some pat /\ pat <> ""
        /\ (patFlag <> "" ->
            pat = patFlag
            /\ config.err m' = config.err m +:+ "PAT stored successfully."
                               +:+ gostrings.newline)
        /\ (patFlag = "" ->
            exists line,
              config.stdin_ReadString = inr line /\ pat = config.strings_TrimSpace line
              /\ config.err m' = (config.err m +:+ "Enter PAT: ")
                                 +:+ "PAT stored successfully." +:+ gostrings.newline)
  | Err _ => config.keyring m' = config.keyring m
  end
  /\ config.file m' = config.file m /\ config.out m' = config.out m.
Proof.
  unfold config.runAuthLogin. cbv zeta.
  destruct (String.eqb_spec patFlag "") as [->|Hflag].
  - cbn [snd config.Eprint].
    destruct config.stdin_ReadString as [msg|line]; [now cbn|].
    destruct (String.eqb_spec (config.strings_TrimSpace line) "") as [He|Hne]; [now cbn|].
    destruct (config.keyring_Set_error _); [now cbn|].
    cbn. split; [|now split]. exists (config.strings_TrimSpace line).
    split; [reflexivity|]. split; [assumption|]. split; [intros Hc; now contradiction Hc|].
    intros _. now exists line.
  - destruct (String.eqb_spec patFlag "") as [He|_]; [contradiction|].
    destruct (config.keyring_Set_error _); [now cbn|].
    cbn. split; [|now split]. exists patFlag.
    split; [reflexivity|]. split; [assumption|]. split; [now intros _|].
    intros Hc. contradiction.
Qed.

End Configuration.

Section ConfigurationScenarios.
#[local] Existing Instance config.stub.system.

Lemma config_rejects_witness :
  ~ In "colour" config.keys
  /\ (exists e, config.runConfigSet "colour" "blue" config.stub.fresh
                = (Err e, config.stub.fresh))
  /\ exists e, config.runConfigSet "output_format" "xml" config.stub.fresh
               = (Err e, config.stub.fresh).
Proof.
  assert (Hkey : ~ In "colour" config.keys).
  { cbn. intros [Hc|[Hc|[Hc|[]]]]; discriminate. }
  split; [exact Hkey|]. split.
  - apply (proj1 (config_rejects "colour" "blue" config.stub.fresh)). now left.
  - apply (proj1 (config_rejects "output_format" "xml" config.stub.fresh)).
    right. split; [reflexivity|]. cbn. intros [Hc|[Hc|[Hc|[]]]]; discriminate.
Defined.

Lemma config_set_then_get_witness :
  let m' := (config.runConfigSet "project" "web" config.stub.fresh).2 in
  config.runConfigSet "project" "web" config.stub.fresh = (Ok tt, m')
  /\ config.runConfigGet "project" m' = config.Println "web" m'
  /\ config.runConfigGet "output_format" m' = config.Println "table" m'.
Proof.
  intros m'.
  assert (Hset : config.runConfigSet "project" "web" config.stub.fresh = (Ok tt, m'))
    by (vm_compute; reflexivity).
  split; [exact Hset|].
  destruct (config_set_then_get "project" "web" config.stub.fresh m' Hset)
    as (cfg & data & Hload & _ & _ & Hdata & _ & Hget).
  vm_compute in Hload. injection Hload as <-.
  vm_compute in Hdata. injection Hdata as <-.
  destruct Hget as [Hsame Hother]; [vm_compute; reflexivity|].
  split; [exact Hsame|].
  apply (Hother "output_format"); [cbn; auto | discriminate].
Defined.

Lemma runAuthLogin_stores_witness :
  exists pat,
    config.keyring (config.runAuthLogin "tok" config.stub.fresh).2 = Some pat
    /\ pat <> "" /\ pat = "tok".
Proof.
  pose proof (runAuthLogin_stores "tok" config.stub.fresh) as Hthm.
  destruct (config.runAuthLogin "tok" config.stub.fresh) as [r m'] eqn:Hrun.
  vm_compute in Hrun. injection Hrun as <- <-.
  destruct Hthm as [(pat & Hk & Hne & Hflag & _) _].
  destruct (Hflag ltac:(discriminate)) as [Hpat _].
  exists pat. split; [exact Hk|]. split; [exact Hne | exact Hpat].
Defined.

End ConfigurationScenarios.

Section NothingFound.
#[local] Existing Instance stubplus.runtime.
#[local] Existing Instance stubplus.libraryNone.
Import effects apiplus cmdplus.

Lemma runPRList_nothing_found_witness :
  fst (runPRList stub.env (stub.command []) emptyWorld) = Ok tt
  /\ stdout (runPRList stub.env (stub.command []) emptyWorld).2 = ""
  /\ stderr (runPRList stub.env (stub.command []) emptyWorld).2
     = "No pull requests found." +:+ gostrings.newline
  /\ length (calls (runPRList stub.env (stub.command []) emptyWorld).2) = 1.
Proof.
  pose (client := NewClient "org" "secret").
  pose (query := {| Status := GetString (stub.command []) "status";
                    Creator := GetString (stub.command []) "creator";
                    Reviewer := GetString (stub.command []) "reviewer";
                    Top := GetInt (stub.command []) "top" 20 |}).
  pose (w2 := (ListPullRequests client "proj" "" query emptyWorld).2).
  assert (Hclient : newAPIClient stub.env emptyWorld = (Ok client, emptyWorld))
    by (vm_compute; reflexivity).
  assert (Hproject : resolveProject stub.env (stub.command []) emptyWorld
                     = (Ok "proj", emptyWorld)) by (vm_compute; reflexivity).
  assert (Hrepo : (if negb (GetString (stub.command []) "repo" =? "")
                   then resolveRepoID client "proj" (GetString (stub.command []) "repo")
                   else ret "") emptyWorld = (Ok "", emptyWorld))
    by (vm_compute; reflexivity).
  assert (Hlist : ListPullRequests client "proj" "" query emptyWorld = (Ok [], w2))
    by (vm_compute; reflexivity).
  rewrite (runPRList_nothing_found stub.env (stub.command []) emptyWorld emptyWorld w2
             client "proj" "" Hclient Hproject Hrepo Hlist).
  vm_compute. repeat split; reflexivity.
Defined.

End NothingFound.

Section Show.
Context `{Runtime} `{apiplus.Library}.
Import effects apiplus cmdplus.

(** X19.  [pr show] and [workitem show], given an id in decimal, ask
    for the record of that very id: each makes at most one request, a
    GET without body of [<project URL>/git/pullrequests/<id>] and of
    [<base>/wit/workitems/<id>], the id written as it was given. *)
Theorem show_requests_the_id (env : Env) (cmd : Command) (id : Z) (client : Client)
    (project : string) (w : World) :
  (- 2 ^ 63 <= id <= 2 ^ 63 - 1)%Z ->
  newAPIClient env w = (Ok client, w) ->
  resolveProject env cmd w = (Ok project, w) ->
  let args0 := gostrings.Itoa id in
  let sent (w' : World) (target : string) : Prop :=
    calls w' = calls w
    \/ exists u,
         url_Parse target = Ok u
         /\ calls w' = (calls w ++ [spec.outgoing client "GET" "application/json" u None])%list in
  sent (runPRShow env cmd args0 w).2 (ProjectURL client project ("git/pullrequests/" +:+ args0))
  /\ sent (runWorkitemShow env cmd args0 w).2 (BaseURL client +:+ "/wit/workitems/" +:+ args0).
Proof.
  intros Hid Hclient Hproject. cbv zeta. split.
  - rewrite (runPRShow_calls env cmd _ id client project w (Atoi_Itoa id Hid) Hclient Hproject).
    rewrite GetPullRequest_roundTrip.
    destruct (roundTrip_sent client "GET"
                (ProjectURL client project ("git/pullrequests/" +:+ gostrings.Itoa id))
                "application/json" None
                (fun resp => decodeOrClose resp (into decode_PullRequest)) w)
      as [Hsame | (u & data & Hu & Hdata & Hcalls)]; [now left | right].
    injection Hdata as <-. now exists u.
  - rewrite (runWorkitemShow_calls env cmd _ id client project w (Atoi_Itoa id Hid)
               Hclient Hproject).
    unfold GetWorkItem. cbv zeta. rewrite pure_then by reflexivity.
    unfold Get. rewrite pure_then by reflexivity. rewrite do_as_roundTrip.
    destruct (roundTrip_sent client "GET"
                (BaseURL client +:+ "/" +:+ "wit/workitems/" +:+ gostrings.Itoa id)
                "application/json" None Ok w)
      as [Hsame | (u & data & Hu & Hdata & Hcalls)]; [now left | right].
    injection Hdata as <-. now exists u.
Qed.

End Show.

Section ShowScenario.
#[local] Existing Instance stubplus.runtime.
#[local] Existing Instance stubplus.library.
Import effects apiplus cmdplus.

Lemma show_requests_the_id_witness :
  let client := NewClient "org" "secret" in
  (- 2 ^ 63 <= 42 <= 2 ^ 63 - 1)%Z
  /\ (calls (runPRShow stub.env (stub.command []) "42" emptyWorld).2 = calls emptyWorld
      \/ exists u,
           url_Parse (ProjectURL client "proj" "git/pullrequests/42") = Ok u
           /\ calls (runPRShow stub.env (stub.command []) "42" emptyWorld).2
              = (calls emptyWorld
                 ++ [spec.outgoing client "GET" "application/json" u None])%list).
Proof.
  intros client.
  assert (Hclient : newAPIClient stub.env emptyWorld = (Ok client, emptyWorld))
    by (vm_compute; reflexivity).
  assert (Hproject : resolveProject stub.env (stub.command []) emptyWorld
                     = (Ok "proj", emptyWorld)) by (vm_compute; reflexivity).
  split; [lia|].
  exact (proj1 (show_requests_the_id stub.env (stub.command []) 42 client "proj" emptyWorld
                  ltac:(lia) Hclient Hproject)).
Defined.

End ShowScenario.
